(** * GuideBot: route construction (guide.py) and live guidance (bot.py)

    A shallow embedding of the two Python modules.  Python floats are
    modelled by the rational they denote ([Q]); every rounding of an exact
    arithmetic result to a binary64 value goes through [fl], a field of the
    interface [Lib] that also collects the functions of the external
    packages (haversine, osmnx, networkx path search).  Python ints are [Z].
    Handlers run in a state-and-exception monad in which a raised exception
    keeps the state reached so far, as in Python. *)

From Stdlib Require Import QArith Qround Qabs ZArith String List Lia Lqa.
From stdpp Require Import gmap strings list fin_maps.

Open Scope string_scope.
Open Scope list_scope.
Open Scope Z_scope.

(** ** Python numbers *)

Definition Qlt_bool (a b : Q) : bool := negb (Qle_bool b a).

(** Truth value of a float: every float but zero is true. *)
Definition float_truthy (x : Q) : bool := negb (Qeq_bool x 0).

(** Truth value of an int. *)
Definition int_truthy (n : Z) : bool := negb (n =? 0).

(** [round(x)] on a float: nearest integer, ties to the even one. *)
Definition pyround (x : Q) : Z :=
  let f := Qfloor x in
  match Qcompare (x - inject_Z f) (1 # 2) with
  | Lt => f
  | Gt => f + 1
  | Eq => if Z.even f then f else f + 1
  end.

(** [int(x)] on a float: truncation towards zero. *)
Definition pyint (x : Q) : Z := Z.quot (Qnum x) (Z.pos (Qden x)).

(** A coordinate pair; [t[::-1]] on a pair swaps it. *)
Definition coord : Type := Q * Q.

Definition reversed (c : coord) : coord := (snd c, fst c).

(** Tuple comparison [a <= b] on pairs of floats: decided on the first
    component that differs. *)
Definition tuple_le (a b : coord) : bool :=
  if Qeq_bool (fst a) (fst b)
  then (if Qeq_bool (snd a) (snd b) then true else Qle_bool (snd a) (snd b))
  else Qle_bool (fst a) (fst b).

(** ** Exceptions and the handler monad *)

Inductive exn : Type :=
| KeyError
| IndexError
| TypeError
| AttributeError
| AssertionError (msg : string)
| NetworkXNoPath
| NominatimError
| NoTargetError
| TooNearError (distance : Z)
| NoDestinationError.

Inductive result (A : Type) : Type :=
| Ok (a : A)
| Raise (e : exn).

Arguments Ok {A} a.
Arguments Raise {A} e.

Definition M (S A : Type) : Type := S -> S * result A.

Definition ret {S A} (a : A) : M S A := fun s => (s, Ok a).

Definition raise {S A} (e : exn) : M S A := fun s => (s, Raise e).

Definition bind {S A B} (m : M S A) (k : A -> M S B) : M S B :=
  fun s => match m s with
           | (s', Ok a) => k a s'
           | (s', Raise e) => (s', Raise e)
           end.

Definition get {S} : M S S := fun s => (s, Ok s).

Definition modify {S} (f : S -> S) : M S unit := fun s => (f s, Ok tt).

(** [try: m except: h] with a handler that sees the exception. *)
Definition try_except {S A} (m : M S A) (h : exn -> M S A) : M S A :=
  fun s => match m s with
           | (s', Ok a) => (s', Ok a)
           | (s', Raise e) => h e s'
           end.

(** A lookup that raises when the value is absent. *)
Definition required {S A} (e : exn) (o : option A) : M S A :=
  match o with
  | Some a => ret a
  | None => raise e
  end.

Definition assert_ {S} (b : bool) (msg : string) : M S unit :=
  if b then ret tt else raise (AssertionError msg).

Notation "'do' x <~ c ;;; k" := (bind c (fun x => k))
  (at level 10, x name, c at level 100, k at level 200, only parsing).
Notation "'run' c ;;; k" := (bind c (fun _ => k))
  (at level 10, c at level 100, k at level 200, only parsing).

(** A run of [m] keeps the view [f] of the state, however it ends. *)
Definition preserves {S A X} (f : S -> X) (m : M S A) : Prop :=
  forall s s' r, m s = (s', r) -> f s' = f s.

(** Whatever [m] raises satisfies [P]. *)
Definition raises_only {S A} (P : exn -> Prop) (m : M S A) : Prop :=
  forall s s' e, m s = (s', Raise e) -> P e.

Definition not_assertion (e : exn) : Prop :=
  match e with
  | AssertionError _ => False
  | _ => True
  end.

(** Indexing [l[i]] with Python's negative indices. *)
Definition py_index {A} (l : list A) (i : Z) : option A :=
  let n := Z.of_nat (length l) in
  if (0 <=? i) && (i <? n) then l !! Z.to_nat i
  else if (- n <=? i) && (i <? 0) then l !! Z.to_nat (n + i)
  else None.

(** [l.pop(-1)] on a list known to be non-empty. *)
Definition pop_last {A} (l : list A) : list A := removelast l.

(** ** The street network: a networkx MultiDiGraph *)

Inductive node_id : Type :=
| OsmNode (n : Z)
| Named (s : string).

#[global] Instance node_id_eq_dec : EqDecision node_id.
Proof. solve_decision. Defined.

#[global] Instance node_id_countable : Countable node_id.
Proof.
  refine (inj_countable'
            (fun n => match n with OsmNode z => inl z | Named s => inr s end)
            (fun x => match x with inl z => OsmNode z | inr s => Named s end) _).
  intros []; reflexivity.
Defined.

(** Node attribute dict: the keys the program reads. *)
Record node_attrs : Type := {
  n_y : option Q;
  n_x : option Q
}.

Definition no_attrs : node_attrs := {| n_y := None; n_x := None |}.

(** Truth value of an attribute dict: true unless empty. *)
Definition attrs_truthy (a : node_attrs) : bool :=
  match n_y a, n_x a with
  | None, None => false
  | _, _ => true
  end.

Inductive osmid : Type :=
| OsmidInt (z : Z)
| OsmidList (l : list Z).

#[global] Instance osmid_eq_dec : EqDecision osmid.
Proof. solve_decision. Defined.

Inductive name_attr : Type :=
| NameStr (s : string)
| NameList (l : list string).

Record edge_attrs : Type := {
  e_osmid : option osmid;
  e_name : option name_attr;
  e_length : option Q;
  e_bearing : option Q
}.

Definition bare_edge : edge_attrs :=
  {| e_osmid := None; e_name := None; e_length := None; e_bearing := None |}.

(** The parallel edges between one ordered pair of nodes, by key, in
    insertion order. *)
Abbreviation keydict := (list (nat * edge_attrs)).

Record MultiDiGraph : Type := {
  g_node : gmap node_id node_attrs;
  g_adj : gmap (node_id * node_id) keydict
}.

Definition key_lookup (k : nat) (kd : keydict) : option edge_attrs :=
  snd <$> List.find (fun e => Nat.eqb (fst e) k) kd.

(** [graph.get_edge_data(u, v, key=k)]: the attribute dict or None. *)
Definition get_edge_data (g : MultiDiGraph) (u v : node_id) (k : nat)
  : option edge_attrs :=
  match g_adj g !! (u, v) with
  | Some kd => key_lookup k kd
  | None => None
  end.

(** [graph.add_node(n, **attr)]: creates the node or updates its dict. *)
Definition add_node (n : node_id) (attr : node_attrs) (g : MultiDiGraph)
  : MultiDiGraph :=
  let merged :=
    match g_node g !! n with
    | None => attr
    | Some old =>
        {| n_y := match n_y attr with Some v => Some v | None => n_y old end;
           n_x := match n_x attr with Some v => Some v | None => n_x old end |}
    end in
  {| g_node := <[n := merged]> (g_node g); g_adj := g_adj g |}.

(** [new_edge_key]: start at the number of parallel edges and count up
    while the key is taken. *)
Fixpoint first_free_key (fuel : nat) (k : nat) (kd : keydict) : nat :=
  match fuel with
  | O => k
  | S fuel' =>
      match key_lookup k kd with
      | Some _ => first_free_key fuel' (S k) kd
      | None => k
      end
  end.

Definition new_edge_key (kd : keydict) : nat :=
  first_free_key (S (length kd)) (length kd) kd.

Definition ensure_node (n : node_id) (g : MultiDiGraph) : MultiDiGraph :=
  match g_node g !! n with
  | Some _ => g
  | None => {| g_node := <[n := no_attrs]> (g_node g); g_adj := g_adj g |}
  end.

(** [graph.add_edge(u, v, **attr)] with no key given. *)
Definition add_edge (u v : node_id) (attr : edge_attrs) (g : MultiDiGraph)
  : MultiDiGraph :=
  let g1 := ensure_node v (ensure_node u g) in
  let kd := default [] (g_adj g1 !! (u, v)) in
  {| g_node := g_node g1;
     g_adj := <[(u, v) := kd ++ [(new_edge_key kd, attr)]]> (g_adj g1) |}.

Definition add_edges_from (es : list (node_id * node_id)) (g : MultiDiGraph)
  : MultiDiGraph :=
  fold_left (fun acc e => add_edge (fst e) (snd e) bare_edge acc) es g.

(** [remove_nodes_from]: a node goes with every edge that touches it; a
    name that is no node is skipped. *)
Definition remove_node (n : node_id) (g : MultiDiGraph) : MultiDiGraph :=
  match g_node g !! n with
  | None => g
  | Some _ =>
      {| g_node := delete n (g_node g);
         g_adj := filter (fun p => fst (fst p) <> n /\ snd (fst p) <> n)
                         (g_adj g) |}
  end.

Definition remove_nodes_from (ns : list node_id) (g : MultiDiGraph)
  : MultiDiGraph :=
  fold_left (fun acc n => remove_node n acc) ns g.

(** [remove_edges_from] with pairs: drops the most recently added parallel
    edge; a pair with no edge is skipped. *)
Definition remove_edge (u v : node_id) (g : MultiDiGraph) : MultiDiGraph :=
  match g_adj g !! (u, v) with
  | None => g
  | Some kd =>
      match removelast kd with
      | [] => {| g_node := g_node g; g_adj := delete (u, v) (g_adj g) |}
      | kd' => {| g_node := g_node g; g_adj := <[(u, v) := kd']> (g_adj g) |}
      end
  end.

Definition remove_edges_from (es : list (node_id * node_id))
  (g : MultiDiGraph) : MultiDiGraph :=
  fold_left (fun acc e => remove_edge (fst e) (snd e) acc) es g.

(** [graph.nodes[n][k]] for k in ('x', 'y'), as a tuple. *)
Definition node_xy (g : MultiDiGraph) (n : node_id) : option coord :=
  match g_node g !! n with
  | Some a =>
      match n_x a, n_y a with
      | Some x, Some y => Some (x, y)
      | _, _ => None
      end
  | None => None
  end.

(** ** External packages

    The functions of haversine, osmnx, networkx and the geocoder that the
    two modules call.  A call that raises is [None]. *)
Class Lib : Type := {
  (** rounding of an exact result to the nearest binary64 value *)
  fl : Q -> Q;
  (** [haversine(a, b, 'm')] on (latitude, longitude) pairs *)
  haversine : coord -> coord -> Q;
  (** [ox.get_nearest_node(graph, point, return_dist=True)] *)
  get_nearest_node : MultiDiGraph -> coord -> node_id * Q;
  (** [nx.shortest_path(graph, u, v, weight='length')] *)
  shortest_path : MultiDiGraph -> node_id -> node_id -> option (list node_id);
  (** [ox.truncate_graph_dist(graph, node, max_distance=d)]: a copy *)
  truncate_graph_dist : MultiDiGraph -> node_id -> Q -> option MultiDiGraph;
  (** [ox.get_nearest_edge(graph, point)]: the end nodes of the edge *)
  get_nearest_edge : MultiDiGraph -> coord -> option (node_id * node_id);
  (** [ox.get_bearing(a, b)] *)
  get_bearing : coord -> coord -> Q;
  (** [ox.geocode(query)]: a (latitude, longitude) pair *)
  geocode : string -> option coord
}.

(** One element of a route: the dict built per window of three nodes. *)
Record segment : Type := {
  s_angle : option Q;
  s_current_name : option string;
  s_dst : option coord;
  s_length : option Q;
  s_mid : coord;
  s_next_name : option string;
  s_src : coord
}.

(** ** guide.py *)

Module Guide.
Section WithLib.
Context {L : Lib}.

Definition FIND_DST : Z := 1000.
Definition FARTHEST_NODE : Z := 2000.

(** [x % m] on floats: C's fmod, moved to the sign of [m]. *)
Definition float_mod (x m : Q) : Q :=
  let r := (x - inject_Z (pyint (x / m)) * m)%Q in
  if float_truthy r
  then (if xorb (Qlt_bool m 0) (Qlt_bool r 0) then fl (r + m)%Q else r)
  else 0%Q.

(** The test of the first [try] block: is the edge nearest to the raw
    source the first edge of the path?  [None] when anything raised. *)
Definition nearest_is_first (graph : MultiDiGraph) (source_node : node_id)
  (src_distance : Q) (source_location : coord) (path : list node_id)
  : option bool :=
  src_graph ← truncate_graph_dist graph source_node
                (fl (src_distance + inject_Z FIND_DST)%Q);
  first_edge ← get_nearest_edge src_graph source_location;
  edge_data ← get_edge_data graph (fst first_edge) (snd first_edge) 0;
  id1 ← e_osmid edge_data;
  p0 ← py_index path 0;
  p1 ← py_index path 1;
  path_edge ← get_edge_data graph p0 p1 0;
  id2 ← e_osmid path_edge;
  Some (bool_decide (id1 = id2)).

Definition nearest_is_last (graph : MultiDiGraph) (destiny_node : node_id)
  (dst_distance : Q) (destination_location : coord) (path : list node_id)
  : option bool :=
  dst_graph ← truncate_graph_dist graph destiny_node
                (fl (dst_distance + inject_Z FIND_DST)%Q);
  last_edge ← get_nearest_edge dst_graph destination_location;
  edge_data ← get_edge_data graph (fst last_edge) (snd last_edge) 0;
  id1 ← e_osmid edge_data;
  p2 ← py_index path (-2);
  p1 ← py_index path (-1);
  path_edge ← get_edge_data graph p2 p1 0;
  id2 ← e_osmid path_edge;
  Some (bool_decide (id1 = id2)).

(** Both [try] blocks, entered when the path has more than one node. *)
Definition trim_path (graph : MultiDiGraph) (source_node destiny_node : node_id)
  (src_distance dst_distance : Q) (source_location destination_location : coord)
  (path : list node_id) : list node_id :=
  if (1 <? Z.of_nat (length path)) then
    let path1 :=
      match nearest_is_first graph source_node src_distance
                             source_location path with
      | Some true => tail path
      | _ => path
      end in
    match nearest_is_last graph destiny_node dst_distance
                          destination_location path1 with
    | Some true => pop_last path1
    | _ => path1
    end
  else path.

(** The working nodes: the two anchors and the node after the end. *)
Definition anchors : list node_id :=
  [Named "src_node"; Named "dst_node"; Named "end"].

(** [h] is [g] on every node and edge away from the working nodes. *)
Definition agrees_off_anchors (g h : MultiDiGraph) : Prop :=
  (forall n, n ∉ anchors -> g_node h !! n = g_node g !! n) /\
  (forall u v, u ∉ anchors -> v ∉ anchors ->
     g_adj h !! (u, v) = g_adj g !! (u, v)).

(** No node of [g] bears a working node's name. *)
Definition anchors_fresh (g : MultiDiGraph) : Prop :=
  forall n, n ∈ anchors -> g_node g !! n = None.

(** Every edge of [g] joins two nodes of [g]. *)
Definition edges_closed (g : MultiDiGraph) : Prop :=
  forall u v, is_Some (g_adj g !! (u, v)) ->
    is_Some (g_node g !! u) /\ is_Some (g_node g !! v).

(** [path.insert(0, 'src_node'); path.extend(('dst_node', 'end'))] *)
Definition splice_path (path : list node_id) : list node_id :=
  Named "src_node" :: path ++ [Named "dst_node"; Named "end"].

(** The working nodes and edges are added to the graph that was passed
    in: lines 217 to 235. *)
Definition insert_anchors (source_location destination_location : coord)
  (path : list node_id) : M MultiDiGraph unit :=
  run modify (add_node (Named "src_node")
                {| n_y := Some (fst source_location);
                   n_x := Some (snd source_location) |}) ;;;
  run modify (add_node (Named "dst_node")
                {| n_y := Some (fst destination_location);
                   n_x := Some (snd destination_location) |}) ;;;
  run modify (add_node (Named "end") no_attrs) ;;;
  do graph <~ get ;;;
  do p3 <~ required IndexError (py_index path (-3)) ;;;
  do origin <~ required KeyError (node_xy graph p3) ;;;
  let final := reversed destination_location in
  let last_bear := if tuple_le origin final
                   then get_bearing origin final
                   else get_bearing final origin in
  do a0 <~ required IndexError (py_index path 0) ;;;
  do a1 <~ required IndexError (py_index path 1) ;;;
  do b2 <~ required IndexError (py_index path (-2)) ;;;
  do b1 <~ required IndexError (py_index path (-1)) ;;;
  run modify (add_edges_from [(a0, a1); (b2, b1)]) ;;;
  do c3 <~ required IndexError (py_index path (-3)) ;;;
  do c2 <~ required IndexError (py_index path (-2)) ;;;
  modify (add_edge c3 c2
            {| e_osmid := None; e_name := None; e_length := None;
               e_bearing := Some last_bear |}).

(** A street name: the first one when the edge carries a list. *)
Definition first_name (n : option name_attr) : M MultiDiGraph (option string) :=
  match n with
  | None => ret None
  | Some (NameStr s) => ret (Some s)
  | Some (NameList []) => raise IndexError
  | Some (NameList (s :: _)) => ret (Some s)
  end.

(** The body of the loop over the path: one window, one dict. *)
Definition make_segment (src mid dst : node_id) : M MultiDiGraph segment :=
  do graph <~ get ;;;
  let sm_edge := get_edge_data graph src mid 0 in
  let md_edge := get_edge_data graph mid dst 0 in
  let angle :=
    match md_edge, sm_edge with
    | Some md, Some sm =>
        match e_bearing md, e_bearing sm with
        | Some b2, Some b1 => Some (float_mod (fl (b2 - b1)%Q) (inject_Z 360))
        | _, _ => None
        end
    | _, _ => None
    end in
  do sm <~ required AttributeError sm_edge ;;;
  do current_name <~ first_name (e_name sm) ;;;
  let length := e_length sm in
  do md <~ required AttributeError md_edge ;;;
  do next_name <~ first_name (e_name md) ;;;
  do dst_attrs <~ required KeyError (g_node graph !! dst) ;;;
  do dst_xy <~ (if attrs_truthy dst_attrs
                then (do xy <~ required KeyError (node_xy graph dst) ;;;
                      ret (Some xy))
                else ret None) ;;;
  do mid_xy <~ required KeyError (node_xy graph mid) ;;;
  do src_xy <~ required KeyError (node_xy graph src) ;;;
  ret {| s_angle := angle; s_current_name := current_name; s_dst := dst_xy;
         s_length := length; s_mid := mid_xy; s_next_name := next_name;
         s_src := src_xy |}.

(** [for node in path[2:]] with [src, mid, dst = mid, dst, node]. *)
Fixpoint route_sections (mid dst : node_id) (rest : list node_id)
  : M MultiDiGraph (list segment) :=
  match rest with
  | [] => ret []
  | node :: rest' =>
      do s <~ make_segment mid dst node ;;;
      do r <~ route_sections dst node rest' ;;;
      ret (s :: r)
  end.

(** Lines 275 to 280: the working nodes go, with their edges. *)
Definition discard_anchors (path : list node_id) : M MultiDiGraph unit :=
  run modify (remove_nodes_from anchors) ;;;
  do a0 <~ required IndexError (py_index path 0) ;;;
  do a1 <~ required IndexError (py_index path 1) ;;;
  do b3 <~ required IndexError (py_index path (-3)) ;;;
  do b2 <~ required IndexError (py_index path (-2)) ;;;
  do c2 <~ required IndexError (py_index path (-2)) ;;;
  do c1 <~ required IndexError (py_index path (-1)) ;;;
  modify (remove_edges_from [(a0, a1); (b3, b2); (c2, c1)]).

(** From the splice to the return: lines 210 to 282. *)
Definition build_route (source_location destination_location : coord)
  (trimmed : list node_id) : M MultiDiGraph (list segment) :=
  let path := splice_path trimmed in
  run insert_anchors source_location destination_location path ;;;
  do mid <~ required IndexError (py_index path 0) ;;;
  do dst <~ required IndexError (py_index path 1) ;;;
  do route <~ route_sections mid dst (drop 2 path) ;;;
  run discard_anchors path ;;;
  ret route.

(** From the shortest-path search on: lines 165 to 282. *)
Definition route_from_snapped (source_location destination_location : coord)
  (source_node destiny_node : node_id) (src_distance dst_distance : Q)
  : M MultiDiGraph (list segment) :=
  do graph <~ get ;;;
  do path <~ required NetworkXNoPath (shortest_path graph source_node destiny_node) ;;;
  build_route source_location destination_location
    (trim_path graph source_node destiny_node src_distance dst_distance
               source_location destination_location path).

Definition get_directions (source_location destination_location : coord)
  : M MultiDiGraph (list segment) :=
  do graph <~ get ;;;
  let src_snap := get_nearest_node graph source_location in
  run assert_ (Qlt_bool (snd src_snap) (inject_Z FARTHEST_NODE))
              "source is out of bounds" ;;;
  let dst_snap := get_nearest_node graph destination_location in
  run assert_ (Qlt_bool (snd dst_snap) (inject_Z FARTHEST_NODE))
              "destination is out of bounds" ;;;
  route_from_snapped source_location destination_location
    (fst src_snap) (fst dst_snap) (snd src_snap) (snd dst_snap).

End WithLib.
End Guide.

(** ** bot.py *)

Module Bot.

Definition NEAR_DST : Z := 20.
Definition AWAY_DST : Z := 80.
Definition FAR_AWAY_DST : Z := 250.
Definition MAX_TIME : Z := 240.
Definition N : Z := 3.

Inductive turn : Type :=
| GoStraight
| TurnHalfRight
| TurnRight
| TurnStrongRight
| TurnStrongLeft
| TurnLeft
| TurnHalfLeft.

Inductive side : Type :=
| InFront
| AtRight
| AtLeft.

(** The three texts [_message_route] can return, by their data. *)
Inductive message : Type :=
| StartMessage (loc : coord) (last : Z) (mid : coord) (next_name : string)
    (dist : Z)
| CheckpointMessage (current last : Z) (loc : coord) (street : string)
    (t : turn) (dist : Z)
| ArrivalMessage (dist : Z) (s : side).

(** What the bot sends to the chat. *)
Inductive event : Type :=
| Guidance (m : message)
| RoutePhoto (route : list segment) (source destination : coord)
| ArrivalPhoto (source destination : coord)
| ShareOffer
| LostSuggestRecompute
| DriftWarning (distance : Z)
| InactivityWarning
| Computing (target : string)
| TooNear (distance : Z)
| NoTarget
| NoLocation
| DestinationOutside
| SourceOutside
| NotAPlace (target : string)
| InternalError
| Cancelled
| NothingToCancel
| NoDestinationGiven.

(** [context.user_data]: a key that is not in the dict is [None]. *)
Record user_data : Type := {
  loc : option coord;
  last_time : option Z;
  target : option string;
  route : option (list segment);
  checkpts : option Z;
  curr_chkpt : option Z;
  waiting : option bool;
  inline_tapped : option (list bool)
}.

(** [context.job_queue]: the repeating jobs as (interval, first) pairs. *)
Record job_queue : Type := {
  jq_running : bool;
  jq_jobs : list (Z * Z)
}.

Record world : Type := {
  user : user_data;
  bot_map : option MultiDiGraph;
  jobs : job_queue;
  sent : list event
}.

Definition set_user (f : user_data -> user_data) (w : world) : world :=
  {| user := f (user w); bot_map := bot_map w; jobs := jobs w; sent := sent w |}.

Definition set_bot_map (g : option MultiDiGraph) (w : world) : world :=
  {| user := user w; bot_map := g; jobs := jobs w; sent := sent w |}.

Definition set_jobs (f : job_queue -> job_queue) (w : world) : world :=
  {| user := user w; bot_map := bot_map w; jobs := f (jobs w); sent := sent w |}.

Definition set_loc (v : option coord) (u : user_data) : user_data :=
  {| loc := v; last_time := last_time u; target := target u; route := route u;
     checkpts := checkpts u; curr_chkpt := curr_chkpt u; waiting := waiting u;
     inline_tapped := inline_tapped u |}.

Definition set_last_time (v : option Z) (u : user_data) : user_data :=
  {| loc := loc u; last_time := v; target := target u; route := route u;
     checkpts := checkpts u; curr_chkpt := curr_chkpt u; waiting := waiting u;
     inline_tapped := inline_tapped u |}.

Definition set_target (v : option string) (u : user_data) : user_data :=
  {| loc := loc u; last_time := last_time u; target := v; route := route u;
     checkpts := checkpts u; curr_chkpt := curr_chkpt u; waiting := waiting u;
     inline_tapped := inline_tapped u |}.

Definition set_route (v : option (list segment)) (u : user_data) : user_data :=
  {| loc := loc u; last_time := last_time u; target := target u; route := v;
     checkpts := checkpts u; curr_chkpt := curr_chkpt u; waiting := waiting u;
     inline_tapped := inline_tapped u |}.

Definition set_checkpts (v : option Z) (u : user_data) : user_data :=
  {| loc := loc u; last_time := last_time u; target := target u;
     route := route u; checkpts := v; curr_chkpt := curr_chkpt u;
     waiting := waiting u; inline_tapped := inline_tapped u |}.

Definition set_curr_chkpt (v : option Z) (u : user_data) : user_data :=
  {| loc := loc u; last_time := last_time u; target := target u;
     route := route u; checkpts := checkpts u; curr_chkpt := v;
     waiting := waiting u; inline_tapped := inline_tapped u |}.

Definition set_waiting (v : option bool) (u : user_data) : user_data :=
  {| loc := loc u; last_time := last_time u; target := target u;
     route := route u; checkpts := checkpts u; curr_chkpt := curr_chkpt u;
     waiting := v; inline_tapped := inline_tapped u |}.

Definition set_inline_tapped (v : option (list bool)) (u : user_data)
  : user_data :=
  {| loc := loc u; last_time := last_time u; target := target u;
     route := route u; checkpts := checkpts u; curr_chkpt := curr_chkpt u;
     waiting := waiting u; inline_tapped := v |}.

Definition record_sent (e : event) (w : world) : world :=
  {| user := user w; bot_map := bot_map w; jobs := jobs w;
     sent := sent w ++ [e] |}.

(** [context.bot.send_message] / [send_photo]. *)
Definition send (e : event) : M world unit := modify (record_sent e).

(** [del context.user_data[key]]: KeyError when the key is not there. *)
Definition del_route : M world unit :=
  do w <~ get ;;;
  match route (user w) with
  | Some _ => modify (set_user (set_route None))
  | None => raise KeyError
  end.

Definition del_checkpts : M world unit :=
  do w <~ get ;;;
  match checkpts (user w) with
  | Some _ => modify (set_user (set_checkpts None))
  | None => raise KeyError
  end.

Definition del_curr_chkpt : M world unit :=
  do w <~ get ;;;
  match curr_chkpt (user w) with
  | Some _ => modify (set_user (set_curr_chkpt None))
  | None => raise KeyError
  end.

(** [context.user_data['inline_tapped'][i] = b] *)
Definition set_tapped (i : nat) (b : bool) : M world unit :=
  do w <~ get ;;;
  do tapped <~ required KeyError (inline_tapped (user w)) ;;;
  if (i <? length tapped)%nat
  then modify (set_user (set_inline_tapped (Some (<[i := b]> tapped))))
  else raise IndexError.

(** A call into guide.py on [context.bot_data['map']]: the graph object
    is the shared one, so what the call does to it stays. *)
Definition on_map {A} (m : M MultiDiGraph A) : M world A :=
  fun w => match bot_map w with
           | Some g => let (g', r) := m g in (set_bot_map (Some g') w, r)
           | None => (w, Raise KeyError)
           end.

(** The job queue of python-telegram-bot, as far as the module drives it:
    [start] and [stop] switch the thread that runs the jobs,
    [run_repeating] registers a job, and neither removes one. *)
Definition job_queue_start (q : job_queue) : job_queue :=
  {| jq_running := true; jq_jobs := jq_jobs q |}.

Definition job_queue_stop (q : job_queue) : job_queue :=
  {| jq_running := false; jq_jobs := jq_jobs q |}.

Definition run_repeating (interval first : Z) (q : job_queue) : job_queue :=
  {| jq_running := jq_running q; jq_jobs := jq_jobs q ++ [(interval, first)] |}.

(** The part of the session the inactivity job goes by, with the job
    queue itself. *)
Definition clock (w : world) : job_queue * option bool * option Z :=
  (jobs w, waiting (user w), last_time (user w)).

(** [for i in range(n)] with the loop's local variables threaded. *)
Fixpoint for_each {S A} (body : Z -> A -> M S A) (indices : list Z) (a : A)
  : M S A :=
  match indices with
  | [] => ret a
  | i :: rest => do a' <~ body i a ;;; for_each body rest a'
  end.

Definition range (n : Z) : list Z := map Z.of_nat (seq 0 (Z.to_nat n)).

Section WithLib.
Context {L : Lib}.

(** The turn wording of a middle checkpoint, lines 500 to 520. *)
Definition classify_turn (angle : option Q) : turn :=
  match angle with
  | Some a =>
      if float_truthy a then
        if Qlt_bool 0 a && Qlt_bool a (45 # 2) then GoStraight
        else if Qlt_bool a (135 # 2) then TurnHalfRight
        else if Qlt_bool a (225 # 2) then TurnRight
        else if Qlt_bool a 180 then TurnStrongRight
        else if Qlt_bool a (495 # 2) then TurnStrongLeft
        else if Qlt_bool a (585 # 2) then TurnLeft
        else if Qlt_bool a (675 # 2) then TurnHalfLeft
        else GoStraight
      else GoStraight
  | None => GoStraight
  end.

(** The wording at the last checkpoint, lines 536 to 546. *)
Definition classify_side (angle : option Q) : side :=
  match angle with
  | Some a =>
      if float_truthy a then
        if Qlt_bool 0 a && Qlt_bool a (45 # 2) then InFront
        else if Qlt_bool a 180 then AtRight
        else if Qlt_bool a (675 # 2) then AtLeft
        else InFront
      else InFront
  | None => InFront
  end.

Definition _message_route : M world message :=
  do w <~ get ;;;
  do route <~ required KeyError (route (user w)) ;;;
  do loc <~ required KeyError (loc (user w)) ;;;
  do current <~ required KeyError (curr_chkpt (user w)) ;;;
  do checkpts <~ required KeyError (checkpts (user w)) ;;;
  let last := checkpts - 1 in
  if current =? 0 then
    do first <~ required IndexError (py_index route 0) ;;;
    let dist := pyround (haversine (reversed loc) (reversed (s_mid first))) in
    do next_name <~ required TypeError (s_next_name first) ;;;
    ret (StartMessage loc last (s_mid first) next_name dist)
  else if current <? last then
    do previous <~ required IndexError (py_index route (current - 1)) ;;;
    let angle := s_angle previous in
    do here <~ required IndexError (py_index route current) ;;;
    do length <~ required TypeError (s_length here) ;;;
    let dist := pyround length in
    let turn := classify_turn angle in
    do street <~ required TypeError (s_current_name here) ;;;
    ret (CheckpointMessage current last loc street turn dist)
  else
    do final <~ required IndexError (py_index route (-1)) ;;;
    let destination := reversed (s_mid final) in
    let dist := pyround (haversine (reversed loc) destination) in
    do previous <~ required IndexError (py_index route (current - 1)) ;;;
    let turn := classify_side (s_angle previous) in
    run send (ArrivalPhoto (reversed loc) destination) ;;;
    run del_route ;;;
    run del_checkpts ;;;
    run del_curr_chkpt ;;;
    ret (ArrivalMessage dist turn).

(** [if current_distance and current_distance < NEAR_DST] *)
Definition is_reached (current_distance : option Z) : bool :=
  match current_distance with
  | Some d => int_truthy d && (d <? NEAR_DST)
  | None => false
  end.

(** Lines 392 to 397: the distance to checkpoint [current + i] when there
    is one, else the distance left by the pass before. *)
Definition measure_slot (location : coord) (current checkpts : Z) (i : Z)
  (previous : option Z) : M world (option Z) :=
  if current + i <? checkpts then
    do w <~ get ;;;
    do route <~ required KeyError (route (user w)) ;;;
    do next <~ required IndexError (py_index route (current + i)) ;;;
    ret (Some (pyround (haversine (reversed location)
                                  (reversed (s_mid next)))))
  else ret previous.

(** Lines 402 to 428: checkpoint [current + i] is taken as reached. *)
Definition reach_checkpoint (current checkpts : Z) (i : Z) : M world unit :=
  run modify (set_user (set_curr_chkpt (Some (current + i + 1)))) ;;;
  do message <~ _message_route ;;;
  run send (Guidance message) ;;;
  if current + i + 1 =? checkpts - 1 then
    do w <~ get ;;;
    run required KeyError (target (user w)) ;;;
    send ShareOffer
  else ret tt.

(** One pass of the look-ahead loop, lines 391 to 428.  The locals
    [current_distance] and [is_near] go in and come out. *)
Definition lookahead_slot (location : coord) (current checkpts : Z) (i : Z)
  (locals : option Z * bool) : M world (option Z * bool) :=
  do current_distance <~
     measure_slot location current checkpts i (fst locals) ;;;
  if is_reached current_distance then
    run reach_checkpoint current checkpts i ;;;
    ret (current_distance, true)
  else ret (current_distance, snd locals).

(** [if context.user_data.get('route')]: there and not empty. *)
Definition has_route (u : user_data) : bool :=
  match route u with
  | Some (_ :: _) => true
  | _ => false
  end.

(** [if min_distance and current_distance > min_distance + margin] *)
Definition beyond (min_distance : option Q) (current_distance margin : Z)
  : bool :=
  match min_distance with
  | Some m =>
      float_truthy m &&
      Qlt_bool (fl (m + inject_Z margin)%Q) (inject_Z current_distance)
  | None => false
  end.

(** Lines 431 to 471: no checkpoint was reached on this update. *)
Definition check_walking_away (location : coord) (current : Z)
  : M world unit :=
  do w <~ get ;;;
  do route <~ required KeyError (route (user w)) ;;;
  do next <~ required IndexError (py_index route current) ;;;
  let current_distance :=
    pyround (haversine (reversed location) (reversed (s_mid next))) in
  let min_distance := s_length next in
  if beyond min_distance current_distance FAR_AWAY_DST then
    run set_tapped 6 false ;;;
    send LostSuggestRecompute
  else if beyond min_distance current_distance AWAY_DST then
    run set_tapped 2 false ;;;
    send (DriftWarning current_distance)
  else ret tt.

(** Lines 373 to 375: the location and its time are stored. *)
Definition store_location (location : coord) (now : Q) (w : world) : world :=
  set_user (set_waiting (Some false))
    (set_user (set_last_time (Some (pyint now)))
       (set_user (set_loc (Some location)) w)).

(** The handler of a location message; [now] is what [time.time()]
    returns when the handler runs. *)
Definition _update_and_check (location : coord) (now : Q) : M world unit :=
  run modify (store_location location now) ;;;
  do w <~ get ;;;
  if has_route (user w) then
    do current <~ required KeyError (curr_chkpt (user w)) ;;;
    do checkpts <~ required KeyError (checkpts (user w)) ;;;
    do locals <~ for_each (lookahead_slot location current checkpts)
                          (range N) (None, false) ;;;
    if negb (snd locals) then check_walking_away location current
    else ret tt
  else ret tt.

(** [if context.user_data.get('target')]: there and not the empty string. *)
Definition get_target (u : user_data) : M world string :=
  match target u with
  | Some t => if String.eqb t "" then raise NoTargetError else ret t
  | None => raise NoTargetError
  end.

(** The [try] body of [_compute_route], lines 243 to 299.  The value of
    the local [distance] accompanies [TooNearError] to its handler. *)
Definition compute_route_body : M world unit :=
  do w <~ get ;;;
  run required KeyError (bot_map w) ;;;
  do loc <~ required KeyError (loc (user w)) ;;;
  let location := reversed loc in
  do target <~ get_target (user w) ;;;
  do destination <~ required NominatimError (geocode target) ;;;
  run send (Computing target) ;;;
  do route <~ on_map (Guide.get_directions location destination) ;;;
  run modify (set_user (set_route (Some route))) ;;;
  let checkpoints := Z.of_nat (length route) in
  run modify (set_user (set_checkpts (Some checkpoints))) ;;;
  run modify (set_user (set_curr_chkpt (Some 0))) ;;;
  run send (RoutePhoto route location destination) ;;;
  run (if checkpoints =? 2 then
         do first <~ required IndexError (py_index route 0) ;;;
         let mid := reversed (s_mid first) in
         let distance :=
           pyround (fl (haversine location mid + haversine mid destination)%Q) in
         raise (TooNearError distance)
       else ret tt) ;;;
  do msg <~ _message_route ;;;
  run send (Guidance msg) ;;;
  run modify (set_jobs job_queue_start) ;;;
  modify (set_jobs (run_repeating 60 60)).

(** The [except] clauses of [_compute_route], in their order. *)
Definition compute_route_handler (e : exn) : M world unit :=
  match e with
  | NoTargetError => send NoTarget
  | TooNearError distance => send (TooNear distance)
  | KeyError =>
      run set_tapped 4 false ;;;
      send NoLocation
  | AssertionError msg =>
      if String.eqb (substring 0 11 msg) "destination" then send DestinationOutside
      else if String.eqb (substring 0 6 msg) "source" then send SourceOutside
      else ret tt
  | NominatimError =>
      do w <~ get ;;;
      do target <~ get_target (user w) ;;;
      send (NotAPlace target)
  | _ => send InternalError
  end.

Definition _compute_route : M world unit :=
  try_except compute_route_body compute_route_handler.

(** [/go target]; [target] is the text after the command, stripped. *)
Definition go (target : string) : M world unit :=
  try_except
    (run (if String.eqb target "" then raise NoDestinationError else ret tt) ;;;
     run modify (set_user (set_target (Some target))) ;;;
     _compute_route)
    (fun e => match e with
              | NoDestinationError => send NoDestinationGiven
              | _ => send InternalError
              end).

(** The repeating job; [now] is what [time.time()] returns when it runs. *)
Definition _callback_no_response (now : Q) : M world unit :=
  do w <~ get ;;;
  match waiting (user w) with
  | Some false =>
      do last <~ required KeyError (last_time (user w)) ;;;
      if Qlt_bool (inject_Z MAX_TIME) (fl (now - inject_Z last)%Q) then
        run set_tapped 3 false ;;;
        run set_tapped 4 false ;;;
        run modify (set_user (set_waiting (Some true))) ;;;
        send InactivityWarning
      else ret tt
  | _ => ret tt
  end.

Definition cancel : M world unit :=
  try_except
    (run modify (set_jobs job_queue_stop) ;;;
     run del_route ;;;
     run del_checkpts ;;;
     run del_curr_chkpt ;;;
     send Cancelled)
    (fun _ => send NothingToCancel).

(** One period of the job queue: while its thread runs, every registered
    job is called. *)
Definition timer_tick (now : Q) : M world unit :=
  do w <~ get ;;;
  if jq_running (jobs w)
  then for_each (fun _ _ => _callback_no_response now)
                (map fst (jq_jobs (jobs w))) tt
  else ret tt.

End WithLib.
End Bot.

(** ** A street to run the program on

    An instance of [Lib] and a small network, on which the functions above
    are evaluated at concrete inputs.  The street runs north along one
    meridian; a point is given by its distance in metres from the south end,
    one degree of latitude being taken as 111195 m.  The street is one-way,
    northwards. *)

Module Sample.

Definition metres_per_degree : Q := 111195.

(** The (longitude, latitude) pair [m] metres up the street. *)
Definition at_metres (m : Q) : coord :=
  (217 # 100, (414 # 10) + m / metres_per_degree)%Q.

(** Distance between two (latitude, longitude) pairs on the meridian. *)
Definition meridian_distance (a b : coord) : Q :=
  (Qabs (fst a - fst b) * metres_per_degree)%Q.

Definition nearest_of (p : coord) (best : node_id * Q)
  (entry : node_id * node_attrs) : node_id * Q :=
  match n_y (snd entry), n_x (snd entry) with
  | Some y, Some x =>
      let d := meridian_distance p (y, x) in
      if Qlt_bool d (snd best) then (fst entry, d) else best
  | _, _ => best
  end.

Definition nearest_node (g : MultiDiGraph) (p : coord) : node_id * Q :=
  fold_left (nearest_of p) (map_to_list (g_node g)) (OsmNode 0, 100000000%Q).

Definition path_north (g : MultiDiGraph) (u v : node_id)
  : option (list node_id) :=
  match u, v with
  | OsmNode a, OsmNode b =>
      if a <=? b then Some (map OsmNode (seqZ a (b - a + 1))) else None
  | _, _ => None
  end.

(** The edge whose two ends are, together, nearest to the point. *)
Definition nearer_edge (g : MultiDiGraph) (p : coord)
  (best : option (node_id * node_id * Q))
  (entry : node_id * node_id * keydict) : option (node_id * node_id * Q) :=
  match node_xy g (fst (fst entry)), node_xy g (snd (fst entry)) with
  | Some a, Some b =>
      let d := (meridian_distance p (reversed a)
                + meridian_distance p (reversed b))%Q in
      match best with
      | Some (_, _, d0) => if Qlt_bool d d0 then Some (fst entry, d) else best
      | None => Some (fst entry, d)
      end
  | _, _ => best
  end.

Definition nearest_edge (g : MultiDiGraph) (p : coord)
  : option (node_id * node_id) :=
  fst <$> fold_left (nearer_edge g p) (map_to_list (g_adj g)) None.

Definition bearing_north (a b : coord) : Q :=
  if Qle_bool (snd a) (snd b) then 0%Q else 180%Q.

Definition places (query : string) : option coord :=
  if String.eqb query "Tibidabo" then Some (reversed (at_metres 400))
  else if String.eqb query "Kiosk" then Some (reversed (at_metres 215))
  else None.

Definition street_lib : Lib := {|
  fl := fun q => q;
  haversine := meridian_distance;
  get_nearest_node := nearest_node;
  shortest_path := path_north;
  truncate_graph_dist := fun g _ _ => Some g;
  get_nearest_edge := nearest_edge;
  get_bearing := bearing_north;
  geocode := places
|}.

Definition street_node (m : Q) : node_attrs :=
  {| n_y := Some (snd (at_metres m)); n_x := Some (fst (at_metres m)) |}.

Definition street_edge (way : Z) (name : string) (len : Q) : keydict :=
  [(0%nat, {| e_osmid := Some (OsmidInt way); e_name := Some (NameStr name);
              e_length := Some len; e_bearing := Some 0%Q |})].

(** Five nodes, 100 m apart, the first one 100 m up the street. *)
Definition street : MultiDiGraph :=
  {| g_node := list_to_map
       [(OsmNode 1, street_node 100); (OsmNode 2, street_node 200);
        (OsmNode 3, street_node 300); (OsmNode 4, street_node 400);
        (OsmNode 5, street_node 500)];
     g_adj := list_to_map
       [((OsmNode 1, OsmNode 2), street_edge 11 "Carrer A" 100);
        ((OsmNode 2, OsmNode 3), street_edge 12 "Carrer B" 100);
        ((OsmNode 3, OsmNode 4), street_edge 13 "Carrer C" 100);
        ((OsmNode 4, OsmNode 5), street_edge 14 "Carrer D" 100)] |}.

Definition fresh_user : Bot.user_data :=
  {| Bot.loc := None; Bot.last_time := None; Bot.target := None;
     Bot.route := None; Bot.checkpts := None; Bot.curr_chkpt := None;
     Bot.waiting := None; Bot.inline_tapped := Some (repeat false 7) |}.

(** The bot after [main] and [/start]: the map is loaded, the job queue
    is empty and not running. *)
Definition started : Bot.world :=
  {| Bot.user := fresh_user; Bot.bot_map := Some street;
     Bot.jobs := {| Bot.jq_running := false; Bot.jq_jobs := [] |};
     Bot.sent := [] |}.

(** A first location message, 95 m up the street, at time 1000. *)
Definition located : Bot.world :=
  fst (Bot._update_and_check (L := street_lib) (at_metres 95) 1000 started).

(** [/go Tibidabo] from there: a route of four segments is adopted. *)
Definition navigating : Bot.world :=
  fst (Bot.go (L := street_lib) "Tibidabo" located).

(** A first location message 190 m up the street. *)
Definition located_near_kiosk : Bot.world :=
  fst (Bot._update_and_check (L := street_lib) (at_metres 190) 1000 started).

(** A location message 5 m before the first checkpoint, at time 1010:
    the session moves on to the second segment. *)
Definition past_first_checkpoint : Bot.world :=
  fst (Bot._update_and_check (L := street_lib) (at_metres 195) 1010 navigating).

(** The same street with a node 0.4 mm past the second one; the edge
    between the two has length 0.0, lengths being kept to the millimetre. *)
Definition twin_street : MultiDiGraph :=
  {| g_node := list_to_map
       [(OsmNode 1, street_node 100); (OsmNode 2, street_node 200);
        (OsmNode 3, street_node (2000004 # 10000));
        (OsmNode 4, street_node 300); (OsmNode 5, street_node 400)];
     g_adj := list_to_map
       [((OsmNode 1, OsmNode 2), street_edge 11 "Carrer A" 100);
        ((OsmNode 2, OsmNode 3), street_edge 12 "Carrer B" 0);
        ((OsmNode 3, OsmNode 4), street_edge 13 "Carrer C" 100);
        ((OsmNode 4, OsmNode 5), street_edge 14 "Carrer D" 100)] |}.

(** On that street: a location 95 m up, [/go Tibidabo], then a location
    19.4999 m before the second node.  The session is on the segment of
    length 0.0. *)
Definition on_zero_length_segment : Bot.world :=
  fst (Bot._update_and_check (L := street_lib) (at_metres (1805001 # 10000)) 1010
    (fst (Bot.go (L := street_lib) "Tibidabo"
      (fst (Bot._update_and_check (L := street_lib) (at_metres 95) 1000
        (Bot.set_bot_map (Some twin_street) started)))))).

(** [/go Kiosk] from 190 m up the street, at the point where [go] has
    stored the target and calls [_compute_route]. *)
Definition asked_for_kiosk : Bot.world :=
  Bot.set_user (Bot.set_target (Some "Kiosk")) located_near_kiosk.

End Sample.

(** ** Runs of events

    Sequences of handler calls, as the dispatcher and the job queue make
    them, for the statements about more than one call. *)

Module Runs.
Section WithLib.
Context {L : Lib}.


End WithLib.
End Runs.


(** ** Views of a run *)

(** Every run of [m], however it ends, takes a state to one that [R]
    relates to it. *)
Definition evolves {S A} (R : S -> S -> Prop) (m : M S A) : Prop :=
  forall s s' r, m s = (s', r) -> R s s'.

(** The exceptions of a failed lookup in guide.py: a missing key, an index
    out of range, [.get] on None, no path between the two nodes. *)
Definition lookup_failure (e : exn) : Prop :=
  match e with
  | KeyError | IndexError | AttributeError | NetworkXNoPath => True
  | _ => False
  end.

Definition not_nominatim (e : exn) : Prop :=
  match e with
  | NominatimError => False
  | _ => True
  end.

(** The chat has only grown. *)
Definition chat_grows (w w' : Bot.world) : Prop :=
  exists l, Bot.sent w' = Bot.sent w ++ l.

(** ** Parts of the handlers *)

Section Parts.
Context {L : Lib}.
Import Bot.

(** The [try] body of [_compute_route] from the path search on, lines 258
    to 299: what runs once the map, the location, the target and its
    coordinates are at hand and the announcement is sent. *)
Definition search_and_guide (location destination : coord) : M world unit :=
  do route <~ on_map (Guide.get_directions location destination) ;;;
  run modify (set_user (set_route (Some route))) ;;;
  let checkpoints := Z.of_nat (length route) in
  run modify (set_user (set_checkpts (Some checkpoints))) ;;;
  run modify (set_user (set_curr_chkpt (Some 0))) ;;;
  run send (RoutePhoto route location destination) ;;;
  run (if checkpoints =? 2 then
         do first <~ required IndexError (py_index route 0) ;;;
         let mid := reversed (s_mid first) in
         let distance :=
           pyround (fl (haversine location mid + haversine mid destination)%Q) in
         raise (TooNearError distance)
       else ret tt) ;;;
  do msg <~ _message_route ;;;
  run send (Guidance msg) ;;;
  run modify (set_jobs job_queue_start) ;;;
  modify (set_jobs (run_repeating 60 60)).

End Parts.

(** ** Views of the session *)

(** What a location message is to store and what the tracker has no
    business with: the location, its time, the waiting flag, the target,
    the map and the job queue. *)
Definition beside_the_route (w : Bot.world)
  : option coord * option Z * option bool * option string
    * option MultiDiGraph * Bot.job_queue :=
  (Bot.loc (Bot.user w), Bot.last_time (Bot.user w), Bot.waiting (Bot.user w),
   Bot.target (Bot.user w), Bot.bot_map w, Bot.jobs w).

(** The position on the route is where it was, or the route is over. *)
Definition position_kept_or_cleared (w w' : Bot.world) : Prop :=
  Bot.curr_chkpt (Bot.user w') = Bot.curr_chkpt (Bot.user w) \/
  Bot.curr_chkpt (Bot.user w') = None.

(** The position is gone, or it is at most [Bot.N] ahead of [c] and not
    behind it. *)
Definition position_from (c : Z) (w : Bot.world) : Prop :=
  Bot.curr_chkpt (Bot.user w) = None \/
  exists c', Bot.curr_chkpt (Bot.user w) = Some c' /\ c <= c' <= c + Bot.N.

(** ** guide.py: files and pictures *)

Module GuideIO.

(** [s[-n:]]: the last [n] characters, the whole string when it has
    fewer. *)
Definition last_chars (n : nat) (s : string) : string :=
  substring (String.length s - n) n s.

(** [filename if filename[-8:] == '.gpickle' else filename+'.gpickle'] *)
Definition gpickle_name (filename : string) : string :=
  if String.eqb (last_chars 8 filename) ".gpickle" then filename
  else filename ++ ".gpickle".

(** [filename if filename[-4:] == '.png' else filename+'.png'] *)
Definition png_name (filename : string) : string :=
  if String.eqb (last_chars 4 filename) ".png" then filename
  else filename ++ ".png".

(** The pickled graphs of the working directory, by file name. *)
Definition pickles : Type := gmap string MultiDiGraph.

(** [nx.write_gpickle(graph, name)] writes the file anew. *)
Definition save_graph (graph : MultiDiGraph) (filename : string)
  (files : pickles) : pickles :=
  <[gpickle_name filename := graph]> files.

(** [nx.read_gpickle(name)]: [None] where the file is not there and the
    library raises. *)
Definition load_graph (filename : string) (files : pickles)
  : option MultiDiGraph :=
  files !! gpickle_name filename.

(** What is put on a [StaticMap]. *)
Inductive marker : Type :=
| IconMarker (place : coord) (icon : string) (offset_x offset_y : Z)
| CircleMarker (place : coord) (colour : string) (width : Z).

Record line : Type := {
  l_coords : list coord;
  l_colour : string;
  l_width : Z
}.

Record static_map : Type := {
  m_width : Z;
  m_height : Z;
  m_markers : list marker;
  m_lines : list line
}.

Definition add_marker (m : marker) (mapa : static_map) : static_map :=
  {| m_width := m_width mapa; m_height := m_height mapa;
     m_markers := m_markers mapa ++ [m]; m_lines := m_lines mapa |}.

Definition add_line (l : line) (mapa : static_map) : static_map :=
  {| m_width := m_width mapa; m_height := m_height mapa;
     m_markers := m_markers mapa; m_lines := m_lines mapa ++ [l] |}.

(** The body of [for street in directions[:-1]]. *)
Definition draw_street (mapa : static_map) (street : segment) : static_map :=
  add_line {| l_coords := [s_src street; s_mid street];
              l_colour := "#ff3333"; l_width := 4 |}
    (add_marker (CircleMarker (s_mid street) "#d12b2b" 9) mapa).

(** [plot_directions]: the map as it is rendered and the name of the file
    the image is saved to.  [directions] is taken when it is there and
    not empty; without it the destination is drawn when it is given. *)
Definition plot_directions (graph : option MultiDiGraph)
  (source_location : coord) (destination_location : option coord)
  (directions : option (list segment)) (filename : string)
  (width height : Z) : static_map * string :=
  let mapa := {| m_width := width; m_height := height;
                 m_markers := []; m_lines := [] |} in
  let mapa :=
    match directions with
    | Some (first :: rest) =>
        let final := List.last rest first in
        let mapa :=
          add_marker (IconMarker (s_src first) "icon-location.png" 40 40)
                     mapa in
        let mapa := fold_left draw_street (removelast (first :: rest)) mapa in
        let mapa :=
          add_marker (IconMarker (s_mid final) "icon-flag.png" 40 40) mapa in
        add_line {| l_coords := [s_src final; s_mid final];
                    l_colour := "#ff3333"; l_width := 4 |} mapa
    | _ =>
        match destination_location with
        | Some destination =>
            add_marker (IconMarker (reversed destination) "icon-flag.png"
                                   40 40)
              (add_marker (IconMarker (reversed source_location)
                                      "icon-location.png" 40 40) mapa)
        | None =>
            add_marker (IconMarker (reversed source_location)
                                   "icon-location.png" 40 40) mapa
        end
    end in
  (mapa, png_name filename).

(** The icons of a map, in the order they were put on it. *)
Definition icons (mapa : static_map) : list marker :=
  List.filter (fun m => match m with
                        | IconMarker _ _ _ _ => true
                        | CircleMarker _ _ _ => false
                        end) (m_markers mapa).

End GuideIO.

(** ** bot.py: the commands and buttons around the guide *)

Module Chat.

(** The messages of these handlers, by their data. *)
Inductive reply : Type :=
| HelpText
| AuthorsText
| LocationHelp
| LocationPhoto (picture : GuideIO.static_map)
| LocationText (shown_as_latitude shown_as_longitude : Q).

(** The session and chat of [Bot], the messages of the handlers of this
    part, and the callback queries answered.  What [Bot.sent] and
    [replies] hold goes to the same chat; each keeps its own order. *)
Record chat : Type := {
  core : Bot.world;
  replies : list reply;
  answered : nat
}.

Definition set_core (w : Bot.world) (c : chat) : chat :=
  {| core := w; replies := replies c; answered := answered c |}.

Definition say (r : reply) : M chat unit :=
  modify (fun c => {| core := core c; replies := replies c ++ [r];
                      answered := answered c |}).

(** [query.answer()] *)
Definition answer : M chat unit :=
  modify (fun c => {| core := core c; replies := replies c;
                      answered := S (answered c) |}).

(** A handler of [Bot], run on the session of the chat. *)
Definition on_core {A} (m : M Bot.world A) : M chat A :=
  fun c => let (w', r) := m (core c) in (set_core w' c, r).

Section WithLib.
Context {L : Lib}.

Definition helper : M chat unit :=
  run on_core (Bot.set_tapped 4 false) ;;;
  say HelpText.

Definition authors : M chat unit := say AuthorsText.

(** [/where]: the photo of the location and the text with the two
    coordinates; the clause for KeyError is the one of [_compute_route]. *)
Definition where_ : M chat unit :=
  try_except
    (do c <~ get ;;;
     do loc <~ required KeyError (Bot.loc (Bot.user (core c))) ;;;
     let location := reversed loc in
     run say (LocationPhoto
                (fst (GuideIO.plot_directions None location None None
                        "photo.png" 400 400))) ;;;
     say (LocationText (snd location) (fst location)))
    (fun e => match e with
              | KeyError =>
                  run on_core (Bot.set_tapped 4 false) ;;;
                  on_core (Bot.send Bot.NoLocation)
              | _ => raise e
              end).

(** [action == name and not tapped[i]]: the flag is read only when the
    action is the one asked for. *)
Definition pressed (is_action : bool) (tapped : list bool) (i : nat)
  : M chat bool :=
  if is_action then
    do flag <~ required IndexError (tapped !! i) ;;;
    ret (negb flag)
  else ret false.

(** The handler of the inline buttons; [action] is [query['data']]. *)
Definition _button (action : string) : M chat unit :=
  do c <~ get ;;;
  do tapped <~ required KeyError (Bot.inline_tapped (Bot.user (core c))) ;;;
  run (do b <~ pressed (String.eqb action "help") tapped 0 ;;;
       if b then
         run on_core (Bot.set_tapped 0 true) ;;; helper
       else
       do b <~ pressed (String.eqb action "authors") tapped 1 ;;;
       if b then
         run on_core (Bot.set_tapped 1 true) ;;; authors
       else
       do b <~ pressed (String.eqb action "where") tapped 2 ;;;
       if b then
         run on_core (Bot.set_tapped 2 true) ;;; where_
       else
       do b <~ pressed (String.eqb action "cancel") tapped 3 ;;;
       if b then
         run on_core (Bot.set_tapped 3 true) ;;; on_core Bot.cancel
       else
       do b <~ pressed (String.eqb action "location-help") tapped 4 ;;;
       if b then
         run on_core (Bot.set_tapped 4 true) ;;; say LocationHelp
       else
       do b <~ pressed (String.eqb (substring 0 2 action) "go") tapped 5 ;;;
       if b then
         run on_core (Bot.set_tapped 5 true) ;;;
         run on_core (modify (Bot.set_user (Bot.set_target
                (Some (substring 3 (String.length action - 3) action))))) ;;;
         on_core Bot._compute_route
       else
       do b <~ pressed (String.eqb action "recompute") tapped 6 ;;;
       if b then
         run on_core (Bot.set_tapped 5 true) ;;;
         on_core Bot._compute_route
       else ret tt) ;;;
  answer.

End WithLib.
End Chat.

(** ** More walks on the street

    Further sessions on the street of [Sample], with a geocoder that knows
    two more places: one 100 m past the last node and one 5 km up the
    meridian, far from every node. *)

Module Walks.

Definition places (query : string) : option coord :=
  if String.eqb query "Mirador" then Some (reversed (Sample.at_metres 600))
  else if String.eqb query "Montserrat"
       then Some (reversed (Sample.at_metres 5000))
  else Sample.places query.

Definition walk_lib : Lib := {|
  fl := fun q => q;
  haversine := Sample.meridian_distance;
  get_nearest_node := Sample.nearest_node;
  shortest_path := Sample.path_north;
  truncate_graph_dist := fun g _ _ => Some g;
  get_nearest_edge := Sample.nearest_edge;
  get_bearing := Sample.bearing_north;
  geocode := places
|}.

(** The session after a first location message at [m] metres up the
    street, with [t] stored as the target: where [go] calls
    [_compute_route]. *)
Definition asking (m : Q) (t : string) : Bot.world :=
  Bot.set_user (Bot.set_target (Some t))
    (fst (Bot._update_and_check (L := walk_lib) (Sample.at_metres m) 1000
            Sample.started)).

(** The street with no name on the way from the second node to the
    third. *)
Definition lane : MultiDiGraph :=
  {| g_node := g_node Sample.street;
     g_adj := list_to_map
       [((OsmNode 1, OsmNode 2), Sample.street_edge 11 "Carrer A" 100);
        ((OsmNode 2, OsmNode 3),
         [(0%nat, {| e_osmid := Some (OsmidInt 12); e_name := None;
                     e_length := Some 100%Q; e_bearing := Some 0%Q |})]);
        ((OsmNode 3, OsmNode 4), Sample.street_edge 13 "Carrer C" 100);
        ((OsmNode 4, OsmNode 5), Sample.street_edge 14 "Carrer D" 100)] |}.

(** The bot after it came up again: the map is loaded, nothing is known
    of the user. *)
Definition restarted : Bot.world :=
  {| Bot.user :=
       {| Bot.loc := None; Bot.last_time := None; Bot.target := None;
          Bot.route := None; Bot.checkpts := None; Bot.curr_chkpt := None;
          Bot.waiting := None; Bot.inline_tapped := None |};
     Bot.bot_map := Some Sample.street;
     Bot.jobs := {| Bot.jq_running := false; Bot.jq_jobs := [] |};
     Bot.sent := [] |}.


(** [/go Mirador] from 95 m up the street: a route of four segments. *)
Definition long_walk : Bot.world :=
  fst (Bot.go (L := walk_lib) "Mirador" Sample.located).

End Walks.
(** * Properties *)

(** ** Rounding *)

Lemma Qlt_bool_iff (a b : Q) : Qlt_bool a b = true <-> (a < b)%Q.
Proof.
  unfold Qlt_bool. rewrite negb_true_iff, <- not_true_iff_false, Qle_bool_iff.
  split; [apply Qnot_le_lt | apply Qlt_not_le].
Qed.

Lemma Qlt_bool_false_iff (a b : Q) : Qlt_bool a b = false <-> (b <= a)%Q.
Proof.
  unfold Qlt_bool. rewrite negb_false_iff. apply Qle_bool_iff.
Qed.

Lemma Qfloor_unique (x : Q) (n : Z) :
  (inject_Z n <= x)%Q -> (x < inject_Z (n + 1))%Q -> Qfloor x = n.
Proof.
  intros Hlo Hhi.
  assert (H1 : n <= Qfloor x).
  { rewrite <- (Qfloor_Z n). apply Qfloor_resp_le. exact Hlo. }
  assert (H2 : Qfloor x < n + 1).
  { rewrite Zlt_Qlt. eapply Qle_lt_trans; [apply Qfloor_le | exact Hhi]. }
  lia.
Qed.

(** A distance from 19.5 m up to, but not including, 20 m rounds to 20. *)
Lemma pyround_just_below_20 (d : Q) :
  (39 # 2 <= d)%Q -> (d < 20)%Q -> pyround d = 20.
Proof.
  intros Hlo Hhi. unfold pyround.
  assert (Hf : Qfloor d = 19).
  { apply Qfloor_unique.
    - eapply Qle_trans; [| exact Hlo]. discriminate.
    - exact Hhi. }
  rewrite Hf. cbv zeta.
  destruct (Qcompare_spec (d - inject_Z 19) (1 # 2)) as [He | Hl | Hg].
  - reflexivity.
  - exfalso. unfold inject_Z in Hl. lra.
  - reflexivity.
Qed.

(** A distance of zero rounds to zero. *)
Lemma pyround_zero (d : Q) : (d == 0)%Q -> pyround d = 0.
Proof.
  intros Hd. unfold pyround.
  assert (Hf : Qfloor d = 0) by (rewrite Hd; reflexivity).
  rewrite Hf. cbv zeta.
  assert (Hc : ((d - inject_Z 0) ?= (1 # 2))%Q = Lt).
  { rewrite Hd. reflexivity. }
  rewrite Hc. reflexivity.
Qed.

(** Rounding moves a float to an integer on the same side of an integer
    bound. *)
Lemma pyround_lower (d : Q) (n : Z) : (inject_Z n <= d)%Q -> n <= pyround d.
Proof.
  intros Hlo. unfold pyround.
  assert (H1 : n <= Qfloor d).
  { rewrite <- (Qfloor_Z n). apply Qfloor_resp_le. exact Hlo. }
  cbv zeta. destruct (_ ?= _)%Q; [destruct (Z.even _) | |]; lia.
Qed.

(** ** The handler monad *)

Lemma bind_ok {S A B} (m : M S A) (k : A -> M S B) (s s' : S) (a : A) :
  m s = (s', Ok a) -> bind m k s = k a s'.
Proof. intros H. unfold bind. rewrite H. reflexivity. Qed.

Lemma bind_raise {S A B} (m : M S A) (k : A -> M S B) (s s' : S) (e : exn) :
  m s = (s', Raise e) -> bind m k s = (s', Raise e).
Proof. intros H. unfold bind. rewrite H. reflexivity. Qed.

Ltac run_monad :=
  unfold bind, get, modify, ret, raise, required, Bot.send; cbn.

Lemma preserves_ret {S A X} (f : S -> X) (a : A) : preserves f (ret a).
Proof. intros s s' r [= <- _]. reflexivity. Qed.

Lemma preserves_raise {S A X} (f : S -> X) (e : exn) :
  preserves f (@raise S A e).
Proof. intros s s' r [= <- _]. reflexivity. Qed.

Lemma preserves_get {S X} (f : S -> X) : preserves f get.
Proof. intros s s' r [= <- _]. reflexivity. Qed.

Lemma preserves_required {S A X} (f : S -> X) (e : exn) (o : option A) :
  preserves f (required e o).
Proof. destruct o; [apply preserves_ret | apply preserves_raise]. Qed.

Lemma preserves_modify {S X} (f : S -> X) (g : S -> S) :
  (forall s, f (g s) = f s) -> preserves f (modify g).
Proof. intros H s s' r [= <- _]. apply H. Qed.

Lemma preserves_bind {S A B X} (f : S -> X) (m : M S A) (k : A -> M S B) :
  preserves f m -> (forall a, preserves f (k a)) -> preserves f (bind m k).
Proof.
  intros Hm Hk s s' r. unfold bind.
  destruct (m s) as [s1 [a | e]] eqn:H1.
  - intros H2. rewrite (Hk a _ _ _ H2). exact (Hm _ _ _ H1).
  - intros [= <- _]. exact (Hm _ _ _ H1).
Qed.

Lemma preserves_for_each {S A X} (f : S -> X) (body : Z -> A -> M S A)
  (idx : list Z) (a : A) :
  (forall i a', preserves f (body i a')) -> preserves f (Bot.for_each body idx a).
Proof.
  intros Hb. revert a. induction idx as [| i rest IH]; intros a; cbn [Bot.for_each].
  - apply preserves_ret.
  - apply preserves_bind; [apply Hb | exact IH].
Qed.

Ltac frame :=
  repeat first
    [ apply preserves_ret
    | apply preserves_raise
    | apply preserves_get
    | apply preserves_required
    | apply preserves_modify; intros ?; reflexivity
    | apply preserves_bind; [| intros ?]
    | match goal with
      | |- preserves _ (if ?c then _ else _) => destruct c
      | |- preserves _ (match ?c with _ => _ end) => destruct c
      end ].

Lemma raises_only_ret {S A} (P : exn -> Prop) (a : A) :
  raises_only P (@ret S A a).
Proof. intros s s' e H. discriminate H. Qed.

Lemma raises_only_get {S} (P : exn -> Prop) : raises_only P (@get S).
Proof. intros s s' e H. discriminate H. Qed.

Lemma raises_only_modify {S} (P : exn -> Prop) (f : S -> S) :
  raises_only P (modify f).
Proof. intros s s' e H. discriminate H. Qed.

Lemma raises_only_raise {S A} (P : exn -> Prop) (e : exn) :
  P e -> raises_only P (@raise S A e).
Proof. intros He s s' e' [= _ <-]. exact He. Qed.

Lemma raises_only_required {S A} (P : exn -> Prop) (e : exn) (o : option A) :
  P e -> raises_only P (@required S A e o).
Proof.
  intros He. destruct o; [apply raises_only_ret | apply raises_only_raise, He].
Qed.

Lemma raises_only_bind {S A B} (P : exn -> Prop) (m : M S A) (k : A -> M S B) :
  raises_only P m -> (forall a, raises_only P (k a)) ->
  raises_only P (bind m k).
Proof.
  intros Hm Hk s s' e. unfold bind.
  destruct (m s) as [s1 [a | e1]] eqn:H1.
  - apply Hk.
  - intros [= _ <-]. exact (Hm _ _ _ H1).
Qed.

Ltac no_assert :=
  repeat first
    [ apply raises_only_ret
    | apply raises_only_get
    | apply raises_only_modify
    | apply raises_only_raise; exact I
    | apply raises_only_required; exact I
    | apply raises_only_bind; [| intros ?]
    | match goal with
      | |- raises_only _ (if ?c then _ else _) => destruct c
      | |- raises_only _ (match ?c with _ => _ end) => destruct c
      end ].


(** ** The inactivity job *)

Section Inactivity.
Context {L : Lib}.
Import Bot Runs.

Lemma set_tapped_ok (w : world) (tapped : list bool) (i : nat) (b : bool) :
  inline_tapped (user w) = Some tapped -> (i < length tapped)%nat ->
  set_tapped i b w =
    (set_user (set_inline_tapped (Some (<[i := b]> tapped))) w, Ok tt).
Proof.
  intros Ht Hi. apply Nat.ltb_lt in Hi.
  unfold set_tapped, bind, get, required, ret. cbv beta iota.
  rewrite Ht. cbv beta iota. rewrite Hi. reflexivity.
Qed.

Lemma callback_emits (w : world) (now : Q) (last : Z) (tapped : list bool) :
  waiting (user w) = Some false ->
  last_time (user w) = Some last ->
  inline_tapped (user w) = Some tapped -> (5 <= length tapped)%nat ->
  (inject_Z MAX_TIME < fl (now - inject_Z last))%Q ->
  exists w', _callback_no_response now w = (w', Ok tt) /\
             sent w' = sent w ++ [InactivityWarning] /\
             waiting (user w') = Some true /\
             last_time (user w') = Some last /\
             inline_tapped (user w') = Some (<[4%nat := false]> (<[3%nat := false]> tapped)) /\
             route (user w') = route (user w) /\
             jobs w' = jobs w.
Proof.
  intros Hw Hl Ht Hn Hdue.
  unfold _callback_no_response.
  rewrite (bind_ok get _ w w w) by reflexivity. rewrite Hw.
  rewrite (bind_ok _ _ w w last) by (rewrite Hl; reflexivity).
  apply Qlt_bool_iff in Hdue. rewrite Hdue.
  erewrite bind_ok by (apply (set_tapped_ok _ tapped); [exact Ht | lia]).
  erewrite bind_ok.
  2:{ apply (set_tapped_ok _ (<[3%nat := false]> tapped)); [reflexivity |].
      rewrite length_insert. lia. }
  run_monad. eexists. split; [reflexivity |]. cbn. rewrite Hl.
  repeat split; reflexivity.
Qed.

Lemma callback_silent (w : world) (now : Q) :
  (waiting (user w) <> Some false \/
   exists last, last_time (user w) = Some last /\
                (fl (now - inject_Z last) <= inject_Z MAX_TIME)%Q) ->
  _callback_no_response now w = (w, Ok tt).
Proof.
  intros H. unfold _callback_no_response.
  rewrite (bind_ok get _ w w w) by reflexivity.
  destruct (waiting (user w)) as [[|]|] eqn:Hw; try reflexivity.
  destruct H as [H | (last & Hl & Hle)]; [congruence |].
  rewrite (bind_ok _ _ w w last) by (rewrite Hl; reflexivity).
  apply Qlt_bool_false_iff in Hle. rewrite Hle. reflexivity.
Qed.




End Inactivity.


(** ** The look-ahead loop *)

Section Tracker.
Context {L : Lib}.
Import Bot.

Lemma is_reached_iff (d : Z) :
  is_reached (Some d) = true <-> d <> 0 /\ d < NEAR_DST.
Proof.
  unfold is_reached, int_truthy.
  rewrite andb_true_iff, negb_true_iff, Z.eqb_neq, Z.ltb_lt. tauto.
Qed.

Lemma is_reached_far (d : Z) : NEAR_DST <= d -> is_reached (Some d) = false.
Proof.
  intros H. apply not_true_iff_false. rewrite is_reached_iff. lia.
Qed.

Lemma measure_slot_state (location : coord) (current count i : Z)
  (previous : option Z) (w w' : world) (res : result (option Z)) :
  measure_slot location current count i previous w = (w', res) -> w' = w.
Proof.
  unfold measure_slot. destruct (current + i <? count).
  - unfold bind, get, required, ret, raise.
    destruct (route (user w)) as [r |]; [| intros [= <- _]; reflexivity].
    destruct (py_index r (current + i)); intros [= <- _]; reflexivity.
  - intros [= <- _]. reflexivity.
Qed.

Lemma measure_slot_in_range (location : coord) (current count i : Z)
  (previous : option Z) (w : world) (r : list segment) (next : segment) :
  route (user w) = Some r -> current + i < count ->
  py_index r (current + i) = Some next ->
  measure_slot location current count i previous w =
    (w, Ok (Some (pyround (haversine (reversed location)
                                     (reversed (s_mid next)))))).
Proof.
  intros Hr Hlt Hn. unfold measure_slot.
  apply Z.ltb_lt in Hlt. rewrite Hlt.
  unfold bind, get, required, ret. rewrite Hr, Hn. reflexivity.
Qed.

Lemma measure_slot_past_end (location : coord) (current count i : Z)
  (previous : option Z) (w : world) :
  count <= current + i ->
  measure_slot location current count i previous w = (w, Ok previous).
Proof.
  intros Hge. unfold measure_slot.
  apply Z.ltb_ge in Hge. rewrite Hge. reflexivity.
Qed.

(** A pass in which the distance at hand does not pass the test leaves
    the session as it is. *)
Lemma lookahead_slot_skip (location : coord) (current count i : Z)
  (locals : option Z * bool) (w : world) (cd : option Z) :
  measure_slot location current count i (fst locals) w = (w, Ok cd) ->
  is_reached cd = false ->
  lookahead_slot location current count i locals w = (w, Ok (cd, snd locals)).
Proof.
  intros Hm Hr. unfold lookahead_slot.
  rewrite (bind_ok _ _ _ _ _ Hm). rewrite Hr. reflexivity.
Qed.

Lemma lookahead_slot_take (location : coord) (current count i : Z)
  (locals : option Z * bool) (w : world) (cd : option Z) :
  measure_slot location current count i (fst locals) w = (w, Ok cd) ->
  is_reached cd = true ->
  lookahead_slot location current count i locals w =
    (run reach_checkpoint current count i ;;; ret (cd, true)) w.
Proof.
  intros Hm Hr. unfold lookahead_slot.
  rewrite (bind_ok _ _ _ _ _ Hm). rewrite Hr. reflexivity.
Qed.

(** Once a pass has set [is_near], it stays set. *)
Lemma lookahead_slot_keeps_near (location : coord) (current count i : Z)
  (cd0 cd : option Z) (b : bool) (w w' : world) :
  lookahead_slot location current count i (cd0, true) w = (w', Ok (cd, b)) ->
  b = true.
Proof.
  unfold lookahead_slot, bind.
  destruct (measure_slot _ _ _ _ _ w) as [w1 [cd1 | e]]; [| discriminate].
  destruct (is_reached cd1).
  - destruct (reach_checkpoint _ _ _ w1) as [w2 [[] | e]]; [| discriminate].
    unfold ret. intros [= _ _ <-]. reflexivity.
  - unfold ret. cbn. intros [= _ _ <-]. reflexivity.
Qed.

Lemma loop_keeps_near (location : coord) (current count : Z) (idx : list Z)
  (cd0 cd : option Z) (b : bool) (w w' : world) :
  for_each (lookahead_slot location current count) idx (cd0, true) w
    = (w', Ok (cd, b)) ->
  b = true.
Proof.
  revert cd0 w. induction idx as [| i rest IH]; intros cd0 w.
  - cbn. unfold ret. intros [= _ _ <-]. reflexivity.
  - cbn [for_each]. unfold bind at 1.
    destruct (lookahead_slot _ _ _ i (cd0, true) w) as [w1 [[cd1 b1] | e]] eqn:Hs;
      [| discriminate].
    apply lookahead_slot_keeps_near in Hs. subst b1. apply IH.
Qed.

(** A loop that ends with [is_near] false has reached nothing and has
    left the session as it was. *)
Lemma loop_none_reached (location : coord) (current count : Z) (idx : list Z)
  (locals : option Z * bool) (cd : option Z) (w w' : world) :
  for_each (lookahead_slot location current count) idx locals w
    = (w', Ok (cd, false)) ->
  w' = w.
Proof.
  revert locals w. induction idx as [| i rest IH]; intros locals w.
  - cbn. unfold ret. intros [= <- _]. reflexivity.
  - cbn [for_each]. unfold bind at 1.
    destruct (lookahead_slot _ _ _ i locals w) as [w1 [[cd1 b1] | e]] eqn:Hs;
      [| discriminate].
    intros Hrest. destruct b1.
    { apply loop_keeps_near in Hrest. discriminate. }
    apply IH in Hrest. subst w'.
    revert Hs. unfold lookahead_slot, bind.
    destruct (measure_slot _ _ _ _ _ w) as [w2 [cd2 | e]] eqn:Hm; [| discriminate].
    apply measure_slot_state in Hm. subst w2.
    destruct (is_reached cd2).
    + destruct (reach_checkpoint _ _ _ w) as [w3 [[] | e]]; [| discriminate].
      unfold ret. discriminate.
    + unfold ret. intros [= <- _ _]. reflexivity.
Qed.

(** C10.  The look-ahead test and the walking-away test see the haversine
    distance only after [round]: checkpoint [current + i] is taken as
    reached exactly when the rounded distance is between 1 and 19, so a
    true distance from 19.5 m up to 20 m, which rounds to 20, is not a
    reach although it is below NEAR_DST; and two locations whose rounded
    distances agree are treated alike by both tests. *)
Theorem reach_test_uses_rounded_distance (w : world) (location : coord)
  (current count i : Z) (locals : option Z * bool) (r : list segment)
  (next : segment) :
  route (user w) = Some r -> current + i < count ->
  py_index r (current + i) = Some next ->
  (0 <= haversine (reversed location) (reversed (s_mid next)))%Q ->
  let d := haversine (reversed location) (reversed (s_mid next)) in
  (1 <= pyround d <= 19 ->
     lookahead_slot location current count i locals w =
       (run reach_checkpoint current count i ;;;
        ret (Some (pyround d), true)) w) /\
  (~ 1 <= pyround d <= 19 ->
     lookahead_slot location current count i locals w =
       (w, Ok (Some (pyround d), snd locals))) /\
  ((39 # 2 <= d)%Q -> (d < 20)%Q ->
     lookahead_slot location current count i locals w =
       (w, Ok (Some 20, snd locals))) /\
  (forall location',
     pyround (haversine (reversed location') (reversed (s_mid next)))
       = pyround d ->
     lookahead_slot location' current count i locals w =
       lookahead_slot location current count i locals w /\
     check_walking_away location' (current + i) w =
       check_walking_away location (current + i) w).
Proof.
  intros Hr Hlt Hn Hpos d.
  assert (Hm : forall loc0, measure_slot loc0 current count i (fst locals) w =
                 (w, Ok (Some (pyround (haversine (reversed loc0)
                                                  (reversed (s_mid next)))))))
    by (intros loc0; eapply measure_slot_in_range; eassumption).
  assert (Hnn : 0 <= pyround d) by (apply pyround_lower; exact Hpos).
  split; [| split; [| split]].
  - intros Hin. apply lookahead_slot_take; [apply Hm |].
    apply is_reached_iff. unfold NEAR_DST. fold d. lia.
  - intros Hout. apply lookahead_slot_skip; [apply Hm |].
    apply not_true_iff_false. rewrite is_reached_iff. unfold NEAR_DST.
    fold d. lia.
  - intros Hlo Hhi. rewrite <- (pyround_just_below_20 d Hlo Hhi).
    apply lookahead_slot_skip; [apply Hm |].
    fold d. rewrite (pyround_just_below_20 d Hlo Hhi). reflexivity.
  - intros location' Heq. split.
    + unfold lookahead_slot. rewrite !(bind_ok _ _ _ _ _ (Hm _)).
      fold d. rewrite Heq. reflexivity.
    + unfold check_walking_away, bind, get, required, ret.
      rewrite Hr, Hn. fold d. rewrite Heq. reflexivity.
Qed.

Lemma py_index_nonneg {A} (l : list A) (k : Z) :
  0 <= k < Z.of_nat (length l) -> py_index l k = l !! Z.to_nat k.
Proof.
  intros [H1 H2]. unfold py_index.
  apply Z.leb_le in H1. apply Z.ltb_lt in H2. rewrite H1, H2. reflexivity.
Qed.

Lemma py_index_in_range {A} (l : list A) (k : Z) :
  0 <= k < Z.of_nat (length l) -> exists x, py_index l k = Some x.
Proof.
  intros H. rewrite py_index_nonneg by exact H.
  destruct (lookup_lt_is_Some_2 l (Z.to_nat k)) as [x Hx]; [lia |].
  exists x. exact Hx.
Qed.

Lemma py_index_some_range {A} (l : list A) (k : Z) (x : A) :
  0 <= k -> py_index l k = Some x -> k < Z.of_nat (length l).
Proof.
  intros Hk. unfold py_index.
  destruct (0 <=? k) eqn:H0; [| lia].
  destruct (k <? Z.of_nat (length l)) eqn:H1; [lia |]. cbn.
  destruct (- Z.of_nat (length l) <=? k); cbn; [| discriminate].
  destruct (k <? 0) eqn:H2; [lia | discriminate].
Qed.

Lemma py_index_last {A} (l : list A) :
  l <> [] -> exists x, py_index l (-1) = Some x.
Proof.
  intros Hl. unfold py_index.
  assert (Hn : (0 < length l)%nat) by (destruct l; [congruence | cbn; lia]).
  replace (0 <=? -1) with false by reflexivity. cbn [andb].
  replace (- Z.of_nat (length l) <=? -1) with true by (symmetry; apply Z.leb_le; lia).
  replace (-1 <? 0) with true by reflexivity. cbn [andb].
  destruct (lookup_lt_is_Some_2 l (Z.to_nat (Z.of_nat (length l) + -1)))
    as [x Hx]; [lia |].
  exists x. exact Hx.
Qed.

Lemma store_location_user (location : coord) (now : Q) (w : world) :
  route (user (store_location location now w)) = route (user w) /\
  checkpts (user (store_location location now w)) = checkpts (user w) /\
  curr_chkpt (user (store_location location now w)) = curr_chkpt (user w) /\
  target (user (store_location location now w)) = target (user w) /\
  inline_tapped (user (store_location location now w)) = inline_tapped (user w) /\
  loc (user (store_location location now w)) = Some location /\
  last_time (user (store_location location now w)) = Some (pyint now) /\
  waiting (user (store_location location now w)) = Some false /\
  jobs (store_location location now w) = jobs w /\
  sent (store_location location now w) = sent w /\
  bot_map (store_location location now w) = bot_map w.
Proof. repeat split; reflexivity. Qed.

(** The handler with a route in the session: the loop, then the
    walking-away test when nothing was reached. *)
Lemma update_with_route (w : world) (location : coord) (now : Q)
  (r : list segment) (current count : Z) :
  route (user w) = Some r -> r <> [] ->
  curr_chkpt (user w) = Some current -> checkpts (user w) = Some count ->
  _update_and_check location now w =
    (do locals <~ for_each (lookahead_slot location current count)
                           (range N) (None, false) ;;;
     if negb (snd locals) then check_walking_away location current
     else ret tt) (store_location location now w).
Proof.
  intros Hr Hne Hc Hn. unfold _update_and_check.
  rewrite (bind_ok _ _ w (store_location location now w) tt) by reflexivity.
  rewrite (bind_ok get _ _ _ _ eq_refl).
  destruct (store_location_user location now w) as (H1 & H2 & H3 & _).
  unfold has_route. rewrite H1, Hr.
  destruct r as [| s0 r']; [congruence |].
  rewrite H3, Hc, H2, Hn. reflexivity.
Qed.

(** A loop in which no distance at hand passes the test. *)
Lemma loop_quiet (location : coord) (current count : Z) (r : list segment)
  (w : world) (idx : list Z) (locals : option Z * bool) :
  route (user w) = Some r ->
  is_reached (fst locals) = false ->
  (forall i, In i idx -> current + i < count ->
     exists next, py_index r (current + i) = Some next /\
       is_reached (Some (pyround (haversine (reversed location)
                                            (reversed (s_mid next))))) = false) ->
  exists cd, for_each (lookahead_slot location current count) idx locals w
             = (w, Ok (cd, snd locals)).
Proof.
  intros Hr. revert locals. induction idx as [| i rest IH]; intros locals Hcd Hq.
  - exists (fst locals). destruct locals. reflexivity.
  - cbn [for_each].
    destruct (Z.lt_ge_cases (current + i) count) as [Hlt | Hge].
    + destruct (Hq i (or_introl eq_refl) Hlt) as (next & Hn & Hfar).
      erewrite bind_ok.
      2:{ apply lookahead_slot_skip; [| exact Hfar].
          eapply measure_slot_in_range; eassumption. }
      apply (IH (_, snd locals)); [exact Hfar |].
      intros j Hj. apply Hq. right. exact Hj.
    + erewrite bind_ok.
      2:{ apply lookahead_slot_skip; [| exact Hcd].
          apply measure_slot_past_end. lia. }
      apply (IH (_, snd locals)); [exact Hcd |].
      intros j Hj. apply Hq. right. exact Hj.
Qed.

(** What the walking-away test can do: at most one warning, and the route
    and the position on it stay. *)
Lemma check_walking_away_frame (location : coord) (current : Z)
  (w w' : world) (res : result unit) :
  check_walking_away location current w = (w', res) ->
  route (user w') = route (user w) /\
  curr_chkpt (user w') = curr_chkpt (user w) /\
  checkpts (user w') = checkpts (user w) /\
  jobs w' = jobs w /\
  exists evs, sent w' = sent w ++ evs /\
    (evs = [] \/ evs = [LostSuggestRecompute] \/
     exists d, evs = [DriftWarning d]).
Proof.
  assert (Hnil : forall w0 : world, exists evs : list event,
             sent w0 = sent w0 ++ evs /\
             (evs = [] \/ evs = [LostSuggestRecompute] \/
              exists d, evs = [DriftWarning d])).
  { intros w0. exists []. rewrite app_nil_r. auto. }
  assert (Htap : forall i e w1 res1,
             (run set_tapped i false ;;; send e) w = (w1, res1) ->
             route (user w1) = route (user w) /\
             curr_chkpt (user w1) = curr_chkpt (user w) /\
             checkpts (user w1) = checkpts (user w) /\
             jobs w1 = jobs w /\
             (sent w1 = sent w ++ [e] \/ sent w1 = sent w)).
  { intros i e w1 res1. unfold set_tapped, bind, get, required, ret, raise.
    destruct (inline_tapped (user w)) as [tapped |].
    - destruct (i <? length tapped)%nat.
      + unfold send, modify. intros [= <- _]. cbn. auto 10.
      + intros [= <- _]. auto 10.
    - intros [= <- _]. auto 10. }
  unfold check_walking_away.
  unfold bind at 1. unfold get at 1. unfold bind at 1. unfold required at 1.
  destruct (route (user w)) as [r |] eqn:Hr.
  2:{ unfold raise. intros [= <- _].
      repeat (split; [first [reflexivity | assumption] |]). apply Hnil. }
  unfold ret at 1. unfold bind at 1. unfold required at 1.
  destruct (py_index r current) as [next |].
  2:{ unfold raise. intros [= <- _].
      repeat (split; [first [reflexivity | assumption] |]). apply Hnil. }
  unfold ret at 1.
  destruct (beyond _ _ FAR_AWAY_DST).
  { intros H. apply Htap in H. destruct H as (H1 & H2 & H3 & H4 & [H5 | H5]).
    - repeat (split; [assumption |]). eexists. split; [exact H5 |]. auto.
    - repeat (split; [assumption |]). exists []. rewrite app_nil_r. auto. }
  destruct (beyond _ _ AWAY_DST).
  { intros H. apply Htap in H. destruct H as (H1 & H2 & H3 & H4 & [H5 | H5]).
    - repeat (split; [assumption |]). eexists. split; [exact H5 |]. eauto.
    - repeat (split; [assumption |]). exists []. rewrite app_nil_r. auto. }
  unfold ret. intros [= <- _].
  repeat (split; [first [reflexivity | assumption] |]). apply Hnil.
Qed.

(** C3 (the code departs from it).  A location exactly on the current
    checkpoint's midpoint has distance 0, which [round] keeps at 0 and the
    test [current_distance and ...] takes as false: with no further
    look-ahead midpoint within 20 m, the position on the route does not
    move and no checkpoint message is sent. *)
Theorem standing_on_checkpoint_not_reached (w : world) (location : coord)
  (now : Q) (r : list segment) (current : Z) (next : segment) :
  route (user w) = Some r ->
  checkpts (user w) = Some (Z.of_nat (length r)) ->
  curr_chkpt (user w) = Some current -> 0 <= current ->
  py_index r current = Some next ->
  (haversine (reversed location) (reversed (s_mid next)) == 0)%Q ->
  (forall i further, 1 <= i < N ->
     py_index r (current + i) = Some further ->
     (inject_Z NEAR_DST <=
        haversine (reversed location) (reversed (s_mid further)))%Q) ->
  exists w' res evs,
    _update_and_check location now w = (w', res) /\
    curr_chkpt (user w') = Some current /\
    route (user w') = Some r /\
    sent w' = sent w ++ evs /\
    forall m, ~ In (Guidance m) evs.
Proof.
  intros Hr Hn Hc Hpos Hnext Hzero Hfar.
  assert (Hlen : current < Z.of_nat (length r))
    by (eapply py_index_some_range; eassumption).
  assert (Hne : r <> []) by (intros ->; cbn in Hlen; lia).
  rewrite (update_with_route w location now r current _ Hr Hne Hc Hn).
  destruct (store_location_user location now w)
    as (S1 & S2 & S3 & _ & _ & _ & _ & _ & _ & S10 & _).
  set (w0 := store_location location now w) in *.
  destruct (loop_quiet location current (Z.of_nat (length r)) r w0
              (range N) (None, false)) as [cd Hloop].
  { rewrite S1. exact Hr. }
  { reflexivity. }
  { intros i Hi Hlt.
    assert (Hi3 : 0 <= i < N)
      by (change (range N) with [0; 1; 2] in Hi; cbn in Hi; unfold N; lia).
    destruct (py_index_in_range r (current + i)) as [x Hx]; [lia |].
    exists x. split; [exact Hx |].
    destruct (Z.eq_dec i 0) as [-> | Hi0].
    - rewrite Z.add_0_r in Hx. rewrite Hnext in Hx. injection Hx as <-.
      rewrite (pyround_zero _ Hzero). reflexivity.
    - apply is_reached_far. apply pyround_lower.
      apply (Hfar i x); [lia | exact Hx]. }
  rewrite (bind_ok _ _ _ _ _ Hloop). cbn [snd negb].
  destruct (check_walking_away location current w0) as [w' res] eqn:Hcwa.
  apply check_walking_away_frame in Hcwa.
  destruct Hcwa as (F1 & F2 & _ & _ & evs & F5 & F6).
  exists w', res, evs.
  split; [reflexivity |].
  split; [rewrite F2, S3; exact Hc |].
  split; [rewrite F1, S1; exact Hr |].
  split; [rewrite F5, S10; reflexivity |].
  intros m Hin.
  destruct F6 as [-> | [-> | [d ->]]]; cbn in Hin; intuition discriminate.
Qed.

Lemma py_index_some_nonempty {A} (l : list A) (k : Z) (x : A) :
  py_index l k = Some x -> l <> [].
Proof.
  intros H ->. unfold py_index in H.
  destruct ((0 <=? k) && (k <? Z.of_nat (length []))); [discriminate |].
  destruct ((- Z.of_nat (length []) <=? k) && (k <? 0)); discriminate.
Qed.

Lemma beyond_present (m : Q) (d margin : Z) :
  ~ (m == 0)%Q ->
  beyond (Some m) d margin = Qlt_bool (fl (m + inject_Z margin)) (inject_Z d).
Proof.
  intros Hm. unfold beyond, float_truthy.
  destruct (Qeq_bool m 0) eqn:H; [| reflexivity].
  apply Qeq_bool_iff in H. contradiction.
Qed.

(** X18.  On an update in which no checkpoint is reached, with the
    current segment's length present and not zero: beyond length + 250 the
    lost message is sent and nothing else; else beyond length + 80 the
    drift warning with the rounded distance; else nothing.  The session
    was opened with /start (inline_tapped has its seven entries). *)
Theorem walking_away_warnings (w : world) (location : coord) (now : Q)
  (r : list segment) (current count : Z) (next : segment) (m : Q)
  (tapped : list bool) (w1 : world) (cd : option Z) :
  route (user w) = Some r ->
  curr_chkpt (user w) = Some current -> checkpts (user w) = Some count ->
  for_each (lookahead_slot location current count) (range N) (None, false)
           (store_location location now w) = (w1, Ok (cd, false)) ->
  py_index r current = Some next ->
  s_length next = Some m -> ~ (m == 0)%Q ->
  inline_tapped (user w) = Some tapped -> (7 <= length tapped)%nat ->
  let d := pyround (haversine (reversed location) (reversed (s_mid next))) in
  exists w',
    _update_and_check location now w = (w', Ok tt) /\
    ((fl (m + inject_Z FAR_AWAY_DST) < inject_Z d)%Q ->
       sent w' = sent w ++ [LostSuggestRecompute]) /\
    ((inject_Z d <= fl (m + inject_Z FAR_AWAY_DST))%Q ->
     (fl (m + inject_Z AWAY_DST) < inject_Z d)%Q ->
       sent w' = sent w ++ [DriftWarning d]) /\
    ((inject_Z d <= fl (m + inject_Z FAR_AWAY_DST))%Q ->
     (inject_Z d <= fl (m + inject_Z AWAY_DST))%Q ->
       sent w' = sent w).
Proof.
  intros Hr Hc Hn Hloop Hnext Hlen Hm Ht Htl d.
  pose proof (py_index_some_nonempty _ _ _ Hnext) as Hne.
  rewrite (update_with_route w location now r current count Hr Hne Hc Hn).
  pose proof (loop_none_reached _ _ _ _ _ _ _ _ Hloop) as ->.
  rewrite (bind_ok _ _ _ _ _ Hloop). cbn [snd negb].
  destruct (store_location_user location now w)
    as (S1 & _ & _ & _ & S5 & _ & _ & _ & _ & S10 & _).
  set (w0 := store_location location now w) in *.
  unfold check_walking_away.
  rewrite (bind_ok get _ _ _ _ eq_refl).
  rewrite S1, Hr. cbn [required]. rewrite (bind_ok _ _ w0 w0 r eq_refl).
  rewrite Hnext. cbn [required]. rewrite (bind_ok _ _ w0 w0 next eq_refl).
  fold d. rewrite Hlen, !beyond_present by exact Hm.
  destruct (Qlt_bool (fl (m + inject_Z FAR_AWAY_DST)) (inject_Z d)) eqn:Hfar.
  - erewrite bind_ok.
    2:{ apply (set_tapped_ok w0 tapped); [rewrite S5; exact Ht | lia]. }
    eexists. split; [reflexivity |].
    apply Qlt_bool_iff in Hfar.
    split; [intros _; reflexivity |].
    split; intros Hle; exfalso; exact (Qlt_not_le _ _ Hfar Hle).
  - apply Qlt_bool_false_iff in Hfar.
    destruct (Qlt_bool (fl (m + inject_Z AWAY_DST)) (inject_Z d)) eqn:Haway.
    + erewrite bind_ok.
      2:{ apply (set_tapped_ok w0 tapped); [rewrite S5; exact Ht | lia]. }
      eexists. split; [reflexivity |].
      apply Qlt_bool_iff in Haway.
      split; [intros Hlt; exfalso; exact (Qlt_not_le _ _ Hlt Hfar) |].
      split; [intros _ _; reflexivity |].
      intros _ Hle; exfalso; exact (Qlt_not_le _ _ Haway Hle).
    + apply Qlt_bool_false_iff in Haway.
      exists w0. split; [reflexivity |].
      split; [intros Hlt; exfalso; exact (Qlt_not_le _ _ Hlt Hfar) |].
      split; [intros _ Hlt; exfalso; exact (Qlt_not_le _ _ Hlt Haway) |].
      intros _ _. exact S10.
Qed.

(** C5 (the code departs from it).  On an update in which no checkpoint
    is reached, a current segment whose length is present and is 0.0 gets
    no warning at all, however far beyond 0 + 250 the user is: the guard
    [if min_distance and ...] takes the present 0.0 for an absent length.
    The update only stores the location. *)
Theorem zero_length_segment_is_never_warned (w : world) (location : coord)
  (now : Q) (r : list segment) (current count : Z) (next : segment) (m : Q)
  (w1 : world) (cd : option Z) :
  route (user w) = Some r ->
  curr_chkpt (user w) = Some current -> checkpts (user w) = Some count ->
  for_each (lookahead_slot location current count) (range N) (None, false)
           (store_location location now w) = (w1, Ok (cd, false)) ->
  py_index r current = Some next ->
  s_length next = Some m -> (m == 0)%Q ->
  _update_and_check location now w = (store_location location now w, Ok tt) /\
  sent (store_location location now w) = sent w.
Proof.
  intros Hr Hc Hn Hloop Hnext Hlen Hm.
  split; [| reflexivity].
  pose proof (py_index_some_nonempty _ _ _ Hnext) as Hne.
  rewrite (update_with_route w location now r current count Hr Hne Hc Hn).
  pose proof (loop_none_reached _ _ _ _ _ _ _ _ Hloop) as ->.
  rewrite (bind_ok _ _ _ _ _ Hloop). cbn [snd negb].
  destruct (store_location_user location now w) as (S1 & _).
  set (w0 := store_location location now w) in *.
  unfold check_walking_away.
  rewrite (bind_ok get _ _ _ _ eq_refl).
  rewrite S1, Hr. cbn [required]. rewrite (bind_ok _ _ w0 w0 r eq_refl).
  rewrite Hnext. cbn [required]. rewrite (bind_ok _ _ w0 w0 next eq_refl).
  cbv zeta. rewrite Hlen.
  assert (Hfalse : forall d margin, beyond (Some m) d margin = false).
  { intros d margin. unfold beyond, float_truthy.
    apply Qeq_bool_iff in Hm. rewrite Hm. reflexivity. }
  rewrite !Hfalse. reflexivity.
Qed.

(** [_message_route] on the last checkpoint: the arrival photo is sent, the
    route leaves the session, the arrival text is returned. *)
Lemma message_route_arrival (w : world) (r : list segment) (location : coord)
  (current count : Z) (final previous : segment) :
  route (user w) = Some r -> loc (user w) = Some location ->
  curr_chkpt (user w) = Some current -> checkpts (user w) = Some count ->
  current <> 0 -> count - 1 <= current ->
  py_index r (-1) = Some final -> py_index r (current - 1) = Some previous ->
  _message_route w =
    (set_user (set_curr_chkpt None)
       (set_user (set_checkpts None)
          (set_user (set_route None)
             (record_sent (ArrivalPhoto (reversed location)
                                        (reversed (s_mid final))) w))),
     Ok (ArrivalMessage
           (pyround (haversine (reversed location) (reversed (s_mid final))))
           (classify_side (s_angle previous)))).
Proof.
  intros Hr Hl Hc Hn H0 Hlast Hf Hp. unfold _message_route.
  rewrite (bind_ok get _ _ _ _ eq_refl).
  rewrite Hr, Hl, Hc, Hn. cbn [required].
  rewrite !(bind_ok (ret _) _ w w _ eq_refl).
  apply Z.eqb_neq in H0. rewrite H0.
  replace (current <? count - 1) with false by (symmetry; apply Z.ltb_ge; lia).
  rewrite Hf. cbn [required]. rewrite (bind_ok (ret _) _ w w _ eq_refl).
  rewrite Hp. cbn [required]. rewrite (bind_ok (ret _) _ w w _ eq_refl).
  erewrite bind_ok by reflexivity.
  erewrite bind_ok.
  2:{ unfold del_route, bind, get. cbn. rewrite Hr. reflexivity. }
  erewrite bind_ok.
  2:{ unfold del_checkpts, bind, get. cbn. rewrite Hn. reflexivity. }
  erewrite bind_ok.
  2:{ unfold del_curr_chkpt, bind, get. cbn. rewrite Hc. reflexivity. }
  reflexivity.
Qed.

(** C2 (the code departs from it).  On the update that reaches the last
    checkpoint in order, the arrival messages are sent and the route leaves
    the session, but the loop goes on to its next pass, which reads the
    route that is no longer there: the handler ends in KeyError. *)
Theorem completion_raises_key_error (w : world) (location : coord) (now : Q)
  (r : list segment) (t : string) (next : segment) :
  route (user w) = Some r ->
  checkpts (user w) = Some (Z.of_nat (length r)) -> (3 <= length r)%nat ->
  curr_chkpt (user w) = Some (Z.of_nat (length r) - 2) ->
  target (user w) = Some t ->
  py_index r (Z.of_nat (length r) - 2) = Some next ->
  1 <= pyround (haversine (reversed location) (reversed (s_mid next))) <= 19 ->
  exists w' final,
    py_index r (-1) = Some final /\
    _update_and_check location now w = (w', Raise KeyError) /\
    route (user w') = None /\ checkpts (user w') = None /\
    curr_chkpt (user w') = None /\
    sent w' = sent w ++
      [ArrivalPhoto (reversed location) (reversed (s_mid final));
       Guidance (ArrivalMessage
                   (pyround (haversine (reversed location)
                                       (reversed (s_mid final))))
                   (classify_side (s_angle next)));
       ShareOffer].
Proof.
  intros Hr Hn Hlen Hc Ht Hnext Hd.
  set (n := Z.of_nat (length r)) in *.
  assert (Hn3 : 3 <= n) by (unfold n; lia).
  pose proof (py_index_some_nonempty _ _ _ Hnext) as Hne.
  destruct (py_index_last r Hne) as [final Hfinal].
  rewrite (update_with_route w location now r (n - 2) n Hr Hne Hc Hn).
  destruct (store_location_user location now w)
    as (S1 & S2 & S3 & S4 & _ & S6 & _ & _ & _ & S10 & _).
  set (w0 := store_location location now w) in *.
  change (range N) with [0; 1; 2].
  (* pass 0: the checkpoint is reached, the route is completed *)
  assert (Hm0 : measure_slot location (n - 2) n 0 (fst (@None Z, false)) w0 =
                (w0, Ok (Some (pyround (haversine (reversed location)
                                                  (reversed (s_mid next))))))).
  { eapply measure_slot_in_range; [rewrite S1; exact Hr | lia |].
    rewrite Z.add_0_r. exact Hnext. }
  assert (Hreach : is_reached (Some (pyround (haversine (reversed location)
                                       (reversed (s_mid next))))) = true).
  { apply is_reached_iff. unfold NEAR_DST. lia. }
  set (w1 := set_user (set_curr_chkpt (Some (n - 2 + 0 + 1))) w0).
  set (w2 := set_user (set_curr_chkpt None)
               (set_user (set_checkpts None)
                  (set_user (set_route None)
                     (record_sent (ArrivalPhoto (reversed location)
                                     (reversed (s_mid final))) w1)))).
  set (msg := ArrivalMessage
                (pyround (haversine (reversed location) (reversed (s_mid final))))
                (classify_side (s_angle next))).
  assert (Hmsg : _message_route w1 = (w2, Ok msg)).
  { apply message_route_arrival with (r := r) (current := n - 2 + 0 + 1) (count := n).
    - exact Hr.
    - reflexivity.
    - reflexivity.
    - exact Hn.
    - lia.
    - lia.
    - exact Hfinal.
    - replace (n - 2 + 0 + 1 - 1) with (n - 2) by lia. exact Hnext. }
  set (w3 := record_sent ShareOffer (record_sent (Guidance msg) w2)).
  assert (Hreachrun : reach_checkpoint (n - 2) n 0 w0 = (w3, Ok tt)).
  { unfold reach_checkpoint.
    rewrite (bind_ok _ _ w0 w1 tt eq_refl).
    rewrite (bind_ok _ _ _ _ _ Hmsg).
    rewrite (bind_ok _ _ w2 (record_sent (Guidance msg) w2) tt eq_refl).
    replace (n - 2 + 0 + 1 =? n - 1) with true by (symmetry; apply Z.eqb_eq; lia).
    rewrite (bind_ok get _ _ _ _ eq_refl).
    replace (target (user (record_sent (Guidance msg) w2))) with (Some t)
      by (symmetry; exact Ht).
    reflexivity. }
  assert (Hs0 : lookahead_slot location (n - 2) n 0 (None, false) w0 =
                (w3, Ok (Some (pyround (haversine (reversed location)
                                                  (reversed (s_mid next)))), true))).
  { rewrite (lookahead_slot_take _ _ _ _ _ _ _ Hm0 Hreach).
    rewrite (bind_ok _ _ _ _ _ Hreachrun). reflexivity. }
  (* pass 1: the route is read again *)
  assert (Hs1 : lookahead_slot location (n - 2) n 1
                  (Some (pyround (haversine (reversed location)
                                            (reversed (s_mid next)))), true) w3
                = (w3, Raise KeyError)).
  { unfold lookahead_slot, measure_slot.
    replace (n - 2 + 1 <? n) with true by (symmetry; apply Z.ltb_lt; lia).
    reflexivity. }
  assert (Hloop : for_each (lookahead_slot location (n - 2) n) [0; 1; 2]
                    (None, false) w0 = (w3, Raise KeyError)).
  { cbn [for_each]. rewrite (bind_ok _ _ _ _ _ Hs0).
    rewrite (bind_raise _ _ _ _ _ Hs1). reflexivity. }
  rewrite (bind_raise _ _ _ _ _ Hloop).
  exists w3, final. split; [exact Hfinal |]. split; [reflexivity |].
  repeat split. cbn. rewrite <- !app_assoc. reflexivity.
Qed.

End Tracker.

(** ** What a location update leaves alone *)

Section Frame.
Context {L : Lib}.
Import Bot.

Lemma set_tapped_clock (i : nat) (b : bool) : preserves clock (set_tapped i b).
Proof. unfold set_tapped. frame. Qed.

Lemma message_route_clock : preserves clock _message_route.
Proof.
  unfold _message_route, send, del_route, del_checkpts, del_curr_chkpt. frame.
Qed.

Lemma reach_checkpoint_clock (current count i : Z) :
  preserves clock (reach_checkpoint current count i).
Proof.
  unfold reach_checkpoint, send.
  apply preserves_bind; [frame |]. intros _.
  apply preserves_bind; [apply message_route_clock |]. intros msg. frame.
Qed.

Lemma lookahead_slot_clock (location : coord) (current count i : Z)
  (locals : option Z * bool) :
  preserves clock (lookahead_slot location current count i locals).
Proof.
  unfold lookahead_slot, measure_slot.
  apply preserves_bind; [frame |]. intros cd.
  destruct (is_reached cd); [| frame].
  apply preserves_bind; [apply reach_checkpoint_clock |]. intros _. frame.
Qed.

Lemma check_walking_away_clock (location : coord) (current : Z) :
  preserves clock (check_walking_away location current).
Proof.
  unfold check_walking_away, send.
  apply preserves_bind; [frame |]. intros w.
  apply preserves_bind; [frame |]. intros r.
  apply preserves_bind; [frame |]. intros next.
  destruct (beyond _ _ FAR_AWAY_DST).
  { apply preserves_bind; [apply set_tapped_clock |]. intros _. frame. }
  destruct (beyond _ _ AWAY_DST).
  { apply preserves_bind; [apply set_tapped_clock |]. intros _. frame. }
  frame.
Qed.

(** A location update stores its time, clears the waiting flag and leaves
    the job queue as it is, whatever happens to the route. *)
Lemma update_and_check_clock (location : coord) (now : Q) (w w' : world)
  (res : result unit) :
  _update_and_check location now w = (w', res) ->
  clock w' = (jobs w, Some false, Some (pyint now)).
Proof.
  unfold _update_and_check. unfold bind at 1.
  change (modify (store_location location now) w)
    with (store_location location now w, Ok tt).
  cbv beta iota. intros H.
  assert (Hp : preserves clock
            (do w <~ get ;;;
             if has_route (user w) then
               do current <~ required KeyError (curr_chkpt (user w)) ;;;
               do checkpts <~ required KeyError (checkpts (user w)) ;;;
               do locals <~ for_each (lookahead_slot location current checkpts)
                                     (range N) (None, false) ;;;
               if negb (snd locals) then check_walking_away location current
               else ret tt
             else ret tt)).
  { apply preserves_bind; [frame |]. intros w1.
    destruct (has_route (user w1)); [| frame].
    apply preserves_bind; [frame |]. intros current.
    apply preserves_bind; [frame |]. intros count.
    apply preserves_bind.
    - apply preserves_for_each. intros i a. apply lookahead_slot_clock.
    - intros locals. destruct (negb (snd locals)); [| frame].
      apply check_walking_away_clock. }
  rewrite (Hp _ _ _ H). reflexivity.
Qed.

End Frame.

(** ** The job queue after the route is completed *)

Section Timer.
Context {L : Lib}.
Import Bot.

Lemma jobs_silent_while_waiting (now : Q) (idx : list Z) (w : world) :
  waiting (user w) = Some true ->
  for_each (fun _ _ => _callback_no_response now) idx tt w = (w, Ok tt).
Proof.
  intros Hw. induction idx as [| i rest IH]; [reflexivity |].
  cbn [for_each]. rewrite (bind_ok _ _ w w tt); [exact IH |].
  apply callback_silent. left. congruence.
Qed.

(** C7 (the code departs from it).  The update that completes the route
    clears the route but leaves the job queue as it was: its thread runs
    on and the repeating job stays registered.  Once more than MAX_TIME
    have passed, the next period of the queue sends the inactivity warning
    to a session that has no route. *)
Theorem timer_outlives_completion (w w1 : world) (location : coord)
  (now now' : Q) (res : result unit) (r : list segment) (tapped : list bool) :
  route (user w) = Some r ->
  _update_and_check location now w = (w1, res) ->
  route (user w1) = None ->
  jq_running (jobs w) = true -> jq_jobs (jobs w) <> [] ->
  inline_tapped (user w1) = Some tapped -> (5 <= length tapped)%nat ->
  (inject_Z MAX_TIME < fl (now' - inject_Z (pyint now)))%Q ->
  jobs w1 = jobs w /\
  exists w2,
    timer_tick now' w1 = (w2, Ok tt) /\
    sent w2 = sent w1 ++ [InactivityWarning] /\
    route (user w2) = None.
Proof.
  intros _ Hrun Hnone Hon Hjobs Ht Htl Hdue.
  pose proof (update_and_check_clock _ _ _ _ _ Hrun) as Hclock.
  unfold clock in Hclock. injection Hclock as Hj Hw Hl.
  split; [exact Hj |].
  unfold timer_tick. rewrite (bind_ok get _ _ _ _ eq_refl).
  rewrite Hj, Hon.
  destruct (jq_jobs (jobs w)) as [| j rest]; [congruence |].
  cbn [map for_each].
  destruct (callback_emits w1 now' (pyint now) tapped Hw Hl Ht Htl Hdue)
    as (w2 & Hcb & Hsent & Hw2 & _ & _ & Hr2 & _).
  exists w2. rewrite (bind_ok _ _ _ _ _ Hcb).
  split; [apply jobs_silent_while_waiting; exact Hw2 |].
  split; [exact Hsent |]. rewrite Hr2. exact Hnone.
Qed.

(** The other way out of a route, [/cancel], does stop the queue, with or
    without a route to cancel. *)
Lemma cancel_stops_the_queue (w : world) :
  jq_running (jobs (fst (cancel w))) = false.
Proof.
  unfold cancel, try_except.
  rewrite (bind_ok _ _ w (set_jobs job_queue_stop w) tt eq_refl).
  assert (Hrest : preserves jobs
            (run del_route ;;; run del_checkpts ;;; run del_curr_chkpt ;;;
             send Cancelled))
    by (unfold del_route, del_checkpts, del_curr_chkpt, send; frame).
  destruct ((run del_route ;;; run del_checkpts ;;; run del_curr_chkpt ;;;
             send Cancelled) (set_jobs job_queue_stop w))
    as [w' [[] | e]] eqn:Hrun.
  - cbn [fst]. rewrite (Hrest _ _ _ Hrun). reflexivity.
  - cbn [fst send modify record_sent jobs]. rewrite (Hrest _ _ _ Hrun).
    reflexivity.
Qed.

End Timer.

(** ** Route adoption *)

Section Adoption.
Context {L : Lib}.
Import Bot.

(** The session, the map and the chat after [_compute_route] has built a
    route of two segments. *)
Lemma compute_route_too_near (w : world) (g g' : MultiDiGraph) (l : coord)
  (t : string) (destination : coord) (first second : segment) :
  bot_map w = Some g -> loc (user w) = Some l ->
  target (user w) = Some t -> t <> "" ->
  geocode t = Some destination ->
  Guide.get_directions (reversed l) destination g = (g', Ok [first; second]) ->
  _compute_route w =
    (record_sent
       (TooNear (pyround (fl (haversine (reversed l) (reversed (s_mid first))
                              + haversine (reversed (s_mid first)) destination))))
       (record_sent (RoutePhoto [first; second] (reversed l) destination)
          (set_user (set_curr_chkpt (Some 0))
             (set_user (set_checkpts (Some 2))
                (set_user (set_route (Some [first; second]))
                   (set_bot_map (Some g')
                      (record_sent (Computing t) w)))))),
     Ok tt).
Proof.
  intros Hg Hl Ht Hne Hgeo Hgd.
  unfold _compute_route, try_except, compute_route_body.
  rewrite (bind_ok get _ _ _ _ eq_refl).
  rewrite Hg, Hl. cbn [required].
  rewrite (bind_ok (ret g) _ w w g eq_refl).
  rewrite (bind_ok (ret l) _ w w l eq_refl).
  assert (Htarget : get_target (user w) w = (w, Ok t)).
  { unfold get_target. rewrite Ht.
    destruct (String.eqb_spec t ""); [contradiction | reflexivity]. }
  rewrite (bind_ok _ _ _ _ _ Htarget).
  rewrite Hgeo. cbn [required].
  rewrite (bind_ok (ret destination) _ w w _ eq_refl).
  rewrite (bind_ok _ _ w (record_sent (Computing t) w) tt eq_refl).
  erewrite bind_ok.
  2:{ unfold on_map. cbn [bot_map record_sent]. rewrite Hg, Hgd. reflexivity. }
  reflexivity.
Qed.

(** C1 (amended).  When the route built has exactly two segments,
    [_compute_route] sends the announcement and the photo of the route
    ("just sent the photo", line 279) and then, in place of the first
    guidance message, the too-near message, whose distance is the rounded
    sum of the two haversine legs, source to the first segment's midpoint
    and midpoint to destination; no guidance message is sent and the
    repeating job is not started. *)
Theorem two_segment_route_is_too_near (w : world) (g g' : MultiDiGraph)
  (l : coord) (t : string) (destination : coord) (rt : list segment) :
  bot_map w = Some g -> loc (user w) = Some l ->
  target (user w) = Some t -> t <> "" ->
  geocode t = Some destination ->
  Guide.get_directions (reversed l) destination g = (g', Ok rt) ->
  length rt = 2%nat ->
  exists w' first,
    py_index rt 0 = Some first /\
    _compute_route w = (w', Ok tt) /\
    sent w' = sent w ++
      [Computing t; RoutePhoto rt (reversed l) destination;
       TooNear (pyround (fl (haversine (reversed l) (reversed (s_mid first))
                             + haversine (reversed (s_mid first)) destination)))] /\
    jobs w' = jobs w.
Proof.
  intros Hg Hl Ht Hne Hgeo Hgd Hlen.
  destruct rt as [| first [| second [| third rest]]]; try discriminate.
  eexists. exists first. split; [reflexivity |].
  split; [eapply compute_route_too_near; eassumption |].
  split; [| reflexivity].
  cbn. rewrite <- !app_assoc. reflexivity.
Qed.

(** C4 (the code departs from it).  When route computation ends in the
    too-near message, the session has adopted the route all the same:
    lines 266 to 269 store it before the two-checkpoint test of line 280,
    and nothing takes it back.  Route is the route built, checkpts is 2
    and curr_chkpt is 0, whatever they were before; the rest of the
    session and the job queue are as before. *)
Theorem too_near_route_is_adopted (w : world) (g g' : MultiDiGraph)
  (l : coord) (t : string) (destination : coord) (rt : list segment) :
  bot_map w = Some g -> loc (user w) = Some l ->
  target (user w) = Some t -> t <> "" ->
  geocode t = Some destination ->
  Guide.get_directions (reversed l) destination g = (g', Ok rt) ->
  length rt = 2%nat ->
  exists w' d,
    _compute_route w = (w', Ok tt) /\
    sent w' = sent w ++
      [Computing t; RoutePhoto rt (reversed l) destination; TooNear d] /\
    user w' = set_curr_chkpt (Some 0)
                (set_checkpts (Some 2) (set_route (Some rt) (user w))) /\
    jobs w' = jobs w.
Proof.
  intros Hg Hl Ht Hne Hgeo Hgd Hlen.
  destruct rt as [| first [| second [| third rest]]]; try discriminate.
  eexists. eexists.
  split; [eapply compute_route_too_near; eassumption |].
  split; [| split; reflexivity].
  cbn. rewrite <- !app_assoc. reflexivity.
Qed.

End Adoption.

(** ** The out-of-bounds guard *)

Section Bounds.
Context {L : Lib}.
Import Guide.

Lemma make_segment_no_assert (src mid dst : node_id) :
  raises_only not_assertion (make_segment src mid dst).
Proof. unfold make_segment, first_name. no_assert. Qed.

Lemma route_sections_no_assert (mid dst : node_id) (rest : list node_id) :
  raises_only not_assertion (route_sections mid dst rest).
Proof.
  revert mid dst. induction rest as [| node rest IH]; intros mid dst;
    cbn [route_sections].
  - apply raises_only_ret.
  - apply raises_only_bind; [apply make_segment_no_assert |]. intros s.
    apply raises_only_bind; [apply IH |]. intros r. apply raises_only_ret.
Qed.

Lemma build_route_no_assert (source destination : coord)
  (trimmed : list node_id) :
  raises_only not_assertion (build_route source destination trimmed).
Proof.
  unfold build_route.
  apply raises_only_bind; [unfold insert_anchors; no_assert |]. intros _.
  apply raises_only_bind; [no_assert |]. intros mid.
  apply raises_only_bind; [no_assert |]. intros dst.
  apply raises_only_bind; [apply route_sections_no_assert |]. intros route.
  apply raises_only_bind; [unfold discard_anchors; no_assert |]. intros _.
  apply raises_only_ret.
Qed.

Lemma route_from_snapped_no_assert (source destination : coord)
  (source_node destiny_node : node_id) (src_distance dst_distance : Q) :
  raises_only not_assertion
    (route_from_snapped source destination source_node destiny_node
                        src_distance dst_distance).
Proof.
  unfold route_from_snapped.
  apply raises_only_bind; [no_assert |]. intros graph.
  apply raises_only_bind; [no_assert |]. intros path.
  apply build_route_no_assert.
Qed.

(** C9 (amended).  The source is reported out of bounds exactly when its
    snap distance is 2000 m or more; the destination exactly when the
    source's is below 2000 m and its own is 2000 m or more; with both below
    2000 m the computation goes on to the path search and no out-of-bounds
    failure follows. *)
Theorem out_of_bounds_from_2000 (g : MultiDiGraph) (source destination : coord) :
  let src := get_nearest_node g source in
  let dst := get_nearest_node g destination in
  ((inject_Z FARTHEST_NODE <= snd src)%Q ->
     get_directions source destination g
       = (g, Raise (AssertionError "source is out of bounds"))) /\
  ((snd src < inject_Z FARTHEST_NODE)%Q ->
   (inject_Z FARTHEST_NODE <= snd dst)%Q ->
     get_directions source destination g
       = (g, Raise (AssertionError "destination is out of bounds"))) /\
  ((snd src < inject_Z FARTHEST_NODE)%Q ->
   (snd dst < inject_Z FARTHEST_NODE)%Q ->
     get_directions source destination g
       = route_from_snapped source destination (fst src) (fst dst)
                            (snd src) (snd dst) g /\
     forall g' msg,
       get_directions source destination g <> (g', Raise (AssertionError msg))).
Proof.
  intros src dst.
  assert (Hfar : forall d : Q, (inject_Z FARTHEST_NODE <= d)%Q ->
                   Qlt_bool d (inject_Z FARTHEST_NODE) = false)
    by (intros d; apply Qlt_bool_false_iff).
  assert (Hnear : forall d : Q, (d < inject_Z FARTHEST_NODE)%Q ->
                    Qlt_bool d (inject_Z FARTHEST_NODE) = true)
    by (intros d; apply Qlt_bool_iff).
  unfold get_directions. rewrite (bind_ok get _ _ _ _ eq_refl).
  fold src. fold dst.
  split; [| split].
  - intros H. rewrite (Hfar _ H). reflexivity.
  - intros H1 H2. rewrite (Hnear _ H1), (Hfar _ H2). reflexivity.
  - intros H1 H2. rewrite (Hnear _ H1), (Hnear _ H2).
    split; [reflexivity |].
    intros g' msg Heq.
    exact (route_from_snapped_no_assert _ _ _ _ _ _ _ _ _ Heq).
Qed.

End Bounds.

(** ** The working nodes on the shared graph *)

Section Overlay.
Import Guide.

Lemma ensure_node_present (n : node_id) (g : MultiDiGraph) :
  is_Some (g_node g !! n) -> ensure_node n g = g.
Proof. intros [a Ha]. unfold ensure_node. rewrite Ha. reflexivity. Qed.

Lemma add_node_lookup (n m : node_id) (a : node_attrs) (g : MultiDiGraph) :
  is_Some (g_node (add_node n a g) !! n) /\
  (m <> n -> g_node (add_node n a g) !! m = g_node g !! m) /\
  g_adj (add_node n a g) = g_adj g.
Proof.
  unfold add_node. cbn. split; [| split].
  - rewrite lookup_insert_eq. eauto.
  - intros Hne. apply lookup_insert_ne. congruence.
  - reflexivity.
Qed.

Lemma add_edge_lookup (u v : node_id) (a : edge_attrs) (g : MultiDiGraph) :
  is_Some (g_node g !! u) -> is_Some (g_node g !! v) ->
  g_node (add_edge u v a g) = g_node g /\
  is_Some (g_adj (add_edge u v a g) !! (u, v)) /\
  (forall k, k <> (u, v) -> g_adj (add_edge u v a g) !! k = g_adj g !! k).
Proof.
  intros Hu Hv. unfold add_edge.
  rewrite (ensure_node_present u g Hu), (ensure_node_present v g Hv). cbn.
  split; [reflexivity |]. split.
  - rewrite lookup_insert_eq. eauto.
  - intros k Hk. apply lookup_insert_ne. congruence.
Qed.

Lemma remove_node_lookup (n m : node_id) (g : MultiDiGraph) :
  g_node (remove_node n g) !! m
    = if decide (m = n) then None else g_node g !! m.
Proof.
  unfold remove_node. destruct (g_node g !! n) as [a |] eqn:Hn; cbn.
  - destruct (decide (m = n)) as [-> | Hne].
    + apply lookup_delete_eq.
    + apply lookup_delete_ne. congruence.
  - destruct (decide (m = n)) as [-> | Hne]; [exact Hn | reflexivity].
Qed.

Lemma remove_node_adj (n u v : node_id) (g : MultiDiGraph) :
  is_Some (g_node g !! n) ->
  g_adj (remove_node n g) !! (u, v)
    = if decide (u = n \/ v = n) then None else g_adj g !! (u, v).
Proof.
  intros [a Ha]. unfold remove_node. rewrite Ha. cbn.
  destruct (decide (u = n \/ v = n)) as [Hin | Hout].
  - apply map_lookup_filter_None. right. intros kd _ [H1 H2]. cbn in H1, H2.
    destruct Hin; contradiction.
  - apply option_eq. intros kd. rewrite map_lookup_filter_Some. cbn.
    split; [tauto |]. intros H. split; [exact H |]. split; intros ->; tauto.
Qed.

Lemma remove_edge_absent (u v : node_id) (g : MultiDiGraph) :
  g_adj g !! (u, v) = None -> remove_edge u v g = g.
Proof. intros H. unfold remove_edge. rewrite H. reflexivity. Qed.

Lemma graph_eq (g h : MultiDiGraph) :
  (forall n, g_node h !! n = g_node g !! n) ->
  (forall u v, g_adj h !! (u, v) = g_adj g !! (u, v)) ->
  h = g.
Proof.
  intros Hn Ha. destruct g as [gn ga], h as [hn ha]. cbn in *.
  f_equal; apply map_eq; [exact Hn | intros [u v]; apply Ha].
Qed.

Lemma agrees_add_node (g h : MultiDiGraph) (n : node_id) (a : node_attrs) :
  n ∈ anchors -> agrees_off_anchors g h ->
  agrees_off_anchors g (add_node n a h) /\
  is_Some (g_node (add_node n a h) !! n) /\
  (forall m, is_Some (g_node h !! m) ->
             is_Some (g_node (add_node n a h) !! m)).
Proof.
  intros Hn [Hnode Hadj].
  destruct (add_node_lookup n n a h) as (Hself & _ & Hsame).
  split; [split |]; [| | split; [exact Hself |]].
  - intros m Hm. destruct (add_node_lookup n m a h) as (_ & Hoth & _).
    rewrite Hoth; [apply Hnode; exact Hm | intros ->; contradiction].
  - intros u v Hu Hv. rewrite Hsame. apply Hadj; assumption.
  - intros m Hm. destruct (decide (m = n)) as [-> | Hne]; [exact Hself |].
    destruct (add_node_lookup n m a h) as (_ & Hoth & _).
    rewrite Hoth; assumption.
Qed.

Lemma agrees_add_edge (g h : MultiDiGraph) (u v : node_id) (a : edge_attrs) :
  u ∈ anchors \/ v ∈ anchors ->
  is_Some (g_node h !! u) -> is_Some (g_node h !! v) ->
  agrees_off_anchors g h ->
  agrees_off_anchors g (add_edge u v a h) /\
  g_node (add_edge u v a h) = g_node h /\
  is_Some (g_adj (add_edge u v a h) !! (u, v)).
Proof.
  intros Hin Hu Hv [Hnode Hadj].
  destruct (add_edge_lookup u v a h Hu Hv) as (Hn & Hself & Hoth).
  split; [split |]; [| | split; assumption].
  - intros m Hm. rewrite Hn. apply Hnode. exact Hm.
  - intros x y Hx Hy. rewrite Hoth; [apply Hadj; assumption |].
    intros [= -> ->]. destruct Hin; contradiction.
Qed.

Lemma anchor_edge_absent (g : MultiDiGraph) (u v : node_id) :
  anchors_fresh g -> edges_closed g -> u ∈ anchors \/ v ∈ anchors ->
  g_adj g !! (u, v) = None.
Proof.
  intros Hfresh Hclosed Hin.
  destruct (g_adj g !! (u, v)) as [kd |] eqn:Hk; [| reflexivity].
  destruct (Hclosed u v) as [[a Ha] [b Hb]]; [rewrite Hk; eauto |].
  destruct Hin as [Hu | Hv].
  - rewrite (Hfresh u Hu) in Ha. discriminate.
  - rewrite (Hfresh v Hv) in Hb. discriminate.
Qed.

(** Removing the three working nodes from a graph that holds them and is
    [g] elsewhere gives [g] back. *)
Lemma remove_anchors_restores (g h : MultiDiGraph) :
  anchors_fresh g -> edges_closed g -> agrees_off_anchors g h ->
  (forall n, n ∈ anchors -> is_Some (g_node h !! n)) ->
  remove_nodes_from anchors h = g.
Proof.
  intros Hfresh Hclosed [Hnode Hadj] Hpres.
  set (s := Named "src_node"). set (d := Named "dst_node").
  set (e := Named "end").
  assert (Hs : s ∈ anchors) by (apply elem_of_cons; left; reflexivity).
  assert (Hd : d ∈ anchors)
    by (apply elem_of_cons; right; apply elem_of_cons; left; reflexivity).
  assert (He : e ∈ anchors)
    by (do 2 (apply elem_of_cons; right); apply elem_of_cons; left; reflexivity).
  assert (Hcase : forall n, n ∈ anchors <-> n = s \/ n = d \/ n = e).
  { intros n. unfold anchors. rewrite !elem_of_cons, elem_of_nil. tauto. }
  change (remove_nodes_from anchors h)
    with (remove_node e (remove_node d (remove_node s h))).
  assert (P1 : is_Some (g_node h !! s)) by (apply Hpres; exact Hs).
  assert (P2 : is_Some (g_node (remove_node s h) !! d)).
  { rewrite remove_node_lookup.
    destruct (decide (d = s)); [discriminate | apply Hpres; exact Hd]. }
  assert (P3 : is_Some (g_node (remove_node d (remove_node s h)) !! e)).
  { rewrite !remove_node_lookup.
    destruct (decide (e = d)); [discriminate |].
    destruct (decide (e = s)); [discriminate | apply Hpres; exact He]. }
  apply graph_eq.
  - intros n. rewrite !remove_node_lookup.
    destruct (decide (n = e)) as [-> | Ne]; [symmetry; apply Hfresh; exact He |].
    destruct (decide (n = d)) as [-> | Nd]; [symmetry; apply Hfresh; exact Hd |].
    destruct (decide (n = s)) as [-> | Ns]; [symmetry; apply Hfresh; exact Hs |].
    apply Hnode. rewrite Hcase. tauto.
  - intros u v.
    rewrite (remove_node_adj e u v _ P3), (remove_node_adj d u v _ P2),
            (remove_node_adj s u v _ P1).
    destruct (decide (u = e \/ v = e)) as [Ie | Oe].
    { symmetry. apply anchor_edge_absent; try assumption.
      rewrite !Hcase. tauto. }
    destruct (decide (u = d \/ v = d)) as [Id | Od].
    { symmetry. apply anchor_edge_absent; try assumption.
      rewrite !Hcase. tauto. }
    destruct (decide (u = s \/ v = s)) as [Is | Os].
    { symmetry. apply anchor_edge_absent; try assumption.
      rewrite !Hcase. tauto. }
    apply Hadj; rewrite Hcase; tauto.
Qed.

End Overlay.

Lemma py_index_neg {A} (l : list A) (k : Z) :
  1 <= k <= Z.of_nat (length l) ->
  py_index l (- k) = l !! Z.to_nat (Z.of_nat (length l) - k).
Proof.
  intros Hk. unfold py_index.
  replace (0 <=? - k) with false by (symmetry; apply Z.leb_gt; lia).
  cbn [andb].
  replace (- Z.of_nat (length l) <=? - k) with true
    by (symmetry; apply Z.leb_le; lia).
  replace (- k <? 0) with true by (symmetry; apply Z.ltb_lt; lia).
  cbn [andb]. f_equal.
Qed.

Lemma py_index_from_end {A} (body : list A) (c d e : A) :
  py_index (body ++ [c; d; e]) (-3) = Some c /\
  py_index (body ++ [c; d; e]) (-2) = Some d /\
  py_index (body ++ [c; d; e]) (-1) = Some e.
Proof.
  assert (Hlen : length (body ++ [c; d; e]) = (length body + 3)%nat)
    by (rewrite length_app; reflexivity).
  assert (Hat : forall k : nat, (k < 3)%nat ->
            py_index (body ++ [c; d; e]) (- (3 - Z.of_nat k)) = [c; d; e] !! k).
  { intros k Hk. rewrite py_index_neg by (rewrite Hlen; lia).
    rewrite lookup_app_r by (rewrite Hlen; lia).
    f_equal. rewrite Hlen. lia. }
  split; [apply (Hat 0%nat); lia |].
  split; [apply (Hat 1%nat); lia | apply (Hat 2%nat); lia].
Qed.

Lemma Forall_removelast {A} (P : A -> Prop) (l : list A) :
  Forall P l -> Forall P (removelast l).
Proof.
  induction 1 as [| x l Hx Hl IH]; [constructor |].
  cbn. destruct l; [constructor |]. constructor; assumption.
Qed.

Section SharedGraph.
Context {L : Lib}.
Import Guide.

(** Where the spliced path is read: its first two and its last three
    places. *)
Lemma splice_indices (trimmed : list node_id) :
  exists a1 c3,
    py_index (splice_path trimmed) 0 = Some (Named "src_node") /\
    py_index (splice_path trimmed) 1 = Some a1 /\
    py_index (splice_path trimmed) (-3) = Some c3 /\
    py_index (splice_path trimmed) (-2) = Some (Named "dst_node") /\
    py_index (splice_path trimmed) (-1) = Some (Named "end") /\
    (a1 ∈ trimmed \/ a1 = Named "dst_node") /\
    (c3 ∈ trimmed \/ c3 = Named "src_node").
Proof.
  destruct (exists_last (l := Named "src_node" :: trimmed))
    as (body & c3 & Hsplit); [discriminate |].
  assert (Hpath : splice_path trimmed
                  = body ++ [c3; Named "dst_node"; Named "end"]).
  { unfold splice_path.
    change (Named "src_node" :: trimmed ++ [Named "dst_node"; Named "end"])
      with ((Named "src_node" :: trimmed) ++ [Named "dst_node"; Named "end"]).
    rewrite Hsplit, <- app_assoc. reflexivity. }
  destruct (py_index_from_end body c3 (Named "dst_node") (Named "end"))
    as (E3 & E2 & E1).
  assert (Hc3 : c3 ∈ trimmed \/ c3 = Named "src_node").
  { assert (Hin : c3 ∈ Named "src_node" :: trimmed).
    { rewrite Hsplit. apply elem_of_app. right. apply list_elem_of_singleton.
      reflexivity. }
    apply elem_of_cons in Hin. tauto. }
  assert (Hlen : Z.of_nat (length (splice_path trimmed)) >= 3)
    by (unfold splice_path; cbn [length]; rewrite length_app; cbn; lia).
  assert (E0 : py_index (splice_path trimmed) 0 = Some (Named "src_node"))
    by (rewrite py_index_nonneg by lia; reflexivity).
  assert (Ea : py_index (splice_path trimmed) 1
               = (trimmed ++ [Named "dst_node"; Named "end"]) !! 0%nat)
    by (rewrite py_index_nonneg by lia; reflexivity).
  rewrite <- Hpath in E3, E2, E1.
  destruct trimmed as [| x rest].
  - exists (Named "dst_node"), c3.
    repeat (split; [assumption |]).
    split; [right; reflexivity | exact Hc3].
  - exists x, c3.
    repeat (split; [assumption |]).
    split; [left; apply elem_of_cons; left; reflexivity | exact Hc3].
Qed.

Lemma trim_path_Forall (P : node_id -> Prop) (graph : MultiDiGraph)
  (source_node destiny_node : node_id) (src_distance dst_distance : Q)
  (source destination : coord) (path : list node_id) :
  Forall P path ->
  Forall P (trim_path graph source_node destiny_node src_distance dst_distance
                      source destination path).
Proof.
  intros HP. unfold trim_path.
  destruct (1 <? Z.of_nat (length path)); [| exact HP].
  assert (H1 : Forall P
            match nearest_is_first graph source_node src_distance source path
            with Some true => tail path | _ => path end).
  { destruct (nearest_is_first _ _ _ _ _) as [[|] |]; try exact HP.
    destruct HP; [constructor | assumption]. }
  destruct (nearest_is_last _ _ _ _ _) as [[|] |]; try exact H1.
  apply Forall_removelast. exact H1.
Qed.

Lemma route_sections_reads_only (mid dst : node_id) (rest : list node_id) :
  preserves (fun g : MultiDiGraph => g) (route_sections mid dst rest).
Proof.
  revert mid dst. induction rest as [| node rest IH]; intros mid dst;
    cbn [route_sections].
  - apply preserves_ret.
  - apply preserves_bind; [unfold make_segment, first_name; frame |].
    intros s. apply preserves_bind; [apply IH |]. intros r. apply preserves_ret.
Qed.

(** The graph as [insert_anchors] leaves it when it returns. *)
Lemma insert_anchors_ok (source destination : coord) (trimmed : list node_id)
  (a1 c3 : node_id) (g g_mid : MultiDiGraph) :
  py_index (splice_path trimmed) 0 = Some (Named "src_node") ->
  py_index (splice_path trimmed) 1 = Some a1 ->
  py_index (splice_path trimmed) (-3) = Some c3 ->
  py_index (splice_path trimmed) (-2) = Some (Named "dst_node") ->
  py_index (splice_path trimmed) (-1) = Some (Named "end") ->
  insert_anchors source destination (splice_path trimmed) g = (g_mid, Ok tt) ->
  exists last_edge,
    g_mid =
      add_edge c3 (Named "dst_node") last_edge
        (add_edge (Named "dst_node") (Named "end") bare_edge
           (add_edge (Named "src_node") a1 bare_edge
              (add_node (Named "end") no_attrs
                 (add_node (Named "dst_node")
                    {| n_y := Some (fst destination);
                       n_x := Some (snd destination) |}
                    (add_node (Named "src_node")
                       {| n_y := Some (fst source);
                          n_x := Some (snd source) |} g))))).
Proof.
  intros E0 Ea E3 E2 E1.
  unfold insert_anchors, bind, modify, get, required, ret, raise.
  cbv beta iota. rewrite E3. cbv beta iota.
  destruct (node_xy _ c3) as [origin |]; cbv beta iota; [| discriminate].
  rewrite E0, Ea, E2, E1. cbv beta iota.
  intros [= <-]. eexists. reflexivity.
Qed.

Lemma spliced_graph_facts (g h : MultiDiGraph) (a1 c3 : node_id)
  (sa da : node_attrs) (last_edge : edge_attrs) :
  anchors_fresh g ->
  (is_Some (g_node g !! a1) \/ a1 = Named "dst_node") ->
  (is_Some (g_node g !! c3) \/ c3 = Named "src_node") ->
  h = add_edge c3 (Named "dst_node") last_edge
        (add_edge (Named "dst_node") (Named "end") bare_edge
           (add_edge (Named "src_node") a1 bare_edge
              (add_node (Named "end") no_attrs
                 (add_node (Named "dst_node") da
                    (add_node (Named "src_node") sa g))))) ->
  agrees_off_anchors g h /\
  (forall n, n ∈ anchors -> is_Some (g_node h !! n)) /\
  is_Some (g_adj h !! (Named "dst_node", Named "end")).
Proof.
  intros Hfresh Ha1 Hc3 ->.
  set (s := Named "src_node"). set (d := Named "dst_node").
  set (e := Named "end").
  assert (Hs : s ∈ anchors) by (apply elem_of_cons; left; reflexivity).
  assert (Hd : d ∈ anchors)
    by (apply elem_of_cons; right; apply elem_of_cons; left; reflexivity).
  assert (He : e ∈ anchors)
    by (do 2 (apply elem_of_cons; right); apply elem_of_cons; left; reflexivity).
  assert (Hcase : forall n, n ∈ anchors -> n = s \/ n = d \/ n = e).
  { intros n. unfold anchors. rewrite !elem_of_cons, elem_of_nil. tauto. }
  assert (A0 : agrees_off_anchors g g) by (split; intros; reflexivity).
  destruct (agrees_add_node g g s sa Hs A0) as (A1 & S1 & K1).
  destruct (agrees_add_node g _ d da Hd A1) as (A2 & D2 & K2).
  destruct (agrees_add_node g _ e no_attrs He A2) as (A3 & E3 & K3).
  set (g3 := add_node e no_attrs (add_node d da (add_node s sa g))) in *.
  assert (S3 : is_Some (g_node g3 !! s)) by (apply K3, K2, S1).
  assert (D3 : is_Some (g_node g3 !! d)) by (apply K3, D2).
  assert (Hin : forall n, is_Some (g_node g !! n) -> is_Some (g_node g3 !! n))
    by (intros n Hn; apply K3, K2, K1, Hn).
  assert (Pa1 : is_Some (g_node g3 !! a1))
    by (destruct Ha1 as [H | ->]; [apply Hin, H | exact D3]).
  assert (Pc3 : is_Some (g_node g3 !! c3))
    by (destruct Hc3 as [H | ->]; [apply Hin, H | exact S3]).
  destruct (agrees_add_edge g g3 s a1 bare_edge (or_introl Hs) S3 Pa1 A3)
    as (A4 & N4 & _).
  set (g4 := add_edge s a1 bare_edge g3) in *.
  assert (D4 : is_Some (g_node g4 !! d)) by (rewrite N4; exact D3).
  assert (E4 : is_Some (g_node g4 !! e)) by (rewrite N4; exact E3).
  destruct (agrees_add_edge g g4 d e bare_edge (or_introl Hd) D4 E4 A4)
    as (A5 & N5 & X5).
  set (g5 := add_edge d e bare_edge g4) in *.
  assert (D5 : is_Some (g_node g5 !! d)) by (rewrite N5; exact D4).
  assert (C5 : is_Some (g_node g5 !! c3)) by (rewrite N5, N4; exact Pc3).
  destruct (agrees_add_edge g g5 c3 d last_edge (or_intror Hd) C5 D5 A5)
    as (A6 & N6 & _).
  split; [exact A6 |]. split.
  - intros n Hn. rewrite N6, N5, N4.
    destruct (Hcase n Hn) as [-> | [-> | ->]]; assumption.
  - destruct (add_edge_lookup c3 d last_edge g5 C5 D5) as (_ & _ & Hoth).
    rewrite Hoth; [exact X5 |]. intros H. injection H as _ H2. discriminate H2.
Qed.

(** What [discard_anchors] does to the graph as [insert_anchors] left it. *)
Lemma discard_anchors_restores (g h : MultiDiGraph) (trimmed : list node_id)
  (a1 c3 : node_id) :
  anchors_fresh g -> edges_closed g -> agrees_off_anchors g h ->
  (forall n, n ∈ anchors -> is_Some (g_node h !! n)) ->
  py_index (splice_path trimmed) 0 = Some (Named "src_node") ->
  py_index (splice_path trimmed) 1 = Some a1 ->
  py_index (splice_path trimmed) (-3) = Some c3 ->
  py_index (splice_path trimmed) (-2) = Some (Named "dst_node") ->
  py_index (splice_path trimmed) (-1) = Some (Named "end") ->
  discard_anchors (splice_path trimmed) h = (g, Ok tt).
Proof.
  intros Hfresh Hclosed Hagree Hpres E0 Ea E3 E2 E1.
  unfold discard_anchors, bind, modify, required, ret.
  cbv beta iota. rewrite E0, Ea, E3, E2, E1. cbv beta iota.
  rewrite (remove_anchors_restores g h Hfresh Hclosed Hagree Hpres).
  assert (Hs : Named "src_node" ∈ anchors)
    by (apply elem_of_cons; left; reflexivity).
  assert (Hd : Named "dst_node" ∈ anchors)
    by (apply elem_of_cons; right; apply elem_of_cons; left; reflexivity).
  unfold remove_edges_from. cbn [fold_left fst snd].
  rewrite (remove_edge_absent (Named "src_node") a1 g)
    by (apply anchor_edge_absent; auto).
  rewrite (remove_edge_absent c3 (Named "dst_node") g)
    by (apply anchor_edge_absent; auto).
  rewrite (remove_edge_absent (Named "dst_node") (Named "end") g)
    by (apply anchor_edge_absent; auto).
  reflexivity.
Qed.

(** C8 (amended).  [get_directions] does change the shared street network
    while it runs: the segments are built on the graph that was passed in
    after the nodes 'src_node', 'dst_node' and 'end' and their edges have
    been added to it.  When it returns a route, the graph is the input
    graph again.  The input graph has no node of those three names, its
    edges join its own nodes, and the path search returns nodes of it. *)
Theorem working_nodes_pass_through_shared_graph (g g' : MultiDiGraph)
  (source destination : coord) (rt : list segment) :
  anchors_fresh g -> edges_closed g ->
  (forall p,
     shortest_path g (fst (get_nearest_node g source))
                     (fst (get_nearest_node g destination)) = Some p ->
     Forall (fun n => is_Some (g_node g !! n)) p) ->
  get_directions source destination g = (g', Ok rt) ->
  g' = g /\
  exists trimmed g_mid a1,
    insert_anchors source destination (splice_path trimmed) g
      = (g_mid, Ok tt) /\
    route_sections (Named "src_node") a1 (drop 2 (splice_path trimmed)) g_mid
      = (g_mid, Ok rt) /\
    (forall n, n ∈ anchors -> is_Some (g_node g_mid !! n)) /\
    is_Some (g_adj g_mid !! (Named "dst_node", Named "end")) /\
    g_mid <> g.
Proof.
  intros Hfresh Hclosed Hpath.
  unfold get_directions. rewrite (bind_ok get _ _ _ _ eq_refl).
  unfold assert_.
  destruct (Qlt_bool (snd (get_nearest_node g source)) _);
    [| unfold bind, raise; discriminate].
  rewrite (bind_ok (ret tt) _ g g tt eq_refl).
  destruct (Qlt_bool (snd (get_nearest_node g destination)) _);
    [| unfold bind, raise; discriminate].
  rewrite (bind_ok (ret tt) _ g g tt eq_refl).
  unfold route_from_snapped. rewrite (bind_ok get _ _ _ _ eq_refl).
  destruct (shortest_path g _ _) as [p |] eqn:Hp;
    [| unfold bind, required, raise; discriminate].
  cbn [required]. rewrite (bind_ok (ret p) _ g g p eq_refl).
  set (trimmed := trim_path g _ _ _ _ source destination p).
  assert (Htrim : Forall (fun n => is_Some (g_node g !! n)) trimmed)
    by (apply trim_path_Forall, Hpath; reflexivity).
  destruct (splice_indices trimmed) as (a1 & c3 & E0 & Ea & E3 & E2 & E1 & Ha1 & Hc3).
  assert (Pa1 : is_Some (g_node g !! a1) \/ a1 = Named "dst_node").
  { destruct Ha1 as [Hin | ->]; [left | right; reflexivity].
    rewrite Forall_forall in Htrim. apply Htrim. exact Hin. }
  assert (Pc3 : is_Some (g_node g !! c3) \/ c3 = Named "src_node").
  { destruct Hc3 as [Hin | ->]; [left | right; reflexivity].
    rewrite Forall_forall in Htrim. apply Htrim. exact Hin. }
  unfold build_route. unfold bind at 1.
  destruct (insert_anchors source destination (splice_path trimmed) g)
    as [g_mid [[] | e]] eqn:Hins; [| discriminate].
  destruct (insert_anchors_ok _ _ _ _ _ _ _ E0 Ea E3 E2 E1 Hins)
    as [last_edge Hmid].
  destruct (spliced_graph_facts g g_mid a1 c3 _ _ last_edge Hfresh Pa1 Pc3 Hmid)
    as (Hagree & Hpres & Hedge).
  rewrite E0, Ea. cbn [required].
  rewrite (bind_ok (ret _) _ g_mid g_mid _ eq_refl).
  rewrite (bind_ok (ret _) _ g_mid g_mid _ eq_refl).
  unfold bind at 1.
  destruct (route_sections (Named "src_node") a1 (drop 2 (splice_path trimmed))
                           g_mid) as [g_mid' [route | e]] eqn:Hrs;
    [| discriminate].
  pose proof (route_sections_reads_only _ _ _ _ _ _ Hrs) as Hsame.
  cbn beta in Hsame. subst g_mid'.
  rewrite (bind_ok _ _ _ _ _
             (discard_anchors_restores g g_mid trimmed a1 c3 Hfresh Hclosed
                Hagree Hpres E0 Ea E3 E2 E1)).
  unfold ret. intros [= <- <-].
  split; [reflexivity |].
  exists trimmed, g_mid, a1.
  split; [exact Hins |]. split; [exact Hrs |].
  split; [exact Hpres |]. split; [exact Hedge |].
  intros Heq.
  assert (Hs : Named "src_node" ∈ anchors)
    by (apply elem_of_cons; left; reflexivity).
  destruct (Hpres _ Hs) as [a Hsome].
  rewrite Heq, (Hfresh _ Hs) in Hsome. discriminate.
Qed.

End SharedGraph.

(** * Further properties *)

(** ** The shape of a route *)

Lemma py_index_neg2_length {A} (l : list A) (x : A) :
  py_index l (-2) = Some x -> (2 <= length l)%nat.
Proof.
  unfold py_index. cbn [Z.leb Z.compare andb].
  destruct (- Z.of_nat (length l) <=? -2) eqn:H; cbn [andb]; [| discriminate].
  intros _. apply Z.leb_le in H. lia.
Qed.

Lemma py_index_first_two {A} (l : list A) (a b : A) :
  py_index l 0 = Some a -> py_index l 1 = Some b -> l = a :: b :: drop 2 l.
Proof.
  intros H0 H1.
  assert (Hlen : 1 < Z.of_nat (length l))
    by (eapply py_index_some_range; [lia | exact H1]).
  rewrite py_index_nonneg in H0 by lia. rewrite py_index_nonneg in H1 by lia.
  destruct l as [| x [| y rest]]; try discriminate.
  cbn in H0, H1. injection H0 as ->. injection H1 as ->. reflexivity.
Qed.

Section RouteShape.
Context {L : Lib}.
Import Guide.

Lemma get_directions_ok_inv (source destination : coord)
  (g g' : MultiDiGraph) (rt : list segment) :
  get_directions source destination g = (g', Ok rt) ->
  exists p,
    shortest_path g (fst (get_nearest_node g source))
                    (fst (get_nearest_node g destination)) = Some p /\
    build_route source destination
      (trim_path g (fst (get_nearest_node g source))
                 (fst (get_nearest_node g destination))
                 (snd (get_nearest_node g source))
                 (snd (get_nearest_node g destination))
                 source destination p) g = (g', Ok rt).
Proof.
  unfold get_directions. rewrite (bind_ok get _ _ _ _ eq_refl).
  unfold assert_.
  destruct (Qlt_bool (snd (get_nearest_node g source)) _);
    [| unfold bind, raise; discriminate].
  rewrite (bind_ok (ret tt) _ g g tt eq_refl).
  destruct (Qlt_bool (snd (get_nearest_node g destination)) _);
    [| unfold bind, raise; discriminate].
  rewrite (bind_ok (ret tt) _ g g tt eq_refl).
  unfold route_from_snapped. rewrite (bind_ok get _ _ _ _ eq_refl).
  destruct (shortest_path g _ _) as [p |];
    [| unfold bind, required, raise; discriminate].
  cbn [required]. rewrite (bind_ok (ret p) _ g g p eq_refl).
  intros H. exists p. split; [reflexivity | exact H].
Qed.

Lemma build_route_ok_inv (source destination : coord)
  (trimmed : list node_id) (g g' : MultiDiGraph) (rt : list segment) :
  build_route source destination trimmed g = (g', Ok rt) ->
  exists g_mid a1,
    insert_anchors source destination (splice_path trimmed) g
      = (g_mid, Ok tt) /\
    splice_path trimmed
      = Named "src_node" :: a1 :: drop 2 (splice_path trimmed) /\
    route_sections (Named "src_node") a1 (drop 2 (splice_path trimmed)) g_mid
      = (g_mid, Ok rt) /\
    discard_anchors (splice_path trimmed) g_mid = (g', Ok tt).
Proof.
  destruct (splice_indices trimmed) as (a1 & c3 & E0 & Ea & _).
  unfold build_route. unfold bind at 1.
  destruct (insert_anchors source destination (splice_path trimmed) g)
    as [g_mid [[] | e]] eqn:Hins; [| discriminate].
  rewrite E0, Ea. cbn [required].
  rewrite (bind_ok (ret _) _ g_mid g_mid _ eq_refl).
  rewrite (bind_ok (ret _) _ g_mid g_mid _ eq_refl).
  unfold bind at 1.
  destruct (route_sections (Named "src_node") a1 (drop 2 (splice_path trimmed))
                           g_mid) as [g_mid' [route | e]] eqn:Hrs;
    [| discriminate].
  pose proof (route_sections_reads_only _ _ _ _ _ _ Hrs) as Hsame.
  cbn beta in Hsame. subst g_mid'.
  unfold bind at 1.
  destruct (discard_anchors (splice_path trimmed) g_mid)
    as [g'' [[] | e]] eqn:Hdis; [| discriminate].
  unfold ret. intros [= <- <-].
  exists g_mid, a1. split; [reflexivity |].
  split; [apply py_index_first_two; assumption |].
  split; [exact Hrs | exact Hdis].
Qed.

Lemma make_segment_reads_only (a b c : node_id) :
  preserves (fun g : MultiDiGraph => g) (make_segment a b c).
Proof. unfold make_segment, first_name. frame. Qed.

(** Segment [i] of the route is the dict built from places [i], [i + 1]
    and [i + 2] of the path. *)
Lemma route_sections_windows (rest : list node_id) (mid dst : node_id)
  (g g' : MultiDiGraph) (rt : list segment) :
  route_sections mid dst rest g = (g', Ok rt) ->
  length rt = length rest /\
  forall (i : nat) (s : segment), rt !! i = Some s ->
    exists a b c,
      (mid :: dst :: rest) !! i = Some a /\
      (mid :: dst :: rest) !! S i = Some b /\
      (mid :: dst :: rest) !! S (S i) = Some c /\
      make_segment a b c g = (g, Ok s).
Proof.
  revert mid dst g' rt. induction rest as [| node rest IH];
    intros mid dst g' rt; cbn [route_sections].
  - unfold ret. intros [= <- <-]. split; [reflexivity |].
    intros i s H. destruct i; discriminate.
  - unfold bind at 1.
    destruct (make_segment mid dst node g) as [g1 [s0 | e]] eqn:Hs;
      [| discriminate].
    pose proof (make_segment_reads_only _ _ _ _ _ _ Hs) as Hg1.
    cbn beta in Hg1. subst g1.
    unfold bind at 1.
    destruct (route_sections dst node rest g) as [g2 [r | e]] eqn:Hr;
      [| discriminate].
    unfold ret. intros [= <- <-].
    destruct (IH _ _ _ _ Hr) as [Hlen Hwin].
    split; [cbn; rewrite Hlen; reflexivity |].
    intros [| i] s H.
    + injection H as <-. exists mid, dst, node. repeat split. exact Hs.
    + cbn in H. destruct (Hwin i s H) as (a & b & c & Ha & Hb & Hc & Hm).
      exists a, b, c. repeat split; assumption.
Qed.

Lemma nearest_is_last_needs_two (graph : MultiDiGraph) (destiny_node : node_id)
  (dst_distance : Q) (destination : coord) (path : list node_id) :
  nearest_is_last graph destiny_node dst_distance destination path
    = Some true ->
  (2 <= length path)%nat.
Proof.
  unfold nearest_is_last. intros H.
  apply bind_Some in H as (dst_graph & _ & H).
  apply bind_Some in H as (last_edge & _ & H).
  apply bind_Some in H as (edge_data & _ & H).
  apply bind_Some in H as (id1 & _ & H).
  apply bind_Some in H as (p2 & H2 & _).
  exact (py_index_neg2_length _ _ H2).
Qed.

(** Trimming takes at most one node from each end and never the last
    one. *)
Lemma trim_path_length (graph : MultiDiGraph) (source_node destiny_node : node_id)
  (src_distance dst_distance : Q) (source destination : coord)
  (path : list node_id) :
  path <> [] ->
  let trimmed := trim_path graph source_node destiny_node src_distance
                           dst_distance source destination path in
  (1 <= length trimmed)%nat /\ (length trimmed <= length path)%nat /\
  (length path <= length trimmed + 2)%nat.
Proof.
  intros Hne. unfold trim_path.
  destruct (1 <? Z.of_nat (length path)) eqn:Hlong.
  2:{ cbv zeta. destruct path; [congruence | cbn; lia]. }
  apply Z.ltb_lt in Hlong.
  set (path1 := match nearest_is_first graph source_node src_distance
                                       source path with
                | Some true => tail path
                | _ => path
                end).
  assert (H1 : (1 <= length path1)%nat /\ (length path1 <= length path)%nat /\
               (length path <= length path1 + 1)%nat).
  { unfold path1. destruct (nearest_is_first _ _ _ _ _) as [[|] |];
      try lia.
    destruct path as [| x rest]; [congruence |]. cbn in *. lia. }
  cbv zeta.
  destruct (nearest_is_last graph destiny_node dst_distance destination path1)
    as [[|] |] eqn:Hlast; try lia.
  apply nearest_is_last_needs_two in Hlast.
  unfold pop_last.
  assert (Hrl : length (removelast path1) = (length path1 - 1)%nat).
  { destruct (exists_last (l := path1)) as (body & x & ->).
    - intros E. rewrite E in Hlast. cbn in Hlast. lia.
    - rewrite removelast_last, length_app. cbn. lia. }
  rewrite Hrl. lia.
Qed.

Lemma add_node_fresh (n : node_id) (a : node_attrs) (g : MultiDiGraph) :
  g_node g !! n = None ->
  add_node n a g = {| g_node := <[n := a]> (g_node g); g_adj := g_adj g |}.
Proof. intros H. unfold add_node. rewrite H. reflexivity. Qed.

Lemma add_edge_fresh (u v : node_id) (a : edge_attrs) (g : MultiDiGraph) :
  is_Some (g_node g !! u) -> is_Some (g_node g !! v) ->
  g_adj g !! (u, v) = None ->
  add_edge u v a g
    = {| g_node := g_node g;
         g_adj := <[(u, v) := [(0%nat, a)]]> (g_adj g) |}.
Proof.
  intros Hu Hv Hnone. unfold add_edge.
  rewrite (ensure_node_present u g Hu), (ensure_node_present v g Hv).
  cbv zeta. rewrite Hnone. reflexivity.
Qed.

Lemma make_segment_ok_inv (a b c : node_id) (g g' : MultiDiGraph) (s : segment) :
  make_segment a b c g = (g', Ok s) ->
  node_xy g a = Some (s_src s) /\
  node_xy g b = Some (s_mid s) /\
  (exists attrs, g_node g !! c = Some attrs /\
     s_dst s = if attrs_truthy attrs then node_xy g c else None) /\
  exists sm md,
    get_edge_data g a b 0 = Some sm /\
    get_edge_data g b c 0 = Some md /\
    s_length s = e_length sm /\
    first_name (e_name sm) g = (g, Ok (s_current_name s)) /\
    first_name (e_name md) g = (g, Ok (s_next_name s)) /\
    s_angle s = match e_bearing md, e_bearing sm with
                | Some b2, Some b1 =>
                    Some (float_mod (fl (b2 - b1)%Q) (inject_Z 360))
                | _, _ => None
                end.
Proof.
  unfold make_segment, bind, get, required, ret, raise. cbv beta iota zeta.
  destruct (get_edge_data g a b 0) as [sm |]; cbv beta iota; [| discriminate].
  destruct (first_name (e_name sm) g) as [g1 [cn | e]] eqn:Hcn;
    cbv beta iota; [| discriminate].
  assert (g1 = g) as ->.
  { revert Hcn. unfold first_name, ret, raise.
    destruct (e_name sm) as [[n | [| n l]] |]; congruence. }
  destruct (get_edge_data g b c 0) as [md |]; cbv beta iota; [| discriminate].
  destruct (first_name (e_name md) g) as [g1 [nn | e]] eqn:Hnn;
    cbv beta iota; [| discriminate].
  assert (g1 = g) as ->.
  { revert Hnn. unfold first_name, ret, raise.
    destruct (e_name md) as [[n | [| n l]] |]; congruence. }
  destruct (g_node g !! c) as [attrs |] eqn:Hc; cbv beta iota;
    [| discriminate].
  destruct (attrs_truthy attrs) eqn:Htr; cbv beta iota.
  - destruct (node_xy g c) as [xy |]; cbv beta iota; [| discriminate].
    destruct (node_xy g b) as [mid_xy |]; cbv beta iota; [| discriminate].
    destruct (node_xy g a) as [src_xy |]; cbv beta iota; [| discriminate].
    intros [= <- <-]. cbn.
    split; [reflexivity |]. split; [reflexivity |].
    split; [exists attrs; rewrite Htr; split; reflexivity |].
    exists sm, md. repeat split; first [reflexivity | assumption].
  - destruct (node_xy g b) as [mid_xy |]; cbv beta iota; [| discriminate].
    destruct (node_xy g a) as [src_xy |]; cbv beta iota; [| discriminate].
    intros [= <- <-]. cbn.
    split; [reflexivity |]. split; [reflexivity |].
    split; [exists attrs; rewrite Htr; split; reflexivity |].
    exists sm, md. repeat split; first [reflexivity | assumption].
Qed.

(** The graph the segments are read from, for a path that starts at [a1]
    and ends at [c3], both nodes of [g]. *)
Lemma spliced_graph_values (g h : MultiDiGraph) (a1 c3 : node_id)
  (sa da : node_attrs) (last_edge : edge_attrs) :
  anchors_fresh g -> edges_closed g ->
  is_Some (g_node g !! a1) -> is_Some (g_node g !! c3) ->
  h = add_edge c3 (Named "dst_node") last_edge
        (add_edge (Named "dst_node") (Named "end") bare_edge
           (add_edge (Named "src_node") a1 bare_edge
              (add_node (Named "end") no_attrs
                 (add_node (Named "dst_node") da
                    (add_node (Named "src_node") sa g))))) ->
  g_node h !! Named "src_node" = Some sa /\
  g_node h !! Named "dst_node" = Some da /\
  g_node h !! Named "end" = Some no_attrs /\
  get_edge_data h (Named "src_node") a1 0 = Some bare_edge /\
  get_edge_data h c3 (Named "dst_node") 0 = Some last_edge /\
  get_edge_data h (Named "dst_node") (Named "end") 0 = Some bare_edge.
Proof.
  intros Hfresh Hclosed Ha1 Hc3 ->.
  set (s := Named "src_node"). set (d := Named "dst_node").
  set (e := Named "end").
  assert (Hs : s ∈ anchors) by (apply elem_of_cons; left; reflexivity).
  assert (Hd : d ∈ anchors)
    by (apply elem_of_cons; right; apply elem_of_cons; left; reflexivity).
  assert (He : e ∈ anchors)
    by (do 2 (apply elem_of_cons; right); apply elem_of_cons; left; reflexivity).
  assert (Hout : forall n, is_Some (g_node g !! n) -> n ∉ anchors).
  { intros n [x Hx] Hn. rewrite (Hfresh n Hn) in Hx. discriminate. }
  assert (Ha1s : a1 <> s) by (intros ->; exact (Hout _ Ha1 Hs)).
  assert (Ha1d : a1 <> d) by (intros ->; exact (Hout _ Ha1 Hd)).
  assert (Ha1e : a1 <> e) by (intros ->; exact (Hout _ Ha1 He)).
  assert (Hc3s : c3 <> s) by (intros ->; exact (Hout _ Hc3 Hs)).
  assert (Hc3d : c3 <> d) by (intros ->; exact (Hout _ Hc3 Hd)).
  assert (Hc3e : c3 <> e) by (intros ->; exact (Hout _ Hc3 He)).
  rewrite (add_node_fresh s sa g) by (apply Hfresh, Hs).
  rewrite (add_node_fresh d da)
    by (cbn; rewrite lookup_insert_ne by discriminate; apply Hfresh, Hd).
  rewrite (add_node_fresh e no_attrs)
    by (cbn; rewrite !lookup_insert_ne by discriminate; apply Hfresh, He).
  cbn [g_node g_adj].
  rewrite (add_edge_fresh s a1 bare_edge); cbn [g_node g_adj].
  2:{ rewrite !lookup_insert_ne by discriminate.
      rewrite lookup_insert_eq. eauto. }
  2:{ rewrite !lookup_insert_ne by congruence. exact Ha1. }
  2:{ apply anchor_edge_absent; auto. }
  rewrite (add_edge_fresh d e bare_edge); cbn [g_node g_adj].
  2:{ rewrite lookup_insert_ne by discriminate.
      rewrite lookup_insert_eq. eauto. }
  2:{ rewrite lookup_insert_eq. eauto. }
  2:{ rewrite lookup_insert_ne by discriminate.
      apply anchor_edge_absent; auto. }
  rewrite (add_edge_fresh c3 d last_edge); cbn [g_node g_adj].
  2:{ rewrite !lookup_insert_ne by congruence. exact Hc3. }
  2:{ rewrite lookup_insert_ne by discriminate.
      rewrite lookup_insert_eq. eauto. }
  2:{ rewrite !lookup_insert_ne by congruence.
      apply anchor_edge_absent; auto. }
  unfold get_edge_data. cbn [g_node g_adj].
  split; [rewrite !lookup_insert_ne by discriminate; apply lookup_insert_eq |].
  split; [rewrite lookup_insert_ne by discriminate; apply lookup_insert_eq |].
  split; [apply lookup_insert_eq |].
  split.
  { rewrite !lookup_insert_ne by congruence. rewrite lookup_insert_eq.
    reflexivity. }
  split.
  { rewrite lookup_insert_eq. reflexivity. }
  rewrite lookup_insert_ne by congruence. rewrite lookup_insert_eq.
  reflexivity.
Qed.

(** A trimmed path that is not empty sits in the spliced path between
    'src_node' and 'dst_node'. *)
Lemma splice_shape (trimmed : list node_id) :
  trimmed <> [] ->
  exists a1 c3 body,
    trimmed = body ++ [c3] /\
    head trimmed = Some a1 /\
    splice_path trimmed
      = Named "src_node" :: body ++ [c3; Named "dst_node"; Named "end"] /\
    py_index (splice_path trimmed) 0 = Some (Named "src_node") /\
    py_index (splice_path trimmed) 1 = Some a1 /\
    py_index (splice_path trimmed) (-3) = Some c3 /\
    py_index (splice_path trimmed) (-2) = Some (Named "dst_node") /\
    py_index (splice_path trimmed) (-1) = Some (Named "end").
Proof.
  intros Hne.
  destruct (exists_last Hne) as (body & c3 & Hsplit).
  destruct trimmed as [| a1 rest]; [congruence |].
  exists a1, c3, body.
  assert (Hpath : splice_path (a1 :: rest)
            = Named "src_node" :: body ++ [c3; Named "dst_node"; Named "end"]).
  { unfold splice_path. rewrite Hsplit, <- app_assoc. reflexivity. }
  destruct (py_index_from_end (Named "src_node" :: body) c3
              (Named "dst_node") (Named "end")) as (E3 & E2 & E1).
  change ((Named "src_node" :: body) ++ [c3; Named "dst_node"; Named "end"])
    with (Named "src_node" :: body ++ [c3; Named "dst_node"; Named "end"])
    in E3, E2, E1.
  rewrite <- Hpath in E3, E2, E1.
  assert (Hlen : Z.of_nat (length (splice_path (a1 :: rest))) >= 3)
    by (unfold splice_path; cbn [length]; rewrite length_app; cbn; lia).
  split; [exact Hsplit |]. split; [reflexivity |]. split; [exact Hpath |].
  split; [rewrite py_index_nonneg by lia; reflexivity |].
  split; [rewrite py_index_nonneg by lia; reflexivity |].
  repeat split; assumption.
Qed.

(** The graph as [insert_anchors] leaves it, with the edge into
    'dst_node' spelt out: a bearing and nothing else. *)
Lemma insert_anchors_graph (source destination : coord) (trimmed : list node_id)
  (a1 c3 : node_id) (g g_mid : MultiDiGraph) :
  py_index (splice_path trimmed) 0 = Some (Named "src_node") ->
  py_index (splice_path trimmed) 1 = Some a1 ->
  py_index (splice_path trimmed) (-3) = Some c3 ->
  py_index (splice_path trimmed) (-2) = Some (Named "dst_node") ->
  py_index (splice_path trimmed) (-1) = Some (Named "end") ->
  insert_anchors source destination (splice_path trimmed) g = (g_mid, Ok tt) ->
  exists last_bear,
    g_mid =
      add_edge c3 (Named "dst_node")
        {| e_osmid := None; e_name := None; e_length := None;
           e_bearing := Some last_bear |}
        (add_edge (Named "dst_node") (Named "end") bare_edge
           (add_edge (Named "src_node") a1 bare_edge
              (add_node (Named "end") no_attrs
                 (add_node (Named "dst_node")
                    {| n_y := Some (fst destination);
                       n_x := Some (snd destination) |}
                    (add_node (Named "src_node")
                       {| n_y := Some (fst source);
                          n_x := Some (snd source) |} g))))).
Proof.
  intros E0 Ea E3 E2 E1.
  unfold insert_anchors, bind, modify, get, required, ret, raise.
  cbv beta iota. rewrite E3. cbv beta iota.
  destruct (node_xy _ c3) as [origin |]; cbv beta iota; [| discriminate].
  rewrite E0, Ea, E2, E1. cbv beta iota.
  intros [= <-]. eexists. reflexivity.
Qed.

(** What a returned route is made of: one segment per window of three
    places of the spliced path, read from the graph with the working
    nodes in it. *)
Lemma get_directions_windows (source destination : coord)
  (g g' : MultiDiGraph) (rt : list segment) :
  get_directions source destination g = (g', Ok rt) ->
  exists p trimmed g_mid,
    shortest_path g (fst (get_nearest_node g source))
                    (fst (get_nearest_node g destination)) = Some p /\
    trimmed = trim_path g (fst (get_nearest_node g source))
                (fst (get_nearest_node g destination))
                (snd (get_nearest_node g source))
                (snd (get_nearest_node g destination))
                source destination p /\
    insert_anchors source destination (splice_path trimmed) g
      = (g_mid, Ok tt) /\
    length rt = S (length trimmed) /\
    forall (i : nat) (s : segment), rt !! i = Some s ->
      exists a b c,
        splice_path trimmed !! i = Some a /\
        splice_path trimmed !! S i = Some b /\
        splice_path trimmed !! S (S i) = Some c /\
        make_segment a b c g_mid = (g_mid, Ok s).
Proof.
  intros H.
  destruct (get_directions_ok_inv _ _ _ _ _ H) as (p & Hp & Hb).
  destruct (build_route_ok_inv _ _ _ _ _ _ Hb)
    as (g_mid & a1 & Hins & Hsp & Hrs & _).
  destruct (route_sections_windows _ _ _ _ _ _ Hrs) as [Hlen Hwin].
  eexists p, _, g_mid.
  split; [exact Hp |]. split; [reflexivity |]. split; [exact Hins |].
  split.
  - rewrite Hlen, length_drop. unfold splice_path. cbn [length].
    rewrite length_app. cbn [length]. lia.
  - rewrite Hsp. exact Hwin.
Qed.

(** X1. A route that [get_directions] returns has one segment more than
    the trimmed path has nodes: never fewer than two segments, and within
    one of the number of nodes the path search gave. *)
Theorem route_has_at_least_two_segments (source destination : coord)
  (g g' : MultiDiGraph) (rt : list segment) :
  (forall p, shortest_path g (fst (get_nearest_node g source))
                             (fst (get_nearest_node g destination)) = Some p ->
             p <> []) ->
  get_directions source destination g = (g', Ok rt) ->
  exists p,
    shortest_path g (fst (get_nearest_node g source))
                    (fst (get_nearest_node g destination)) = Some p /\
    (2 <= length rt)%nat /\
    (length p <= length rt + 1)%nat /\
    (length rt <= length p + 1)%nat.
Proof.
  intros Hne H.
  destruct (get_directions_windows _ _ _ _ _ H)
    as (p & trimmed & g_mid & Hp & -> & _ & Hlen & _).
  exists p. split; [exact Hp |].
  pose proof (trim_path_length g (fst (get_nearest_node g source))
                (fst (get_nearest_node g destination))
                (snd (get_nearest_node g source))
                (snd (get_nearest_node g destination))
                source destination p (Hne p Hp)) as Ht.
  cbv zeta in Ht. lia.
Qed.

(** X2. Consecutive segments of a returned route share their places: a
    segment starts where the one before it has its checkpoint, and a
    segment's 'dst' is the checkpoint of the next one. *)
Theorem consecutive_segments_are_joined (source destination : coord)
  (g g' : MultiDiGraph) (rt : list segment) (i : nat) (s1 s2 : segment) :
  get_directions source destination g = (g', Ok rt) ->
  rt !! i = Some s1 -> rt !! S i = Some s2 ->
  s_src s2 = s_mid s1 /\ s_dst s1 = Some (s_mid s2).
Proof.
  intros H H1 H2.
  destruct (get_directions_windows _ _ _ _ _ H)
    as (p & trimmed & g_mid & _ & _ & _ & _ & Hwin).
  destruct (Hwin _ _ H1) as (a & b & c & Ha & Hb & Hc & Hm1).
  destruct (Hwin _ _ H2) as (a' & b' & c' & Ha' & Hb' & _ & Hm2).
  assert (a' = b) by congruence. assert (b' = c) by congruence. subst a' b'.
  destruct (make_segment_ok_inv _ _ _ _ _ _ Hm1)
    as (_ & Hmid1 & (attrs & Hattrs & Hdst1) & _).
  destruct (make_segment_ok_inv _ _ _ _ _ _ Hm2) as (Hsrc2 & Hmid2 & _).
  split; [congruence |].
  rewrite Hdst1.
  assert (Htruthy : attrs_truthy attrs = true).
  { revert Hmid2. unfold node_xy, attrs_truthy. rewrite Hattrs.
    destruct (n_x attrs), (n_y attrs); intros; congruence. }
  rewrite Htruthy. exact Hmid2.
Qed.

Lemma splice_lookup_end (body : list node_id) (c3 : node_id) :
  let path := Named "src_node" :: body ++ [c3; Named "dst_node"; Named "end"] in
  path !! S (length body) = Some c3 /\
  path !! S (S (length body)) = Some (Named "dst_node") /\
  path !! S (S (S (length body))) = Some (Named "end").
Proof.
  cbv zeta. repeat split.
  - change ((body ++ [c3; Named "dst_node"; Named "end"]) !! length body
            = Some c3).
    rewrite lookup_app_r by lia. rewrite Nat.sub_diag. reflexivity.
  - change ((body ++ [c3; Named "dst_node"; Named "end"]) !! S (length body)
            = Some (Named "dst_node")).
    rewrite lookup_app_r by lia.
    replace (S (length body) - length body)%nat with 1%nat by lia. reflexivity.
  - change ((body ++ [c3; Named "dst_node"; Named "end"])
              !! S (S (length body)) = Some (Named "end")).
    rewrite lookup_app_r by lia.
    replace (S (S (length body)) - length body)%nat with 2%nat by lia.
    reflexivity.
Qed.

(** The graph with the working nodes in it, for a search result made of
    nodes of the input graph. *)
Lemma get_directions_spliced (source destination : coord)
  (g g' : MultiDiGraph) (rt : list segment) :
  anchors_fresh g -> edges_closed g ->
  (forall p, shortest_path g (fst (get_nearest_node g source))
                             (fst (get_nearest_node g destination)) = Some p ->
             p <> [] /\ Forall (fun n => is_Some (g_node g !! n)) p) ->
  get_directions source destination g = (g', Ok rt) ->
  exists g_mid a1 c3 body last_edge,
    length rt = S (S (length body)) /\
    (forall (i : nat) (s : segment), rt !! i = Some s ->
      exists a b c,
        (Named "src_node" :: body ++ [c3; Named "dst_node"; Named "end"]) !! i
          = Some a /\
        (Named "src_node" :: body ++ [c3; Named "dst_node"; Named "end"]) !! S i
          = Some b /\
        (Named "src_node" :: body ++ [c3; Named "dst_node"; Named "end"])
          !! S (S i) = Some c /\
        make_segment a b c g_mid = (g_mid, Ok s)) /\
    head (body ++ [c3]) = Some a1 /\
    e_length last_edge = None /\ e_name last_edge = None /\
    g_node g_mid !! Named "src_node"
      = Some {| n_y := Some (fst source); n_x := Some (snd source) |} /\
    g_node g_mid !! Named "dst_node"
      = Some {| n_y := Some (fst destination);
                n_x := Some (snd destination) |} /\
    g_node g_mid !! Named "end" = Some no_attrs /\
    get_edge_data g_mid (Named "src_node") a1 0 = Some bare_edge /\
    get_edge_data g_mid c3 (Named "dst_node") 0 = Some last_edge /\
    get_edge_data g_mid (Named "dst_node") (Named "end") 0 = Some bare_edge.
Proof.
  intros Hfresh Hclosed Hpath H.
  destruct (get_directions_windows _ _ _ _ _ H)
    as (p & trimmed & g_mid & Hp & Htrim & Hins & Hlen & Hwin).
  destruct (Hpath p Hp) as [Hne Hin].
  assert (Htne : trimmed <> []).
  { pose proof (trim_path_length g (fst (get_nearest_node g source))
                  (fst (get_nearest_node g destination))
                  (snd (get_nearest_node g source))
                  (snd (get_nearest_node g destination))
                  source destination p Hne) as Ht.
    cbv zeta in Ht. rewrite <- Htrim in Ht. intros ->. cbn in Ht. lia. }
  assert (Htin : Forall (fun n => is_Some (g_node g !! n)) trimmed)
    by (rewrite Htrim; apply trim_path_Forall; exact Hin).
  destruct (splice_shape trimmed Htne)
    as (a1 & c3 & body & Hsplit & Hhead & Hsp & E0 & Ea & E3 & E2 & E1).
  destruct (insert_anchors_graph _ _ _ _ _ _ _ E0 Ea E3 E2 E1 Hins)
    as (last_bear & Hmid).
  set (last_edge := {| e_osmid := None; e_name := None; e_length := None;
                       e_bearing := Some last_bear |}) in Hmid.
  assert (Hlast : e_length last_edge = None /\ e_name last_edge = None)
    by (split; reflexivity).
  rewrite Forall_forall in Htin.
  assert (Ha1 : is_Some (g_node g !! a1)).
  { apply Htin. destruct trimmed; [discriminate |].
    injection Hhead as ->. apply elem_of_cons. left. reflexivity. }
  assert (Hc3 : is_Some (g_node g !! c3)).
  { apply Htin. rewrite Hsplit. apply elem_of_app. right.
    apply list_elem_of_singleton. reflexivity. }
  destruct (spliced_graph_values g g_mid a1 c3 _ _ last_edge
              Hfresh Hclosed Ha1 Hc3 Hmid)
    as (Vs & Vd & Ve & Es & Ec & Ed).
  exists g_mid, a1, c3, body, last_edge.
  split. { rewrite Hlen, Hsplit, length_app. cbn [length]. lia. }
  split. { rewrite <- Hsp. exact Hwin. }
  split. { rewrite <- Hsplit. exact Hhead. }
  destruct Hlast. repeat (split; [assumption |]). assumption.
Qed.

(** The first segment is the dict of the window that starts at
    'src_node', in the graph that holds the source as that node and the
    bare edge out of it. *)
Lemma first_segment_window (source destination : coord)
  (g g' : MultiDiGraph) (rt : list segment) :
  anchors_fresh g -> edges_closed g ->
  (forall p, shortest_path g (fst (get_nearest_node g source))
                             (fst (get_nearest_node g destination)) = Some p ->
             p <> [] /\ Forall (fun n => is_Some (g_node g !! n)) p) ->
  get_directions source destination g = (g', Ok rt) ->
  exists first g_mid a1 c,
    rt !! 0%nat = Some first /\
    make_segment (Named "src_node") a1 c g_mid = (g_mid, Ok first) /\
    g_node g_mid !! Named "src_node"
      = Some {| n_y := Some (fst source); n_x := Some (snd source) |} /\
    get_edge_data g_mid (Named "src_node") a1 0 = Some bare_edge.
Proof.
  intros Hfresh Hclosed Hpath H.
  destruct (get_directions_spliced _ _ _ _ _ Hfresh Hclosed Hpath H)
    as (g_mid & a1 & c3 & body & last_edge & Hlen & Hwin & Hhead & _ & _
        & Vs & _ & _ & Es & _ & _).
  destruct rt as [| first rest]; [discriminate |].
  destruct (Hwin 0%nat first eq_refl) as (a & b & c & Ha & Hb & _ & Hm).
  injection Ha as <-.
  assert (b = a1) as ->.
  { change ((body ++ [c3; Named "dst_node"; Named "end"]) !! 0%nat = Some b)
      in Hb.
    change (body ++ [c3; Named "dst_node"; Named "end"])
      with (body ++ [c3] ++ [Named "dst_node"; Named "end"]) in Hb.
    rewrite app_assoc in Hb.
    destruct (body ++ [c3]) as [| x l]; [discriminate |].
    cbn in Hb, Hhead. congruence. }
  exists first, g_mid, a1, c. repeat split; assumption.
Qed.

(** X3. The first segment of a returned route starts at the source
    location, as (longitude, latitude), and is drawn along the edge that
    was added for it: it has no length, no street name and no angle. *)
Theorem first_segment_starts_at_the_source (source destination : coord)
  (g g' : MultiDiGraph) (rt : list segment) :
  anchors_fresh g -> edges_closed g ->
  (forall p, shortest_path g (fst (get_nearest_node g source))
                             (fst (get_nearest_node g destination)) = Some p ->
             p <> [] /\ Forall (fun n => is_Some (g_node g !! n)) p) ->
  get_directions source destination g = (g', Ok rt) ->
  exists first,
    rt !! 0%nat = Some first /\
    s_src first = reversed source /\
    s_length first = None /\
    s_current_name first = None /\
    s_angle first = None.
Proof.
  intros Hfresh Hclosed Hpath H.
  destruct (first_segment_window _ _ _ _ _ Hfresh Hclosed Hpath H)
    as (first & g_mid & a1 & c & Hfirst & Hm & Vs & Es).
  exists first. split; [exact Hfirst |].
  destruct (make_segment_ok_inv _ _ _ _ _ _ Hm)
    as (Hsrc & _ & _ & sm & md & Hsm & _ & Hl & Hcn & _ & Hang).
  rewrite Es in Hsm. injection Hsm as <-.
  split.
  { unfold node_xy in Hsrc. rewrite Vs in Hsrc. cbn in Hsrc.
    injection Hsrc as <-. reflexivity. }
  split; [exact Hl |].
  split.
  { cbn in Hcn. unfold ret in Hcn. congruence. }
  rewrite Hang. cbn. destruct (e_bearing md); reflexivity.
Qed.

(** X4. The last segment of a returned route has the destination, as
    (longitude, latitude), for its checkpoint and nothing after it: no
    'dst', no next street, no angle; the edge it is drawn along has a
    bearing only, so it has no length and no street name either. *)
Theorem last_segment_ends_at_the_destination (source destination : coord)
  (g g' : MultiDiGraph) (rt : list segment) :
  anchors_fresh g -> edges_closed g ->
  (forall p, shortest_path g (fst (get_nearest_node g source))
                             (fst (get_nearest_node g destination)) = Some p ->
             p <> [] /\ Forall (fun n => is_Some (g_node g !! n)) p) ->
  get_directions source destination g = (g', Ok rt) ->
  exists final,
    last rt = Some final /\
    s_mid final = reversed destination /\
    s_dst final = None /\
    s_next_name final = None /\
    s_angle final = None /\
    s_length final = None /\
    s_current_name final = None.
Proof.
  intros Hfresh Hclosed Hpath H.
  destruct (get_directions_spliced _ _ _ _ _ Hfresh Hclosed Hpath H)
    as (g_mid & a1 & c3 & body & last_edge & Hlen & Hwin & _ & Hll & Hln
        & _ & Vd & Ve & _ & Ec & Ed).
  destruct (last rt) as [final |] eqn:Hfinal.
  2:{ apply last_None in Hfinal. subst rt. discriminate. }
  exists final. split; [reflexivity |].
  rewrite last_lookup, Hlen in Hfinal. cbn [Nat.pred] in Hfinal.
  destruct (Hwin _ _ Hfinal) as (a & b & c & Ha & Hb & Hc & Hm).
  destruct (splice_lookup_end body c3) as (La & Lb & Lc).
  cbv zeta in La, Lb, Lc.
  rewrite La in Ha. rewrite Lb in Hb. rewrite Lc in Hc.
  injection Ha as <-. injection Hb as <-. injection Hc as <-.
  destruct (make_segment_ok_inv _ _ _ _ _ _ Hm)
    as (_ & Hmid & (attrs & Hattrs & Hdst) & sm & md & Hsm & Hmd & Hl & Hcn
        & Hnn & Hang).
  rewrite Ec in Hsm. injection Hsm as <-.
  rewrite Ed in Hmd. injection Hmd as <-.
  rewrite Ve in Hattrs. injection Hattrs as <-.
  split.
  { unfold node_xy in Hmid. rewrite Vd in Hmid. cbn in Hmid.
    injection Hmid as <-. reflexivity. }
  split; [exact Hdst |].
  split.
  { cbn in Hnn. unfold ret in Hnn. congruence. }
  split.
  { rewrite Hang. reflexivity. }
  split; [congruence |].
  rewrite Hln in Hcn. cbn in Hcn. unfold ret in Hcn. congruence.
Qed.

End RouteShape.

(** ** Runs as relations on the state *)

Lemma evolves_ret {S A} (R : S -> S -> Prop) (a : A) :
  (forall s, R s s) -> evolves R (@ret S A a).
Proof. intros Hrefl s s' r [= <- _]. apply Hrefl. Qed.

Lemma evolves_raise {S A} (R : S -> S -> Prop) (e : exn) :
  (forall s, R s s) -> evolves R (@raise S A e).
Proof. intros Hrefl s s' r [= <- _]. apply Hrefl. Qed.

Lemma evolves_get {S} (R : S -> S -> Prop) :
  (forall s, R s s) -> evolves R (@get S).
Proof. intros Hrefl s s' r [= <- _]. apply Hrefl. Qed.

Lemma evolves_required {S A} (R : S -> S -> Prop) (e : exn) (o : option A) :
  (forall s, R s s) -> evolves R (@required S A e o).
Proof.
  intros Hrefl. destruct o; [apply evolves_ret | apply evolves_raise];
    exact Hrefl.
Qed.

Lemma evolves_modify {S} (R : S -> S -> Prop) (f : S -> S) :
  (forall s, R s (f s)) -> evolves R (modify f).
Proof. intros H s s' r [= <- _]. apply H. Qed.

Lemma evolves_bind {S A B} (R : S -> S -> Prop) (m : M S A) (k : A -> M S B) :
  (forall x y z, R x y -> R y z -> R x z) ->
  evolves R m -> (forall a, evolves R (k a)) -> evolves R (bind m k).
Proof.
  intros Htrans Hm Hk s s' r. unfold bind.
  destruct (m s) as [s1 [a | e]] eqn:H1.
  - intros H2. exact (Htrans _ _ _ (Hm _ _ _ H1) (Hk a _ _ _ H2)).
  - intros [= <- _]. exact (Hm _ _ _ H1).
Qed.

Lemma evolves_for_each {S A} (R : S -> S -> Prop) (body : Z -> A -> M S A)
  (idx : list Z) (a : A) :
  (forall s, R s s) -> (forall x y z, R x y -> R y z -> R x z) ->
  (forall i a', In i idx -> evolves R (body i a')) ->
  evolves R (Bot.for_each body idx a).
Proof.
  intros Hrefl Htrans. revert a.
  induction idx as [| i rest IH]; intros a Hb; cbn [Bot.for_each].
  - apply evolves_ret, Hrefl.
  - apply evolves_bind; [exact Htrans | apply Hb; left; reflexivity |].
    intros a'. apply IH. intros j a'' Hj. apply Hb. right. exact Hj.
Qed.

Lemma preserves_evolves {S A X} (f : S -> X) (m : M S A) :
  preserves f m -> evolves (fun s s' => f s' = f s) m.
Proof. intros H. exact H. Qed.

Lemma chat_grows_refl (w : Bot.world) : chat_grows w w.
Proof. exists []. symmetry. apply app_nil_r. Qed.

Lemma chat_grows_trans (x y z : Bot.world) :
  chat_grows x y -> chat_grows y z -> chat_grows x z.
Proof.
  intros [l1 H1] [l2 H2]. exists (l1 ++ l2).
  rewrite H2, H1, app_assoc. reflexivity.
Qed.

Lemma preserves_on_map {A X} (f : Bot.world -> X) (m : M MultiDiGraph A) :
  (forall g w, f (Bot.set_bot_map g w) = f w) -> preserves f (Bot.on_map m).
Proof.
  intros Hf w w' r. unfold Bot.on_map.
  destruct (Bot.bot_map w) as [g |]; [| intros [= <- _]; reflexivity].
  destruct (m g) as [g' res]. intros [= <- _]. apply Hf.
Qed.

Lemma raises_only_on_map {A} (P : exn -> Prop) (m : M MultiDiGraph A) :
  P KeyError -> raises_only P m -> raises_only P (Bot.on_map (A := A) m).
Proof.
  intros Hk Hm w w' e. unfold Bot.on_map.
  destruct (Bot.bot_map w) as [g |]; [| intros [= _ <-]; exact Hk].
  destruct (m g) as [g' res] eqn:Hg. intros [= _ ->].
  exact (Hm _ _ _ Hg).
Qed.

Lemma raises_only_weaken {S A} (P Q : exn -> Prop) (m : M S A) :
  (forall e, P e -> Q e) -> raises_only P m -> raises_only Q m.
Proof. intros H Hm s s' e Hr. apply H. exact (Hm _ _ _ Hr). Qed.

Ltac fails_with :=
  repeat first
    [ apply raises_only_ret
    | apply raises_only_get
    | apply raises_only_modify
    | apply raises_only_raise; exact I
    | apply raises_only_required; exact I
    | apply raises_only_bind; [| intros ?]
    | match goal with
      | |- raises_only _ (if ?c then _ else _) => destruct c
      | |- raises_only _ (match ?c with _ => _ end) => destruct c
      end ].

(** ** The ways [get_directions] can fail *)

Section Failures.
Context {L : Lib}.
Import Guide.

Lemma route_sections_lookup_failure (mid dst : node_id) (rest : list node_id) :
  raises_only lookup_failure (route_sections mid dst rest).
Proof.
  revert mid dst. induction rest as [| node rest IH]; intros mid dst;
    cbn [route_sections].
  - apply raises_only_ret.
  - apply raises_only_bind;
      [unfold make_segment, first_name; fails_with |]. intros s.
    apply raises_only_bind; [apply IH |]. intros r. apply raises_only_ret.
Qed.

Lemma route_from_snapped_lookup_failure (source destination : coord)
  (source_node destiny_node : node_id) (src_distance dst_distance : Q) :
  raises_only lookup_failure
    (route_from_snapped source destination source_node destiny_node
                        src_distance dst_distance).
Proof.
  unfold route_from_snapped.
  apply raises_only_bind; [fails_with |]. intros graph.
  apply raises_only_bind; [fails_with |]. intros path.
  unfold build_route.
  apply raises_only_bind; [unfold insert_anchors; fails_with |]. intros _.
  apply raises_only_bind; [fails_with |]. intros mid.
  apply raises_only_bind; [fails_with |]. intros dst.
  apply raises_only_bind; [apply route_sections_lookup_failure |]. intros route.
  apply raises_only_bind; [unfold discard_anchors; fails_with |]. intros _.
  apply raises_only_ret.
Qed.

(** X5. [get_directions] fails in these ways only: with the assertion
    on the source, with the assertion on the destination, with no path
    between the snapped nodes, or with a failed lookup (KeyError,
    IndexError, AttributeError) while the route is built.  The graph it
    leaves is then whatever the run had made of it. *)
Theorem get_directions_failures (source destination : coord)
  (g g' : MultiDiGraph) (e : exn) :
  get_directions source destination g = (g', Raise e) ->
  e = AssertionError "source is out of bounds" \/
  e = AssertionError "destination is out of bounds" \/
  lookup_failure e.
Proof.
  unfold get_directions. rewrite (bind_ok get _ _ _ _ eq_refl).
  unfold assert_.
  destruct (Qlt_bool (snd (get_nearest_node g source)) _).
  2:{ unfold bind, raise. intros [= _ <-]. left. reflexivity. }
  rewrite (bind_ok (ret tt) _ g g tt eq_refl).
  destruct (Qlt_bool (snd (get_nearest_node g destination)) _).
  2:{ unfold bind, raise. intros [= _ <-]. right. left. reflexivity. }
  rewrite (bind_ok (ret tt) _ g g tt eq_refl).
  intros H. right. right.
  exact (route_from_snapped_lookup_failure _ _ _ _ _ _ _ _ _ H).
Qed.

End Failures.

(** ** What [_compute_route] lets out *)

Section Reports.
Context {L : Lib}.
Import Bot.

Lemma get_directions_not_nominatim (source destination : coord) :
  raises_only not_nominatim (Guide.get_directions source destination).
Proof.
  unfold Guide.get_directions.
  apply raises_only_bind; [fails_with |]. intros graph.
  apply raises_only_bind; [unfold assert_; fails_with |]. intros _.
  apply raises_only_bind; [unfold assert_; fails_with |]. intros _.
  apply (raises_only_weaken lookup_failure);
    [| apply route_from_snapped_lookup_failure].
  intros e He. destruct e; first [exact I | destruct He].
Qed.

Lemma message_route_not_nominatim : raises_only not_nominatim _message_route.
Proof.
  unfold _message_route, send, del_route, del_checkpts, del_curr_chkpt.
  fails_with.
Qed.

Lemma message_route_tapped :
  preserves (fun w => inline_tapped (user w)) _message_route.
Proof.
  unfold _message_route, send, del_route, del_checkpts, del_curr_chkpt. frame.
Qed.

Lemma message_route_chat : evolves chat_grows _message_route.
Proof.
  unfold _message_route, send, del_route, del_checkpts, del_curr_chkpt.
  repeat first
    [ apply evolves_ret; exact chat_grows_refl
    | apply evolves_raise; exact chat_grows_refl
    | apply evolves_get; exact chat_grows_refl
    | apply evolves_required; exact chat_grows_refl
    | apply evolves_modify; intros ?;
        first [exact (chat_grows_refl _) | eexists; reflexivity]
    | apply evolves_bind; [exact chat_grows_trans | | intros ?]
    | match goal with
      | |- evolves _ (if ?c then _ else _) => destruct c
      | |- evolves _ (match ?c with _ => _ end) => destruct c
      end ].
Qed.

(** The part of [_compute_route] after the announcement. *)
Lemma compute_route_after_announcement (t : string) (location destination : coord)
  (k : M world unit) :
  k = (do route <~ on_map (Guide.get_directions location destination) ;;;
       run modify (set_user (set_route (Some route))) ;;;
       let checkpoints := Z.of_nat (length route) in
       run modify (set_user (set_checkpts (Some checkpoints))) ;;;
       run modify (set_user (set_curr_chkpt (Some 0))) ;;;
       run send (RoutePhoto route location destination) ;;;
       run (if checkpoints =? 2 then
              do first <~ required IndexError (py_index route 0) ;;;
              let mid := reversed (s_mid first) in
              let distance :=
                pyround (fl (haversine location mid
                             + haversine mid destination)%Q) in
              raise (TooNearError distance)
            else ret tt) ;;;
       do msg <~ _message_route ;;;
       run send (Guidance msg) ;;;
       run modify (set_jobs job_queue_start) ;;;
       modify (set_jobs (run_repeating 60 60))) ->
  raises_only not_nominatim k /\
  preserves (fun w => inline_tapped (user w)) k /\
  evolves chat_grows k.
Proof.
  intros ->. split; [| split].
  - apply raises_only_bind.
    { apply raises_only_on_map; [exact I |].
      apply get_directions_not_nominatim. }
    intros route. cbv zeta.
    apply raises_only_bind; [fails_with |]. intros _.
    apply raises_only_bind; [fails_with |]. intros _.
    apply raises_only_bind; [fails_with |]. intros _.
    apply raises_only_bind; [unfold send; fails_with |]. intros _.
    apply raises_only_bind; [fails_with |]. intros _.
    apply raises_only_bind; [apply message_route_not_nominatim |]. intros msg.
    unfold send. fails_with.
  - apply preserves_bind.
    { apply preserves_on_map. intros g w. reflexivity. }
    intros route. cbv zeta.
    apply preserves_bind; [frame |]. intros _.
    apply preserves_bind; [frame |]. intros _.
    apply preserves_bind; [frame |]. intros _.
    apply preserves_bind; [unfold send; frame |]. intros _.
    apply preserves_bind; [frame |]. intros _.
    apply preserves_bind; [apply message_route_tapped |]. intros msg.
    unfold send. frame.
  - assert (Hsend : forall e, evolves chat_grows (send e)).
    { intros e. apply evolves_modify. intros w. eexists. reflexivity. }
    assert (Hquiet : forall f, (forall w, sent (f w) = sent w) ->
                               evolves chat_grows (modify f)).
    { intros f Hf. apply evolves_modify. intros w. exists [].
      rewrite Hf. symmetry. apply app_nil_r. }
    apply evolves_bind; [exact chat_grows_trans | |].
    { pose proof (preserves_on_map (fun w => sent w)
                    (Guide.get_directions location destination)
                    (fun g w => eq_refl)) as Hmap.
      intros w w' r Hr. exists []. rewrite (Hmap _ _ _ Hr).
      symmetry. apply app_nil_r. }
    intros route. cbv zeta.
    apply evolves_bind; [exact chat_grows_trans | apply Hquiet; reflexivity |].
    intros _.
    apply evolves_bind; [exact chat_grows_trans | apply Hquiet; reflexivity |].
    intros _.
    apply evolves_bind; [exact chat_grows_trans | apply Hquiet; reflexivity |].
    intros _.
    apply evolves_bind; [exact chat_grows_trans | apply Hsend |]. intros _.
    apply evolves_bind; [exact chat_grows_trans | |].
    { destruct (_ =? 2).
      - apply evolves_bind; [exact chat_grows_trans | |].
        + apply evolves_required. exact chat_grows_refl.
        + intros first. apply evolves_raise. exact chat_grows_refl.
      - apply evolves_ret. exact chat_grows_refl. }
    intros _.
    apply evolves_bind; [exact chat_grows_trans | apply message_route_chat |].
    intros msg.
    apply evolves_bind; [exact chat_grows_trans | apply Hsend |]. intros _.
    apply evolves_bind; [exact chat_grows_trans | apply Hquiet; reflexivity |].
    intros _. apply Hquiet. reflexivity.
Qed.

(** The clauses of the handler, for a session whose [inline_tapped] list
    has the place the KeyError clause writes to: each ends normally, and
    each but the one for an assertion with another text sends a
    message. *)
Lemma compute_route_handler_ok (e : exn) (w : world) (tapped : list bool) :
  inline_tapped (user w) = Some tapped -> (5 <= length tapped)%nat ->
  (e = NominatimError -> exists t, get_target (user w) w = (w, Ok t)) ->
  exists w' l, compute_route_handler e w = (w', Ok tt) /\
    sent w' = sent w ++ l /\
    ((forall msg, e = AssertionError msg ->
        msg = "source is out of bounds" \/
        msg = "destination is out of bounds") ->
     l <> []).
Proof.
  intros Ht Hlen Hnom.
  assert (Hsend : forall ev, exists w' l, send ev w = (w', Ok tt) /\
            sent w' = sent w ++ l /\
            ((forall msg, e = AssertionError msg ->
                msg = "source is out of bounds" \/
                msg = "destination is out of bounds") ->
             l <> [])).
  { intros ev. eexists. exists [ev]. split; [reflexivity |].
    split; [reflexivity |]. intros _. discriminate. }
  destruct e; cbn [compute_route_handler]; try apply Hsend.
  - (* KeyError *)
    assert (Hset := set_tapped_ok w tapped 4 false Ht ltac:(lia)).
    rewrite (bind_ok _ _ _ _ _ Hset).
    eexists. exists [NoLocation]. split; [reflexivity |].
    split; [reflexivity |]. intros _. discriminate.
  - (* AssertionError *)
    destruct (String.eqb (substring 0 11 msg) "destination") eqn:Hd;
      [apply Hsend |].
    destruct (String.eqb (substring 0 6 msg) "source") eqn:Hs;
      [apply Hsend |].
    exists w, []. split; [reflexivity |].
    split; [symmetry; apply app_nil_r |].
    intros Hmsg. destruct (Hmsg msg eq_refl) as [-> | ->]; discriminate.
  - (* NominatimError *)
    destruct (Hnom eq_refl) as [t Htar].
    rewrite (bind_ok get _ _ _ _ eq_refl).
    rewrite (bind_ok _ _ _ _ _ Htar).
    apply Hsend.
Qed.

(** X6. In a session that has its [inline_tapped] list (of five entries
    or more, as /start makes it), [_compute_route] never lets an exception
    out, whatever is missing or goes wrong, and never ends without having
    sent the user something. *)
Theorem compute_route_always_answers (w : world) (tapped : list bool) :
  inline_tapped (user w) = Some tapped -> (5 <= length tapped)%nat ->
  exists w' ev l,
    _compute_route w = (w', Ok tt) /\ sent w' = sent w ++ ev :: l.
Proof.
  intros Ht Hlen.
  assert (Hfail : forall e, e <> NominatimError ->
            (forall msg, e <> AssertionError msg) ->
            exists w' ev l, compute_route_handler e w = (w', Ok tt) /\
                            sent w' = sent w ++ ev :: l).
  { intros e Hn Ha.
    destruct (compute_route_handler_ok e w tapped Ht Hlen)
      as (w' & l & Hh & Hs & Hl); [intros; contradiction |].
    destruct l as [| ev l].
    { exfalso. apply Hl; [| reflexivity]. intros msg Hm.
      destruct (Ha msg Hm). }
    exists w', ev, l. split; assumption. }
  unfold _compute_route, try_except, compute_route_body.
  rewrite (bind_ok get _ _ _ _ eq_refl).
  destruct (bot_map w) as [g |] eqn:Hg; cbn [required].
  2:{ rewrite (bind_raise (raise KeyError) _ w w KeyError eq_refl).
      apply Hfail; discriminate. }
  rewrite (bind_ok (ret g) _ w w g eq_refl).
  destruct (loc (user w)) as [l |] eqn:Hl; cbn [required].
  2:{ rewrite (bind_raise (raise KeyError) _ w w KeyError eq_refl).
      apply Hfail; discriminate. }
  rewrite (bind_ok (ret l) _ w w l eq_refl).
  destruct (get_target (user w) w) as [w0 [t | e]] eqn:Htar.
  2:{ assert (w0 = w /\ e = NoTargetError) as [-> ->].
      { revert Htar. unfold get_target.
        destruct (target (user w)) as [t |];
          [destruct (String.eqb t "") |]; unfold ret, raise;
          intros [= <- <-] || intros [= <-]; split; reflexivity. }
      rewrite (bind_raise _ _ _ _ _ Htar). apply Hfail; discriminate. }
  assert (w0 = w) as ->.
  { revert Htar. unfold get_target.
    destruct (target (user w)) as [t' |];
      [destruct (String.eqb t' "") |]; unfold ret, raise; congruence. }
  rewrite (bind_ok _ _ _ _ _ Htar).
  destruct (geocode t) as [d |] eqn:Hgeo; cbn [required].
  2:{ rewrite (bind_raise (raise NominatimError) _ w w _ eq_refl).
      destruct (compute_route_handler_ok NominatimError w tapped Ht Hlen)
        as (w' & l0 & Hh & Hs & Hne); [intros _; exists t; exact Htar |].
      destruct l0 as [| ev l0]; [exfalso; apply Hne; [discriminate | reflexivity] |].
      exists w', ev, l0. split; assumption. }
  rewrite (bind_ok (ret d) _ w w d eq_refl).
  rewrite (bind_ok _ _ w (record_sent (Computing t) w) tt eq_refl).
  match goal with
  | |- context [bind (on_map ?m) ?f (record_sent _ w)] =>
      set (k := bind (on_map m) f)
  end.
  destruct (compute_route_after_announcement t (reversed l) d k eq_refl)
    as (Hnom & Htap & Hchat).
  destruct (k (record_sent (Computing t) w)) as [w2 [[] | e]] eqn:Hk.
  - destruct (Hchat _ _ _ Hk) as [l2 Hl2].
    exists w2, (Computing t), l2. split; [reflexivity |].
    rewrite Hl2. cbn [sent record_sent]. rewrite <- app_assoc. reflexivity.
  - destruct (Hchat _ _ _ Hk) as [l2 Hl2].
    pose proof (Htap _ _ _ Hk) as Ht2. cbn in Ht2.
    destruct (compute_route_handler_ok e w2 tapped) as (w3 & l3 & Hh & Hs & _);
      [congruence | exact Hlen | |].
    { intros ->. destruct (Hnom _ _ _ Hk). }
    exists w3, (Computing t), (l2 ++ l3). split; [exact Hh |].
    rewrite Hs, Hl2. cbn [sent record_sent]. rewrite <- !app_assoc.
    reflexivity.
Qed.

Lemma get_target_ok (w : world) (t : string) :
  target (user w) = Some t -> t <> "" -> get_target (user w) w = (w, Ok t).
Proof.
  intros Ht Hne. unfold get_target. rewrite Ht.
  destruct (String.eqb_spec t ""); [contradiction | reflexivity].
Qed.

(** With the map, a location, a target and its coordinates at hand, the
    [try] body announces the computation and goes on to the search. *)
Lemma compute_route_body_announced (w : world) (g : MultiDiGraph) (l : coord)
  (t : string) (d : coord) :
  bot_map w = Some g -> loc (user w) = Some l ->
  target (user w) = Some t -> t <> "" -> geocode t = Some d ->
  compute_route_body w
    = search_and_guide (reversed l) d (record_sent (Computing t) w).
Proof.
  intros Hg Hl Ht Hne Hgeo. unfold compute_route_body.
  rewrite (bind_ok get _ _ _ _ eq_refl).
  rewrite Hg, Hl. cbn [required].
  rewrite (bind_ok (ret g) _ w w g eq_refl).
  rewrite (bind_ok (ret l) _ w w l eq_refl).
  rewrite (bind_ok _ _ _ _ _ (get_target_ok w t Ht Hne)).
  rewrite Hgeo. cbn [required].
  rewrite (bind_ok (ret d) _ w w _ eq_refl).
  rewrite (bind_ok _ _ w (record_sent (Computing t) w) tt eq_refl).
  reflexivity.
Qed.

Lemma set_bot_map_same (w : world) (g : MultiDiGraph) :
  bot_map w = Some g -> set_bot_map (Some g) w = w.
Proof. intros H. destruct w. cbn in *. subst. reflexivity. Qed.

(** A search that fails leaves the session with the announcement sent and
    the map as the search left it. *)
Lemma search_and_guide_failed (w : world) (g g' : MultiDiGraph)
  (location d : coord) (e : exn) :
  bot_map w = Some g ->
  Guide.get_directions location d g = (g', Raise e) ->
  search_and_guide location d w = (set_bot_map (Some g') w, Raise e).
Proof.
  intros Hg Hgd. unfold search_and_guide.
  apply bind_raise. unfold on_map. rewrite Hg, Hgd. reflexivity.
Qed.

(** X7. A source or a destination that is 2000 m or more from every node
    of the map is reported as outside the working zone, after the
    announcement; the session, the map and the job queue stay as they
    were.  The source is looked at first. *)
Theorem out_of_bounds_is_reported (w : world) (g : MultiDiGraph) (l : coord)
  (t : string) (d : coord) :
  bot_map w = Some g -> loc (user w) = Some l ->
  target (user w) = Some t -> t <> "" -> geocode t = Some d ->
  ((inject_Z Guide.FARTHEST_NODE <= snd (get_nearest_node g (reversed l)))%Q ->
     _compute_route w
       = (record_sent SourceOutside (record_sent (Computing t) w), Ok tt)) /\
  ((snd (get_nearest_node g (reversed l)) < inject_Z Guide.FARTHEST_NODE)%Q ->
   (inject_Z Guide.FARTHEST_NODE <= snd (get_nearest_node g d))%Q ->
     _compute_route w
       = (record_sent DestinationOutside (record_sent (Computing t) w), Ok tt)).
Proof.
  intros Hg Hl Ht Hne Hgeo.
  assert (Hb := compute_route_body_announced w g l t d Hg Hl Ht Hne Hgeo).
  assert (Hg1 : bot_map (record_sent (Computing t) w) = Some g) by exact Hg.
  split.
  - intros Hfar. unfold _compute_route, try_except. rewrite Hb.
    rewrite (search_and_guide_failed _ g g _ _
               (AssertionError "source is out of bounds") Hg1).
    + rewrite (set_bot_map_same _ g Hg1). reflexivity.
    + unfold Guide.get_directions. rewrite (bind_ok get _ _ _ _ eq_refl).
      apply Qlt_bool_false_iff in Hfar. rewrite Hfar. reflexivity.
  - intros Hnear Hfar. unfold _compute_route, try_except. rewrite Hb.
    rewrite (search_and_guide_failed _ g g _ _
               (AssertionError "destination is out of bounds") Hg1).
    + rewrite (set_bot_map_same _ g Hg1). reflexivity.
    + unfold Guide.get_directions. rewrite (bind_ok get _ _ _ _ eq_refl).
      apply Qlt_bool_iff in Hnear. rewrite Hnear.
      apply Qlt_bool_false_iff in Hfar. rewrite Hfar. reflexivity.
Qed.

(** X8. When both ends are within bounds and the path search finds no
    path, the user is told of an internal error, after the announcement;
    the session, the map and the job queue stay as they were. *)
Theorem no_path_is_an_internal_error (w : world) (g : MultiDiGraph) (l : coord)
  (t : string) (d : coord) :
  bot_map w = Some g -> loc (user w) = Some l ->
  target (user w) = Some t -> t <> "" -> geocode t = Some d ->
  (snd (get_nearest_node g (reversed l)) < inject_Z Guide.FARTHEST_NODE)%Q ->
  (snd (get_nearest_node g d) < inject_Z Guide.FARTHEST_NODE)%Q ->
  shortest_path g (fst (get_nearest_node g (reversed l)))
                  (fst (get_nearest_node g d)) = None ->
  _compute_route w
    = (record_sent InternalError (record_sent (Computing t) w), Ok tt).
Proof.
  intros Hg Hl Ht Hne Hgeo Hs Hd Hnone.
  assert (Hb := compute_route_body_announced w g l t d Hg Hl Ht Hne Hgeo).
  assert (Hg1 : bot_map (record_sent (Computing t) w) = Some g) by exact Hg.
  unfold _compute_route, try_except. rewrite Hb.
  rewrite (search_and_guide_failed _ g g _ _ NetworkXNoPath Hg1).
  - rewrite (set_bot_map_same _ g Hg1). reflexivity.
  - unfold Guide.get_directions. rewrite (bind_ok get _ _ _ _ eq_refl).
    apply Qlt_bool_iff in Hs. apply Qlt_bool_iff in Hd. rewrite Hs, Hd.
    unfold assert_.
    rewrite (bind_ok (ret tt) _ g g tt eq_refl).
    rewrite (bind_ok (ret tt) _ g g tt eq_refl).
    unfold Guide.route_from_snapped. rewrite (bind_ok get _ _ _ _ eq_refl).
    rewrite Hnone. reflexivity.
Qed.

(** X9. When the street after the first checkpoint has no name, the first
    guidance message cannot be put together: the user gets the
    announcement, the route photo and then the internal-error message.
    The route has been adopted all the same, at position 0, and the
    repeating job is not started. *)
Theorem unnamed_first_street_is_an_internal_error (w : world)
  (g g' : MultiDiGraph) (l : coord) (t : string) (d : coord)
  (rt : list segment) (first : segment) :
  bot_map w = Some g -> loc (user w) = Some l ->
  target (user w) = Some t -> t <> "" -> geocode t = Some d ->
  Guide.get_directions (reversed l) d g = (g', Ok rt) ->
  length rt <> 2%nat ->
  py_index rt 0 = Some first -> s_next_name first = None ->
  exists w',
    _compute_route w = (w', Ok tt) /\
    sent w' = sent w ++
      [Computing t; RoutePhoto rt (reversed l) d; InternalError] /\
    user w' = set_curr_chkpt (Some 0)
                (set_checkpts (Some (Z.of_nat (length rt)))
                   (set_route (Some rt) (user w))) /\
    jobs w' = jobs w.
Proof.
  intros Hg Hl Ht Hne Hgeo Hgd Hlen Hfirst Hname.
  assert (Hb := compute_route_body_announced w g l t d Hg Hl Ht Hne Hgeo).
  unfold _compute_route, try_except. rewrite Hb.
  unfold search_and_guide.
  erewrite bind_ok.
  2:{ unfold on_map. cbn [bot_map record_sent]. rewrite Hg, Hgd. reflexivity. }
  cbv zeta.
  rewrite (bind_ok (modify _) _ _ _ tt eq_refl).
  rewrite (bind_ok (modify _) _ _ _ tt eq_refl).
  rewrite (bind_ok (modify _) _ _ _ tt eq_refl).
  rewrite (bind_ok (send _) _ _ _ tt eq_refl).
  assert (Hnot2 : (Z.of_nat (length rt) =? 2) = false)
    by (apply Z.eqb_neq; lia).
  rewrite Hnot2.
  rewrite (bind_ok (ret tt) _ _ _ tt eq_refl).
  erewrite bind_raise.
  2:{ unfold _message_route. rewrite (bind_ok get _ _ _ _ eq_refl).
      cbn [user route loc curr_chkpt checkpts set_user set_route set_checkpts
           set_curr_chkpt record_sent set_bot_map].
      rewrite Hl. cbn [required].
      rewrite (bind_ok (ret rt) _ _ _ rt eq_refl).
      rewrite (bind_ok (ret l) _ _ _ l eq_refl).
      rewrite (bind_ok (ret 0) _ _ _ 0 eq_refl).
      rewrite (bind_ok (ret _) _ _ _ _ eq_refl).
      cbv zeta. rewrite Z.eqb_refl. rewrite Hfirst. cbn [required].
      rewrite (bind_ok (ret first) _ _ _ _ eq_refl).
      rewrite Hname. reflexivity. }
  eexists. split; [reflexivity |].
  split; [| split; reflexivity].
  cbn. rewrite <- !app_assoc. reflexivity.
Qed.

Lemma preserves_try_except {S A X} (f : S -> X) (m : M S A)
  (h : exn -> M S A) :
  preserves f m -> (forall e, preserves f (h e)) ->
  preserves f (try_except m h).
Proof.
  intros Hm Hh s s' r. unfold try_except.
  destruct (m s) as [s1 [a | e]] eqn:H1.
  - intros [= <- _]. exact (Hm _ _ _ H1).
  - intros H2. rewrite (Hh e _ _ _ H2). exact (Hm _ _ _ H1).
Qed.

(** [_compute_route] reads the target and the location and writes
    neither. *)
Lemma compute_route_keeps_the_request :
  preserves (fun w => (target (user w), loc (user w))) _compute_route.
Proof.
  unfold _compute_route. apply preserves_try_except.
  - unfold compute_route_body.
    apply preserves_bind; [frame |]. intros w.
    apply preserves_bind; [frame |]. intros _.
    apply preserves_bind; [frame |]. intros l.
    apply preserves_bind; [unfold get_target; frame |]. intros t.
    apply preserves_bind; [frame |]. intros d.
    apply preserves_bind; [unfold send; frame |]. intros _.
    apply preserves_bind.
    { apply preserves_on_map. intros g0 w0. reflexivity. }
    intros rt. cbv zeta.
    apply preserves_bind; [frame |]. intros _.
    apply preserves_bind; [frame |]. intros _.
    apply preserves_bind; [frame |]. intros _.
    apply preserves_bind; [unfold send; frame |]. intros _.
    apply preserves_bind; [frame |]. intros _.
    apply preserves_bind.
    { unfold _message_route, send, del_route, del_checkpts, del_curr_chkpt.
      frame. }
    intros msg. unfold send. frame.
  - intros e. destruct e; cbn [compute_route_handler];
      unfold send, set_tapped, get_target; frame.
Qed.

(** X10. [/go] with a place stores the place as the target before anything
    is computed, and the target stays whatever becomes of the
    computation; the location is not touched, and no exception leaves the
    handler.  [/go] with nothing after it only asks for a destination:
    the target of an earlier route stays. *)
Theorem go_remembers_the_target (w : world) :
  go "" w = (record_sent NoDestinationGiven w, Ok tt) /\
  forall (t : string) (w' : world) (r : result unit),
    t <> "" -> go t w = (w', r) ->
    r = Ok tt /\ target (user w') = Some t /\ loc (user w') = loc (user w).
Proof.
  split; [reflexivity |].
  intros t w' r Hne. unfold go, try_except.
  destruct (String.eqb_spec t "") as [-> | _]; [congruence |].
  rewrite (bind_ok (ret tt) _ w w tt eq_refl).
  rewrite (bind_ok (modify _) _ _ _ tt eq_refl).
  destruct (_compute_route (set_user (set_target (Some t)) w))
    as [w1 [[] | e]] eqn:Hc;
    pose proof (compute_route_keeps_the_request _ _ _ Hc) as Hk;
    cbn in Hk; injection Hk as Ht Hl.
  - intros [= <- <-]. repeat split; assumption.
  - destruct e; unfold send, modify; intros [= <- <-];
      repeat split; assumption.
Qed.

(** X11. In a session that has neither a location nor the [inline_tapped]
    list (no /start since the bot came up), [/go] with a place ends in the
    internal-error message: the clause that should say that no location
    is shared fails itself, at its write to [inline_tapped].  The target
    is stored all the same. *)
Theorem go_before_start_is_an_internal_error (w : world) (t : string) :
  t <> "" -> loc (user w) = None -> inline_tapped (user w) = None ->
  go t w = (record_sent InternalError (set_user (set_target (Some t)) w),
            Ok tt).
Proof.
  intros Hne Hl Htap. unfold go, try_except.
  destruct (String.eqb_spec t "") as [-> | _]; [congruence |].
  rewrite (bind_ok (ret tt) _ w w tt eq_refl).
  rewrite (bind_ok (modify _) _ _ _ tt eq_refl).
  assert (Hc : _compute_route (set_user (set_target (Some t)) w)
               = (set_user (set_target (Some t)) w, Raise KeyError)).
  { unfold _compute_route, try_except.
    assert (Hb : compute_route_body (set_user (set_target (Some t)) w)
                 = (set_user (set_target (Some t)) w, Raise KeyError)).
    { unfold compute_route_body. rewrite (bind_ok get _ _ _ _ eq_refl).
      cbn [bot_map set_user user loc set_target]. rewrite Hl.
      destruct (bot_map w); reflexivity. }
    rewrite Hb. cbn [compute_route_handler].
    apply bind_raise.
    unfold set_tapped. rewrite (bind_ok get _ _ _ _ eq_refl).
    cbn [set_user user inline_tapped set_target]. rewrite Htap. reflexivity. }
  rewrite Hc. reflexivity.
Qed.

End Reports.

(** ** What a location message does to the session *)

Section Position.
Context {L : Lib}.
Import Bot.

Lemma message_route_beside : preserves beside_the_route _message_route.
Proof.
  unfold _message_route, send, del_route, del_checkpts, del_curr_chkpt. frame.
Qed.

Lemma lookahead_slot_beside (location : coord) (current count i : Z)
  (locals : option Z * bool) :
  preserves beside_the_route (lookahead_slot location current count i locals).
Proof.
  unfold lookahead_slot, measure_slot.
  apply preserves_bind; [frame |]. intros cd.
  destruct (is_reached cd); [| frame].
  apply preserves_bind; [| intros _; frame].
  unfold reach_checkpoint, send.
  apply preserves_bind; [frame |]. intros _.
  apply preserves_bind; [apply message_route_beside |]. intros msg. frame.
Qed.

Lemma check_walking_away_beside (location : coord) (current : Z) :
  preserves beside_the_route (check_walking_away location current).
Proof.
  unfold check_walking_away, send.
  apply preserves_bind; [frame |]. intros w.
  apply preserves_bind; [frame |]. intros r.
  apply preserves_bind; [frame |]. intros next.
  destruct (beyond _ _ FAR_AWAY_DST).
  { apply preserves_bind; [unfold set_tapped; frame |]. intros _. frame. }
  destruct (beyond _ _ AWAY_DST).
  { apply preserves_bind; [unfold set_tapped; frame |]. intros _. frame. }
  frame.
Qed.

(** The handler after the three stores. *)
Lemma update_and_check_split (location : coord) (now : Q) (w : world) :
  _update_and_check location now w =
    (do w <~ get ;;;
     if has_route (user w) then
       do current <~ required KeyError (curr_chkpt (user w)) ;;;
       do checkpts <~ required KeyError (checkpts (user w)) ;;;
       do locals <~ for_each (lookahead_slot location current checkpts)
                             (range N) (None, false) ;;;
       if negb (snd locals) then check_walking_away location current
       else ret tt
     else ret tt) (store_location location now w).
Proof. reflexivity. Qed.

(** X12. A location message is always recorded: however the handler ends,
    with or without a route, normally or with an exception, the session
    then holds the location, its time and waiting = False; the target,
    the map and the job queue are as before. *)
Theorem location_update_is_always_recorded (w w' : world) (location : coord)
  (now : Q) (res : result unit) :
  _update_and_check location now w = (w', res) ->
  loc (user w') = Some location /\
  last_time (user w') = Some (pyint now) /\
  waiting (user w') = Some false /\
  target (user w') = target (user w) /\
  bot_map w' = bot_map w /\
  jobs w' = jobs w.
Proof.
  rewrite update_and_check_split. intros H.
  assert (Hp : preserves beside_the_route
            (do w <~ get ;;;
             if has_route (user w) then
               do current <~ required KeyError (curr_chkpt (user w)) ;;;
               do checkpts <~ required KeyError (checkpts (user w)) ;;;
               do locals <~ for_each (lookahead_slot location current checkpts)
                                     (range N) (None, false) ;;;
               if negb (snd locals) then check_walking_away location current
               else ret tt
             else ret tt)).
  { apply preserves_bind; [frame |]. intros w1.
    destruct (has_route (user w1)); [| frame].
    apply preserves_bind; [frame |]. intros current.
    apply preserves_bind; [frame |]. intros count.
    apply preserves_bind.
    - apply preserves_for_each. intros i a. apply lookahead_slot_beside.
    - intros locals. destruct (negb (snd locals)); [| frame].
      apply check_walking_away_beside. }
  pose proof (Hp _ _ _ H) as Hb. unfold beside_the_route in Hb.
  cbn in Hb. injection Hb as -> -> -> -> -> ->.
  repeat split; reflexivity.
Qed.

Lemma position_kept_refl (w : world) : position_kept_or_cleared w w.
Proof. left. reflexivity. Qed.

Lemma position_kept_trans (x y z : world) :
  position_kept_or_cleared x y -> position_kept_or_cleared y z ->
  position_kept_or_cleared x z.
Proof.
  unfold position_kept_or_cleared. intros [H1 | H1] [H2 | H2].
  - left. congruence.
  - right. exact H2.
  - right. congruence.
  - right. exact H2.
Qed.

Ltac position_kept :=
  repeat first
    [ apply evolves_ret; exact position_kept_refl
    | apply evolves_raise; exact position_kept_refl
    | apply evolves_get; exact position_kept_refl
    | apply evolves_required; exact position_kept_refl
    | apply evolves_modify; intros ?;
        first [left; reflexivity | right; reflexivity]
    | apply evolves_bind; [exact position_kept_trans | | intros ?]
    | match goal with
      | |- evolves _ (if ?c then _ else _) => destruct c
      | |- evolves _ (match ?c with _ => _ end) => destruct c
      end ].

(** [_message_route] leaves the position where it is or, on arrival,
    deletes it. *)
Lemma message_route_position : evolves position_kept_or_cleared _message_route.
Proof.
  unfold _message_route, send, del_route, del_checkpts, del_curr_chkpt.
  position_kept.
Qed.

Lemma position_from_kept (c : Z) (w w' : world) :
  position_kept_or_cleared w w' -> position_from c w -> position_from c w'.
Proof.
  unfold position_kept_or_cleared, position_from.
  intros [H | H] Hc; [rewrite H; exact Hc | left; exact H].
Qed.

Lemma lookahead_slot_position (location : coord) (c count i : Z)
  (locals : option Z * bool) (w w' : world) (res : result (option Z * bool)) :
  0 <= i < N ->
  lookahead_slot location c count i locals w = (w', res) ->
  position_from c w -> position_from c w'.
Proof.
  intros Hi. unfold lookahead_slot. unfold bind at 1.
  destruct (measure_slot location c count i (fst locals) w)
    as [w1 [cd | e]] eqn:Hm;
    pose proof (measure_slot_state _ _ _ _ _ _ _ _ Hm) as ->.
  2:{ intros [= <- _]. auto. }
  destruct (is_reached cd).
  2:{ intros [= <- _]. auto. }
  unfold bind at 1.
  destruct (reach_checkpoint c count i w) as [w2 [[] | e]] eqn:Hr.
  - unfold ret. intros [= <- _] _. revert Hr.
    unfold reach_checkpoint.
    rewrite (bind_ok (modify _) _ _ _ tt eq_refl).
    intros Hr.
    assert (Hp : evolves position_kept_or_cleared
              (do message <~ _message_route ;;;
               run send (Guidance message) ;;;
               if c + i + 1 =? count - 1
               then do w <~ get ;;;
                    run required KeyError (target (user w)) ;;;
                    send ShareOffer
               else ret tt)).
    { apply evolves_bind;
        [exact position_kept_trans | apply message_route_position |].
      intros msg. unfold send. position_kept. }
    apply (position_from_kept c _ _ (Hp _ _ _ Hr)).
    right. exists (c + i + 1). split; [reflexivity | lia].
  - intros [= <- _] _. revert Hr.
    unfold reach_checkpoint.
    rewrite (bind_ok (modify _) _ _ _ tt eq_refl).
    intros Hr.
    assert (Hp : evolves position_kept_or_cleared
              (do message <~ _message_route ;;;
               run send (Guidance message) ;;;
               if c + i + 1 =? count - 1
               then do w <~ get ;;;
                    run required KeyError (target (user w)) ;;;
                    send ShareOffer
               else ret tt)).
    { apply evolves_bind;
        [exact position_kept_trans | apply message_route_position |].
      intros msg. unfold send. position_kept. }
    apply (position_from_kept c _ _ (Hp _ _ _ Hr)).
    right. exists (c + i + 1). split; [reflexivity | lia].
Qed.

(** X13. A location message never moves the position on the route
    backwards and never more than N = 3 checkpoints ahead: after the
    handler, however it ends, the position is gone (the route was
    completed) or it is between the old one and the old one plus 3. *)
Theorem position_never_moves_back (w w' : world) (location : coord) (now : Q)
  (res : result unit) (c : Z) :
  curr_chkpt (user w) = Some c ->
  _update_and_check location now w = (w', res) ->
  curr_chkpt (user w') = None \/
  exists c', curr_chkpt (user w') = Some c' /\ c <= c' <= c + N.
Proof.
  intros Hc. rewrite update_and_check_split.
  rewrite (bind_ok get _ _ _ _ eq_refl).
  assert (Hstart : position_from c (store_location location now w)).
  { right. exists c. split; [exact Hc | unfold N; lia]. }
  destruct (has_route (user (store_location location now w))).
  2:{ intros [= <- _]. exact Hstart. }
  destruct (store_location_user location now w) as (_ & _ & H3 & _).
  rewrite H3, Hc. cbn [required].
  rewrite (bind_ok (ret c) _ _ _ c eq_refl).
  destruct (checkpts (user (store_location location now w))) as [count |];
    cbn [required].
  2:{ intros [= <- _]. exact Hstart. }
  rewrite (bind_ok (ret count) _ _ _ count eq_refl).
  intros H.
  assert (Hev : evolves (fun x y => position_from c x -> position_from c y)
            (do locals <~ for_each (lookahead_slot location c count)
                                   (range N) (None, false) ;;;
             if negb (snd locals) then check_walking_away location c
             else ret tt)).
  { apply evolves_bind; [auto | |].
    - apply evolves_for_each; [auto | auto |].
      intros i a Hi s s' r. apply lookahead_slot_position.
      change (range N) with [0; 1; 2] in Hi. unfold N.
      cbn in Hi. lia.
    - intros locals. destruct (negb (snd locals)).
      + intros s s' r Hr.
        assert (Hk : preserves (fun w => curr_chkpt (user w))
                  (check_walking_away location c))
          by (unfold check_walking_away, send, set_tapped; frame).
        unfold position_from. rewrite (Hk _ _ _ Hr). auto.
      + apply evolves_ret. auto. }
  exact (Hev _ _ _ H Hstart).
Qed.

(** [_message_route] at a middle checkpoint: nothing is sent or stored,
    the text for the checkpoint is returned. *)
Lemma message_route_middle (w : world) (r : list segment) (location : coord)
  (current count : Z) (previous here : segment) (len : Q) (street : string) :
  route (user w) = Some r -> loc (user w) = Some location ->
  curr_chkpt (user w) = Some current -> checkpts (user w) = Some count ->
  current <> 0 -> current < count - 1 ->
  py_index r (current - 1) = Some previous -> py_index r current = Some here ->
  s_length here = Some len -> s_current_name here = Some street ->
  _message_route w =
    (w, Ok (CheckpointMessage current (count - 1) location street
              (classify_turn (s_angle previous)) (pyround len))).
Proof.
  intros Hr Hl Hc Hn H0 Hmid Hp Hh Hlen Hst. unfold _message_route.
  rewrite (bind_ok get _ _ _ _ eq_refl).
  rewrite Hr, Hl, Hc, Hn. cbn [required].
  rewrite !(bind_ok (ret _) _ w w _ eq_refl).
  apply Z.eqb_neq in H0. rewrite H0.
  apply Z.ltb_lt in Hmid. rewrite Hmid.
  rewrite Hp. cbn [required]. rewrite (bind_ok (ret _) _ w w _ eq_refl).
  rewrite Hh. cbn [required]. rewrite (bind_ok (ret _) _ w w _ eq_refl).
  rewrite Hlen. cbn [required]. rewrite (bind_ok (ret _) _ w w _ eq_refl).
  rewrite Hst. reflexivity.
Qed.

(** X14. The look-ahead lets the user skip a checkpoint: a location that is
    within reach of the checkpoint after the current one, and of no other
    of the three looked at, moves the position two ahead in one step and
    sends the one message for the checkpoint arrived at, whose turn is
    taken from the segment of the checkpoint just reached. *)
Theorem skipped_checkpoint_is_caught_up (w : world) (location : coord) (now : Q)
  (r : list segment) (c count : Z) (here ahead after : segment)
  (len : Q) (street : string) :
  route (user w) = Some r ->
  checkpts (user w) = Some count -> curr_chkpt (user w) = Some c ->
  0 <= c -> c + 2 < count - 1 ->
  py_index r c = Some here -> py_index r (c + 1) = Some ahead ->
  py_index r (c + 2) = Some after ->
  is_reached (Some (pyround (haversine (reversed location)
                                       (reversed (s_mid here))))) = false ->
  1 <= pyround (haversine (reversed location) (reversed (s_mid ahead))) <= 19 ->
  is_reached (Some (pyround (haversine (reversed location)
                                       (reversed (s_mid after))))) = false ->
  s_length after = Some len -> s_current_name after = Some street ->
  exists w',
    _update_and_check location now w = (w', Ok tt) /\
    curr_chkpt (user w') = Some (c + 2) /\
    route (user w') = Some r /\
    sent w' = sent w ++
      [Guidance (CheckpointMessage (c + 2) (count - 1) location street
                   (classify_turn (s_angle ahead)) (pyround len))].
Proof.
  intros Hr Hn Hc Hc0 Hmid Hhere Hahead Hafter Hfar0 Hnear1 Hfar2 Hlen Hst.
  pose proof (py_index_some_nonempty _ _ _ Hhere) as Hne.
  rewrite (update_with_route w location now r c count Hr Hne Hc Hn).
  destruct (store_location_user location now w)
    as (S1 & S2 & S3 & S4 & _ & S6 & _ & _ & _ & S10 & _).
  set (w0 := store_location location now w) in *.
  change (range N) with [0; 1; 2].
  set (d0 := pyround (haversine (reversed location) (reversed (s_mid here))))
    in *.
  set (d1 := pyround (haversine (reversed location) (reversed (s_mid ahead))))
    in *.
  set (d2 := pyround (haversine (reversed location) (reversed (s_mid after))))
    in *.
  (* pass 0: the current checkpoint is not within reach *)
  assert (Hs0 : lookahead_slot location c count 0 (None, false) w0
                = (w0, Ok (Some d0, false))).
  { apply (lookahead_slot_skip _ _ _ _ (None, false)); [| exact Hfar0].
    eapply measure_slot_in_range; [rewrite S1; exact Hr | lia |].
    rewrite Z.add_0_r. exact Hhere. }
  (* pass 1: the next one is *)
  set (w1 := set_user (set_curr_chkpt (Some (c + 1 + 1))) w0).
  set (msg := CheckpointMessage (c + 1 + 1) (count - 1) location street
                (classify_turn (s_angle ahead)) (pyround len)).
  assert (Hmsg : _message_route w1 = (w1, Ok msg)).
  { apply message_route_middle with (r := r) (here := after).
    - exact Hr.
    - reflexivity.
    - reflexivity.
    - exact Hn.
    - lia.
    - lia.
    - replace (c + 1 + 1 - 1) with (c + 1) by lia. exact Hahead.
    - replace (c + 1 + 1) with (c + 2) by lia. exact Hafter.
    - exact Hlen.
    - exact Hst. }
  set (w2 := record_sent (Guidance msg) w1).
  assert (Hreach : reach_checkpoint c count 1 w0 = (w2, Ok tt)).
  { unfold reach_checkpoint.
    rewrite (bind_ok _ _ w0 w1 tt eq_refl).
    rewrite (bind_ok _ _ _ _ _ Hmsg).
    rewrite (bind_ok _ _ w1 w2 tt eq_refl).
    replace (c + 1 + 1 =? count - 1) with false
      by (symmetry; apply Z.eqb_neq; lia).
    reflexivity. }
  assert (Hs1 : lookahead_slot location c count 1 (Some d0, false) w0
                = (w2, Ok (Some d1, true))).
  { rewrite (lookahead_slot_take _ _ _ _ (Some d0, false) _ (Some d1)).
    - rewrite (bind_ok _ _ _ _ _ Hreach). reflexivity.
    - eapply measure_slot_in_range; [rewrite S1; exact Hr | lia | exact Hahead].
    - apply is_reached_iff. unfold NEAR_DST. lia. }
  (* pass 2: the one after it, now the current one, is not *)
  assert (Hs2 : lookahead_slot location c count 2 (Some d1, true) w2
                = (w2, Ok (Some d2, true))).
  { apply (lookahead_slot_skip _ _ _ _ (Some d1, true)); [| exact Hfar2].
    eapply measure_slot_in_range; [exact Hr | lia | exact Hafter]. }
  assert (Hloop : for_each (lookahead_slot location c count) [0; 1; 2]
                    (None, false) w0 = (w2, Ok (Some d2, true))).
  { cbn [for_each]. rewrite (bind_ok _ _ _ _ _ Hs0).
    rewrite (bind_ok _ _ _ _ _ Hs1). rewrite (bind_ok _ _ _ _ _ Hs2).
    reflexivity. }
  rewrite (bind_ok _ _ _ _ _ Hloop). cbn [snd negb].
  exists w2. split; [reflexivity |].
  split; [cbn; f_equal; lia |].
  split; [exact Hr |].
  cbn. unfold msg. replace (c + 1 + 1) with (c + 2) by lia. reflexivity.
Qed.

End Position.

(** ** On the way to the first checkpoint *)

Section FirstLeg.
Context {L : Lib}.
Import Bot.

(** X15. While the user is on the way to the first checkpoint of a route
    that [get_directions] built, no walking-away warning is ever sent:
    the first segment has no length to compare the distance with.  A
    location message that reaches none of the checkpoints looked at only
    stores the location, however far from the route the user is. *)
Theorem no_warning_before_the_first_checkpoint (w : world)
  (g g' : MultiDiGraph) (source destination location : coord) (now : Q)
  (rt : list segment) :
  Guide.anchors_fresh g -> Guide.edges_closed g ->
  (forall p, shortest_path g (fst (get_nearest_node g source))
                             (fst (get_nearest_node g destination)) = Some p ->
             p <> [] /\ Forall (fun n => is_Some (g_node g !! n)) p) ->
  Guide.get_directions source destination g = (g', Ok rt) ->
  route (user w) = Some rt ->
  checkpts (user w) = Some (Z.of_nat (length rt)) ->
  curr_chkpt (user w) = Some 0 ->
  (forall i next, 0 <= i < N -> py_index rt i = Some next ->
     is_reached (Some (pyround (haversine (reversed location)
                                          (reversed (s_mid next))))) = false) ->
  _update_and_check location now w = (store_location location now w, Ok tt).
Proof.
  intros Hfresh Hclosed Hpath Hgd Hr Hn Hc Hfar.
  destruct (first_segment_window _ _ _ _ _ Hfresh Hclosed Hpath Hgd)
    as (first & g_mid & a1 & c & Hfirst & Hm & _ & Es).
  assert (Hlen : s_length first = None).
  { destruct (make_segment_ok_inv _ _ _ _ _ _ Hm)
      as (_ & _ & _ & sm & md & Hsm & _ & Hl & _).
    rewrite Es in Hsm. injection Hsm as <-. exact Hl. }
  assert (Hne : rt <> []) by (intros ->; discriminate).
  rewrite (update_with_route w location now rt 0 _ Hr Hne Hc Hn).
  destruct (store_location_user location now w) as (S1 & _).
  set (w0 := store_location location now w) in *.
  destruct (loop_quiet location 0 (Z.of_nat (length rt)) rt w0 (range N)
              (None, false)) as [cd Hloop].
  - rewrite S1. exact Hr.
  - reflexivity.
  - intros i Hi Hlt.
    assert (Hi3 : 0 <= i < N).
    { change (range N) with [0; 1; 2] in Hi. unfold N. cbn in Hi. lia. }
    destruct (py_index_in_range rt (0 + i)) as [next Hnext]; [lia |].
    exists next. split; [exact Hnext |].
    apply (Hfar i next Hi3). rewrite Z.add_0_l in Hnext. exact Hnext.
  - rewrite (bind_ok _ _ _ _ _ Hloop). cbn [snd negb].
    unfold check_walking_away. rewrite (bind_ok get _ _ _ _ eq_refl).
    rewrite S1, Hr. cbn [required].
    rewrite (bind_ok (ret rt) _ _ _ _ eq_refl).
    assert (H0 : py_index rt 0 = Some first).
    { rewrite py_index_nonneg; [exact Hfirst |].
      destruct rt; [congruence | cbn; lia]. }
    rewrite H0. cbn [required].
    rewrite (bind_ok (ret first) _ _ _ _ eq_refl).
    cbv zeta. rewrite Hlen. reflexivity.
Qed.

End FirstLeg.

(** ** [/cancel] and the wording of turns *)

Section Cancel.
Context {L : Lib}.
Import Bot.


(** X17. The two wordings of the angle agree: the side named at the last
    checkpoint is in front where the turn wording says to go straight, at
    the right where it names a turn to the right, at the left where it
    names a turn to the left, for every angle and for none. *)
Theorem side_wording_agrees_with_turn_wording (angle : option Q) :
  classify_side angle =
    match classify_turn angle with
    | GoStraight => InFront
    | TurnHalfRight | TurnRight | TurnStrongRight => AtRight
    | TurnStrongLeft | TurnLeft | TurnHalfLeft => AtLeft
    end.
Proof.
  destruct angle as [a |]; [| reflexivity].
  unfold classify_side, classify_turn.
  destruct (float_truthy a); [| reflexivity].
  destruct (Qlt_bool 0 a && Qlt_bool a (45 # 2)); [reflexivity |].
  destruct (Qlt_bool a (135 # 2)) eqn:H1.
  { apply Qlt_bool_iff in H1.
    replace (Qlt_bool a 180) with true; [reflexivity |].
    symmetry. apply Qlt_bool_iff. lra. }
  destruct (Qlt_bool a (225 # 2)) eqn:H2.
  { apply Qlt_bool_iff in H2.
    replace (Qlt_bool a 180) with true; [reflexivity |].
    symmetry. apply Qlt_bool_iff. lra. }
  destruct (Qlt_bool a 180) eqn:H3; [reflexivity |].
  apply Qlt_bool_false_iff in H3.
  destruct (Qlt_bool a (495 # 2)) eqn:H4.
  { apply Qlt_bool_iff in H4.
    replace (Qlt_bool a (675 # 2)) with true; [reflexivity |].
    symmetry. apply Qlt_bool_iff. lra. }
  destruct (Qlt_bool a (585 # 2)) eqn:H5.
  { apply Qlt_bool_iff in H5.
    replace (Qlt_bool a (675 # 2)) with true; [reflexivity |].
    symmetry. apply Qlt_bool_iff. lra. }
  destruct (Qlt_bool a (675 # 2)); reflexivity.
Qed.

End Cancel.

(** * Concrete runs *)

Lemma reach_test_witness :
  exists r next,
    Bot.route (Bot.user Sample.navigating) = Some r /\
    py_index r 0 = Some next /\
    (0 <= Sample.meridian_distance
            (reversed (Sample.at_metres (1803 # 10))) (reversed (s_mid next)))%Q /\
    (39 # 2 <= Sample.meridian_distance
            (reversed (Sample.at_metres (1803 # 10))) (reversed (s_mid next)))%Q /\
    (Sample.meridian_distance
       (reversed (Sample.at_metres (1803 # 10))) (reversed (s_mid next)) < 20)%Q /\
    Bot.lookahead_slot (L := Sample.street_lib) (Sample.at_metres (1803 # 10))
      0 3 0 (None, false) Sample.navigating
      = (Sample.navigating, Ok (Some 20, false)).
Proof.
  eexists. eexists.
  split; [vm_compute; reflexivity |].
  split; [vm_compute; reflexivity |].
  assert (H0 : (0 <= Sample.meridian_distance
                  (reversed (Sample.at_metres (1803 # 10)))
                  (reversed (2.17%Q, (46036730 # 1111950)%Q)))%Q)
    by (vm_compute; discriminate).
  split; [exact H0 |].
  split; [vm_compute; discriminate |].
  split; [vm_compute; reflexivity |].
  refine (proj1 (proj2 (proj2
    (reach_test_uses_rounded_distance (L := Sample.street_lib)
       Sample.navigating (Sample.at_metres (1803 # 10)) 0 3 0 (None, false)
       _ _ _ _ _ _))) _ _).
  - vm_compute; reflexivity.
  - lia.
  - vm_compute; reflexivity.
  - exact H0.
  - vm_compute; discriminate.
  - vm_compute; reflexivity.
Defined.
Lemma standing_on_checkpoint_witness :
  exists r next,
    Bot.route (Bot.user Sample.navigating) = Some r /\
    Bot.checkpts (Bot.user Sample.navigating) = Some (Z.of_nat (length r)) /\
    Bot.curr_chkpt (Bot.user Sample.navigating) = Some 0 /\
    py_index r 0 = Some next /\
    (Sample.meridian_distance (reversed (Sample.at_metres 200))
                              (reversed (s_mid next)) == 0)%Q /\
    exists w' res evs,
      Bot._update_and_check (L := Sample.street_lib) (Sample.at_metres 200)
        1010 Sample.navigating = (w', res) /\
      Bot.curr_chkpt (Bot.user w') = Some 0 /\
      Bot.route (Bot.user w') = Some r /\
      Bot.sent w' = Bot.sent Sample.navigating ++ evs /\
      forall m, ~ In (Bot.Guidance m) evs.
Proof.
  eexists. eexists.
  split; [vm_compute; reflexivity |].
  split; [vm_compute; reflexivity |].
  split; [vm_compute; reflexivity |].
  split; [vm_compute; reflexivity |].
  split; [vm_compute; reflexivity |].
  eapply (standing_on_checkpoint_not_reached (L := Sample.street_lib)
            Sample.navigating (Sample.at_metres 200) 1010 _ 0).
  - vm_compute; reflexivity.
  - vm_compute; reflexivity.
  - vm_compute; reflexivity.
  - lia.
  - vm_compute; reflexivity.
  - vm_compute; reflexivity.
  - intros i further Hi Hx. unfold Bot.N in Hi.
    assert (Hcases : i = 1 \/ i = 2) by lia.
    destruct Hcases as [-> | ->]; vm_compute in Hx; injection Hx as <-;
      vm_compute; discriminate.
Defined.
Lemma walking_away_witness :
  exists r next w1 cd,
    Bot.route (Bot.user Sample.past_first_checkpoint) = Some r /\
    Bot.curr_chkpt (Bot.user Sample.past_first_checkpoint) = Some 1 /\
    Bot.checkpts (Bot.user Sample.past_first_checkpoint) = Some 3 /\
    Bot.for_each
      (Bot.lookahead_slot (L := Sample.street_lib) (Sample.at_metres (-200)) 1 3)
      (Bot.range Bot.N) (None, false)
      (Bot.store_location (Sample.at_metres (-200)) 1020
         Sample.past_first_checkpoint) = (w1, Ok (cd, false)) /\
    py_index r 1 = Some next /\
    s_length next = Some 100%Q /\
    exists w',
      Bot._update_and_check (L := Sample.street_lib) (Sample.at_metres (-200))
        1020 Sample.past_first_checkpoint = (w', Ok tt) /\
      Bot.sent w' = Bot.sent Sample.past_first_checkpoint
                    ++ [Bot.LostSuggestRecompute].
Proof.
  eexists. eexists. eexists. eexists.
  match goal with
  | |- ?A /\ ?B /\ ?C /\ ?D /\ ?E /\ ?F /\ _ =>
      assert (HA : A) by (vm_compute; reflexivity);
      assert (HB : B) by (vm_compute; reflexivity);
      assert (HC : C) by (vm_compute; reflexivity);
      assert (HD : D) by (vm_compute; reflexivity);
      assert (HE : E) by (vm_compute; reflexivity);
      assert (HF : F) by (vm_compute; reflexivity)
  end.
  repeat (split; [assumption |]).
  destruct (walking_away_warnings (L := Sample.street_lib)
              _ _ _ _ _ _ _ _ (repeat false 7) _ _ HA HB HC HD HE HF)
    as (w' & Hrun & Hlost & _).
  - discriminate.
  - vm_compute; reflexivity.
  - cbn; lia.
  - exists w'. split; [exact Hrun |]. apply Hlost. vm_compute; reflexivity.
Defined.

(** On a segment of length 0.0: no checkpoint is reached, the length is
    present, the rounded distance 300 exceeds 0 + 250, and nothing is
    sent. *)
Lemma zero_length_segment_gets_no_warning :
  exists r next w1 cd,
    Bot.route (Bot.user Sample.on_zero_length_segment) = Some r /\
    Bot.curr_chkpt (Bot.user Sample.on_zero_length_segment) = Some 1 /\
    Bot.checkpts (Bot.user Sample.on_zero_length_segment) = Some 4 /\
    Bot.for_each
      (Bot.lookahead_slot (L := Sample.street_lib) (Sample.at_metres (-100)) 1 4)
      (Bot.range Bot.N) (None, false)
      (Bot.store_location (Sample.at_metres (-100)) 1020
         Sample.on_zero_length_segment) = (w1, Ok (cd, false)) /\
    py_index r 1 = Some next /\
    s_length next = Some 0%Q /\
    pyround (Sample.meridian_distance (reversed (Sample.at_metres (-100)))
                                      (reversed (s_mid next))) = 300 /\
    (0 + inject_Z Bot.FAR_AWAY_DST < inject_Z 300)%Q /\
    Bot._update_and_check (L := Sample.street_lib) (Sample.at_metres (-100))
      1020 Sample.on_zero_length_segment
      = (Bot.store_location (Sample.at_metres (-100)) 1020
           Sample.on_zero_length_segment, Ok tt) /\
    Bot.sent (Bot.store_location (Sample.at_metres (-100)) 1020
                Sample.on_zero_length_segment)
      = Bot.sent Sample.on_zero_length_segment.
Proof.
  eexists. eexists. eexists. eexists.
  match goal with
  | |- ?A /\ ?B /\ ?C /\ ?D /\ ?E /\ ?F /\ ?G /\ ?H /\ _ =>
      assert (HA : A) by (vm_compute; reflexivity);
      assert (HB : B) by (vm_compute; reflexivity);
      assert (HC : C) by (vm_compute; reflexivity);
      assert (HD : D) by (vm_compute; reflexivity);
      assert (HE : E) by (vm_compute; reflexivity);
      assert (HF : F) by (vm_compute; reflexivity);
      assert (HG : G) by (vm_compute; reflexivity);
      assert (HH : H) by (vm_compute; reflexivity)
  end.
  repeat (split; [assumption |]).
  exact (zero_length_segment_is_never_warned (L := Sample.street_lib)
           _ _ _ _ _ _ _ 0%Q _ _ HA HB HC HD HE HF (Qeq_refl 0)).
Defined.

Lemma completion_witness :
  exists r next,
    Bot.route (Bot.user Sample.past_first_checkpoint) = Some r /\
    Bot.checkpts (Bot.user Sample.past_first_checkpoint)
      = Some (Z.of_nat (length r)) /\
    (3 <= length r)%nat /\
    Bot.curr_chkpt (Bot.user Sample.past_first_checkpoint)
      = Some (Z.of_nat (length r) - 2) /\
    Bot.target (Bot.user Sample.past_first_checkpoint) = Some "Tibidabo" /\
    py_index r (Z.of_nat (length r) - 2) = Some next /\
    pyround (Sample.meridian_distance (reversed (Sample.at_metres 295))
                                      (reversed (s_mid next))) = 5 /\
    exists w' final,
      py_index r (-1) = Some final /\
      Bot._update_and_check (L := Sample.street_lib) (Sample.at_metres 295)
        1020 Sample.past_first_checkpoint = (w', Raise KeyError) /\
      Bot.route (Bot.user w') = None /\ Bot.checkpts (Bot.user w') = None /\
      Bot.curr_chkpt (Bot.user w') = None /\
      Bot.sent w' = Bot.sent Sample.past_first_checkpoint ++
        [Bot.ArrivalPhoto (reversed (Sample.at_metres 295))
                          (reversed (s_mid final));
         Bot.Guidance (Bot.ArrivalMessage
           (pyround (Sample.meridian_distance (reversed (Sample.at_metres 295))
                                              (reversed (s_mid final))))
           (Bot.classify_side (s_angle next)));
         Bot.ShareOffer].
Proof.
  eexists. eexists.
  match goal with
  | |- ?A /\ ?B /\ ?C /\ ?D /\ ?E /\ ?F /\ ?G /\ _ =>
      assert (HA : A) by (vm_compute; reflexivity);
      assert (HB : B) by (vm_compute; reflexivity);
      assert (HC : C) by (cbn; lia);
      assert (HD : D) by (vm_compute; reflexivity);
      assert (HE : E) by (vm_compute; reflexivity);
      assert (HF : F) by (vm_compute; reflexivity);
      assert (HG : G) by (vm_compute; reflexivity)
  end.
  repeat (split; [assumption |]).
  apply (completion_raises_key_error (L := Sample.street_lib)
           _ _ _ _ _ _ HA HB HC HD HE HF).
  change (@haversine Sample.street_lib) with Sample.meridian_distance.
  rewrite HG. lia.
Defined.
Lemma timer_outlives_completion_witness :
  exists r w1 res,
    Bot.route (Bot.user Sample.past_first_checkpoint) = Some r /\
    Bot._update_and_check (L := Sample.street_lib) (Sample.at_metres 295) 1020
      Sample.past_first_checkpoint = (w1, res) /\
    Bot.route (Bot.user w1) = None /\
    Bot.jq_running (Bot.jobs Sample.past_first_checkpoint) = true /\
    Bot.jq_jobs (Bot.jobs Sample.past_first_checkpoint) = [(60, 60)] /\
    Bot.inline_tapped (Bot.user w1) = Some (repeat false 7) /\
    Bot.jobs w1 = Bot.jobs Sample.past_first_checkpoint /\
    exists w2,
      Bot.timer_tick (L := Sample.street_lib) 1261 w1 = (w2, Ok tt) /\
      Bot.sent w2 = Bot.sent w1 ++ [Bot.InactivityWarning] /\
      Bot.route (Bot.user w2) = None.
Proof.
  eexists. eexists. eexists.
  match goal with
  | |- ?A /\ ?B /\ ?C /\ ?D /\ ?E /\ ?F /\ _ =>
      assert (HA : A) by (vm_compute; reflexivity);
      assert (HB : B) by (vm_compute; reflexivity);
      assert (HC : C) by (vm_compute; reflexivity);
      assert (HD : D) by (vm_compute; reflexivity);
      assert (HE : E) by (vm_compute; reflexivity);
      assert (HF : F) by (vm_compute; reflexivity)
  end.
  repeat (split; [assumption |]).
  apply (timer_outlives_completion (L := Sample.street_lib)
           _ _ _ _ 1261 _ _ (repeat false 7) HA HB HC HD).
  - rewrite HE. discriminate.
  - exact HF.
  - cbn; lia.
  - vm_compute; reflexivity.
Defined.
Lemma two_segment_route_witness :
  exists g' rt,
    Bot.bot_map Sample.asked_for_kiosk = Some Sample.street /\
    Bot.loc (Bot.user Sample.asked_for_kiosk) = Some (Sample.at_metres 190) /\
    Bot.target (Bot.user Sample.asked_for_kiosk) = Some "Kiosk" /\
    geocode (Lib := Sample.street_lib) "Kiosk"
      = Some (reversed (Sample.at_metres 215)) /\
    Guide.get_directions (L := Sample.street_lib)
      (reversed (Sample.at_metres 190)) (reversed (Sample.at_metres 215))
      Sample.street = (g', Ok rt) /\
    length rt = 2%nat /\
    exists w' first,
      py_index rt 0 = Some first /\
      Bot._compute_route (L := Sample.street_lib) Sample.asked_for_kiosk
        = (w', Ok tt) /\
      Bot.sent w' = Bot.sent Sample.asked_for_kiosk ++
        [Bot.Computing "Kiosk";
         Bot.RoutePhoto rt (reversed (Sample.at_metres 190))
                        (reversed (Sample.at_metres 215));
         Bot.TooNear
           (pyround (Sample.meridian_distance (reversed (Sample.at_metres 190))
                                              (reversed (s_mid first))
                     + Sample.meridian_distance (reversed (s_mid first))
                         (reversed (Sample.at_metres 215))))] /\
      Bot.jobs w' = Bot.jobs Sample.asked_for_kiosk.
Proof.
  eexists. eexists.
  match goal with
  | |- ?A /\ ?B /\ ?C /\ ?D /\ ?E /\ ?F /\ _ =>
      assert (HA : A) by (vm_compute; reflexivity);
      assert (HB : B) by (vm_compute; reflexivity);
      assert (HC : C) by (vm_compute; reflexivity);
      assert (HD : D) by (vm_compute; reflexivity);
      assert (HE : E) by (vm_compute; reflexivity);
      assert (HF : F) by (vm_compute; reflexivity)
  end.
  repeat (split; [assumption |]).
  apply (two_segment_route_is_too_near (L := Sample.street_lib)
           _ _ _ _ _ _ _ HA HB HC ltac:(discriminate) HD HE HF).
Defined.

Lemma too_near_adoption_witness :
  exists g' rt,
    Bot.bot_map Sample.asked_for_kiosk = Some Sample.street /\
    Bot.loc (Bot.user Sample.asked_for_kiosk) = Some (Sample.at_metres 190) /\
    Bot.target (Bot.user Sample.asked_for_kiosk) = Some "Kiosk" /\
    geocode (Lib := Sample.street_lib) "Kiosk"
      = Some (reversed (Sample.at_metres 215)) /\
    Guide.get_directions (L := Sample.street_lib)
      (reversed (Sample.at_metres 190)) (reversed (Sample.at_metres 215))
      Sample.street = (g', Ok rt) /\
    length rt = 2%nat /\
    exists w' d,
      Bot._compute_route (L := Sample.street_lib) Sample.asked_for_kiosk
        = (w', Ok tt) /\
      Bot.sent w' = Bot.sent Sample.asked_for_kiosk ++
        [Bot.Computing "Kiosk";
         Bot.RoutePhoto rt (reversed (Sample.at_metres 190))
                        (reversed (Sample.at_metres 215));
         Bot.TooNear d] /\
      Bot.user w' =
        Bot.set_curr_chkpt (Some 0)
          (Bot.set_checkpts (Some 2)
             (Bot.set_route (Some rt) (Bot.user Sample.asked_for_kiosk))) /\
      Bot.jobs w' = Bot.jobs Sample.asked_for_kiosk.
Proof.
  eexists. eexists.
  match goal with
  | |- ?A /\ ?B /\ ?C /\ ?D /\ ?E /\ ?F /\ _ =>
      assert (HA : A) by (vm_compute; reflexivity);
      assert (HB : B) by (vm_compute; reflexivity);
      assert (HC : C) by (vm_compute; reflexivity);
      assert (HD : D) by (vm_compute; reflexivity);
      assert (HE : E) by (vm_compute; reflexivity);
      assert (HF : F) by (vm_compute; reflexivity)
  end.
  repeat (split; [assumption |]).
  apply (too_near_route_is_adopted (L := Sample.street_lib)
           _ _ _ _ _ _ _ HA HB HC ltac:(discriminate) HD HE HF).
Defined.

(** C4 at the failing input: the session had no route before the call;
    the call ends in the too-near message and the session holds a route,
    a checkpoint count and a checkpoint index. *)
Lemma too_near_changes_the_session :
  Bot.route (Bot.user Sample.asked_for_kiosk) = None /\
  Bot.checkpts (Bot.user Sample.asked_for_kiosk) = None /\
  Bot.curr_chkpt (Bot.user Sample.asked_for_kiosk) = None /\
  exists w' rt,
    Bot._compute_route (L := Sample.street_lib) Sample.asked_for_kiosk
      = (w', Ok tt) /\
    last (Bot.sent w') = Some (Bot.TooNear 25) /\
    Bot.route (Bot.user w') = Some rt /\
    Bot.checkpts (Bot.user w') = Some 2 /\
    Bot.curr_chkpt (Bot.user w') = Some 0 /\
    Bot.route (Bot.user w') <> Bot.route (Bot.user Sample.asked_for_kiosk).
Proof.
  split; [vm_compute; reflexivity |].
  split; [vm_compute; reflexivity |].
  split; [vm_compute; reflexivity |].
  eexists. eexists.
  split; [vm_compute; reflexivity |].
  split; [vm_compute; reflexivity |].
  split; [vm_compute; reflexivity |].
  split; [vm_compute; reflexivity |].
  split; [vm_compute; reflexivity |].
  vm_compute. discriminate.
Qed.
(** The route stored on the too-near path is tracked like any other: the
    next location message, 5 m before its first midpoint, is answered
    with the arrival photo, the arrival message and the share offer, and
    the handler ends in KeyError as on every completion. *)
Lemma too_near_route_is_then_tracked :
  exists w' w'' source destination,
    Bot._compute_route (L := Sample.street_lib) Sample.asked_for_kiosk
      = (w', Ok tt) /\
    Bot._update_and_check (L := Sample.street_lib) (Sample.at_metres 195) 1010
      w' = (w'', Raise KeyError) /\
    Bot.sent w'' = Bot.sent w' ++
      [Bot.ArrivalPhoto source destination;
       Bot.Guidance (Bot.ArrivalMessage 20 Bot.InFront);
       Bot.ShareOffer] /\
    Bot.jobs w'' = Bot.jobs Sample.asked_for_kiosk.
Proof.
  eexists. eexists. eexists. eexists.
  split; [vm_compute; reflexivity |].
  split; [vm_compute; reflexivity |].
  split; vm_compute; reflexivity.
Qed.

(** C1 as it stands fails: the route built from 190 m to the kiosk at
    215 m has exactly two segments, and the photo of that route is sent
    to the user before the too-near message. *)
Lemma two_segment_route_is_sent_to_the_user :
  exists g' rt w',
    Guide.get_directions (L := Sample.street_lib)
      (reversed (Sample.at_metres 190)) (reversed (Sample.at_metres 215))
      Sample.street = (g', Ok rt) /\
    length rt = 2%nat /\
    Bot._compute_route (L := Sample.street_lib) Sample.asked_for_kiosk
      = (w', Ok tt) /\
    Bot.sent Sample.asked_for_kiosk = [] /\
    Bot.sent w' =
      [Bot.Computing "Kiosk";
       Bot.RoutePhoto rt (reversed (Sample.at_metres 190))
                      (reversed (Sample.at_metres 215));
       Bot.TooNear 25].
Proof.
  eexists. eexists. eexists.
  split; [vm_compute; reflexivity |].
  split; [vm_compute; reflexivity |].
  split; [vm_compute; reflexivity |].
  split; vm_compute; reflexivity.
Qed.


Lemma out_of_bounds_witness :
  (snd (Sample.nearest_node Sample.street (reversed (Sample.at_metres (-2500))))
     == 2600)%Q /\
  (snd (Sample.nearest_node Sample.street (reversed (Sample.at_metres 95)))
     == 5)%Q /\
  (snd (Sample.nearest_node Sample.street (reversed (Sample.at_metres 3000)))
     == 2500)%Q /\
  Guide.get_directions (L := Sample.street_lib)
    (reversed (Sample.at_metres (-2500))) (reversed (Sample.at_metres 3000))
    Sample.street
    = (Sample.street, Raise (AssertionError "source is out of bounds")) /\
  Guide.get_directions (L := Sample.street_lib)
    (reversed (Sample.at_metres 95)) (reversed (Sample.at_metres 3000))
    Sample.street
    = (Sample.street, Raise (AssertionError "destination is out of bounds")).
Proof.
  split; [vm_compute; reflexivity |].
  split; [vm_compute; reflexivity |].
  split; [vm_compute; reflexivity |].
  split.
  - apply (proj1 (out_of_bounds_from_2000 (L := Sample.street_lib)
                    Sample.street (reversed (Sample.at_metres (-2500)))
                    (reversed (Sample.at_metres 3000)))).
    vm_compute. discriminate.
  - apply (proj1 (proj2 (out_of_bounds_from_2000 (L := Sample.street_lib)
                    Sample.street (reversed (Sample.at_metres 95))
                    (reversed (Sample.at_metres 3000))))).
    + vm_compute. reflexivity.
    + vm_compute. discriminate.
Defined.

(** C9 as it stands fails at the bound itself: a source whose snap
    distance is exactly 2000 m, which does not exceed FARTHEST_NODE, is
    reported out of bounds; and when source and destination are both too
    far, the destination is not the one reported. *)
Lemma snap_distance_2000_is_out_of_bounds :
  (snd (Sample.nearest_node Sample.street (reversed (Sample.at_metres (-1900))))
     == inject_Z Guide.FARTHEST_NODE)%Q /\
  (snd (Sample.nearest_node Sample.street (reversed (Sample.at_metres 290)))
     <= inject_Z Guide.FARTHEST_NODE)%Q /\
  Guide.get_directions (L := Sample.street_lib)
    (reversed (Sample.at_metres (-1900))) (reversed (Sample.at_metres 290))
    Sample.street
    = (Sample.street, Raise (AssertionError "source is out of bounds")) /\
  (inject_Z Guide.FARTHEST_NODE <
     snd (Sample.nearest_node Sample.street (reversed (Sample.at_metres 3000))))%Q /\
  Guide.get_directions (L := Sample.street_lib)
    (reversed (Sample.at_metres (-2500))) (reversed (Sample.at_metres 3000))
    Sample.street
    <> (Sample.street, Raise (AssertionError "destination is out of bounds")).
Proof.
  split; [vm_compute; reflexivity |].
  split; [vm_compute; discriminate |].
  split; [vm_compute; reflexivity |].
  split; [vm_compute; reflexivity |].
  vm_compute. discriminate.
Qed.
Lemma street_anchors_fresh : Guide.anchors_fresh Sample.street.
Proof.
  intros n Hn. unfold Guide.anchors in Hn.
  rewrite !elem_of_cons, elem_of_nil in Hn.
  destruct Hn as [-> | [-> | [-> | []]]]; vm_compute; reflexivity.
Qed.

Lemma street_edges_closed : Guide.edges_closed Sample.street.
Proof.
  intros u v [kd H]. unfold Sample.street in H. cbn [g_adj] in H.
  apply elem_of_list_to_map_2 in H.
  rewrite !elem_of_cons, elem_of_nil in H.
  destruct H as [H | [H | [H | [H | []]]]]; injection H as -> -> _;
    split; vm_compute; eauto.
Qed.

Lemma shared_graph_witness :
  exists g' rt,
    Guide.get_directions (L := Sample.street_lib)
      (reversed (Sample.at_metres 95)) (reversed (Sample.at_metres 400))
      Sample.street = (g', Ok rt) /\
    g' = Sample.street /\
    exists trimmed g_mid a1,
      Guide.insert_anchors (L := Sample.street_lib)
        (reversed (Sample.at_metres 95)) (reversed (Sample.at_metres 400))
        (Guide.splice_path trimmed) Sample.street = (g_mid, Ok tt) /\
      Guide.route_sections (L := Sample.street_lib) (Named "src_node") a1
        (drop 2 (Guide.splice_path trimmed)) g_mid = (g_mid, Ok rt) /\
      (forall n, n ∈ Guide.anchors -> is_Some (g_node g_mid !! n)) /\
      is_Some (g_adj g_mid !! (Named "dst_node", Named "end")) /\
      g_mid <> Sample.street.
Proof.
  eexists. eexists.
  match goal with
  | |- ?A /\ _ => assert (HA : A) by (vm_compute; reflexivity)
  end.
  split; [exact HA |].
  apply (working_nodes_pass_through_shared_graph (L := Sample.street_lib)
           _ _ _ _ _ street_anchors_fresh street_edges_closed).
  - intros p Hp. vm_compute in Hp. injection Hp as <-.
    repeat constructor; vm_compute; eauto.
  - exact HA.
Defined.

(** C8 as it stands fails: the route from 95 m to 400 m up the street is
    built on the shared graph after 'src_node' and the edge from
    'dst_node' to 'end', which the street does not have, were added to
    it. *)
Lemma shared_graph_is_changed_on_the_way :
  exists g_mid rt,
    Guide.get_directions (L := Sample.street_lib)
      (reversed (Sample.at_metres 95)) (reversed (Sample.at_metres 400))
      Sample.street = (Sample.street, Ok rt) /\
    Guide.insert_anchors (L := Sample.street_lib)
      (reversed (Sample.at_metres 95)) (reversed (Sample.at_metres 400))
      (Guide.splice_path [OsmNode 2; OsmNode 3]) Sample.street
      = (g_mid, Ok tt) /\
    Guide.route_sections (L := Sample.street_lib) (Named "src_node") (OsmNode 2)
      (drop 2 (Guide.splice_path [OsmNode 2; OsmNode 3])) g_mid
      = (g_mid, Ok rt) /\
    g_node Sample.street !! Named "src_node" = None /\
    is_Some (g_node g_mid !! Named "src_node") /\
    g_adj Sample.street !! (Named "dst_node", Named "end") = None /\
    is_Some (g_adj g_mid !! (Named "dst_node", Named "end")) /\
    g_mid <> Sample.street.
Proof.
  eexists. eexists.
  split; [vm_compute; reflexivity |].
  split; [vm_compute; reflexivity |].
  split; [vm_compute; reflexivity |].
  split; [vm_compute; reflexivity |].
  split; [vm_compute; eauto |].
  split; [vm_compute; reflexivity |].
  split; [vm_compute; eauto |].
  vm_compute. discriminate.
Qed.

(** ** Further runs *)

Lemma street_search_sound :
  forall p,
    shortest_path (Lib := Sample.street_lib) Sample.street
      (fst (get_nearest_node (Lib := Sample.street_lib) Sample.street
              (reversed (Sample.at_metres 95))))
      (fst (get_nearest_node (Lib := Sample.street_lib) Sample.street
              (reversed (Sample.at_metres 400)))) = Some p ->
    p <> [] /\ Forall (fun n => is_Some (g_node Sample.street !! n)) p.
Proof.
  intros p Hp. vm_compute in Hp. injection Hp as <-.
  split; [discriminate |]. repeat constructor; vm_compute; eauto.
Qed.

Lemma route_has_at_least_two_segments_witness :
  exists g' rt,
    Guide.get_directions (L := Sample.street_lib)
      (reversed (Sample.at_metres 95)) (reversed (Sample.at_metres 400))
      Sample.street = (g', Ok rt) /\
    exists p,
      shortest_path (Lib := Sample.street_lib) Sample.street
        (fst (get_nearest_node (Lib := Sample.street_lib) Sample.street
                (reversed (Sample.at_metres 95))))
        (fst (get_nearest_node (Lib := Sample.street_lib) Sample.street
                (reversed (Sample.at_metres 400)))) = Some p /\
      (2 <= length rt)%nat /\
      (length p <= length rt + 1)%nat /\
      (length rt <= length p + 1)%nat.
Proof.
  eexists. eexists.
  match goal with
  | |- ?A /\ _ => assert (HA : A) by (vm_compute; reflexivity)
  end.
  split; [exact HA |].
  exact (route_has_at_least_two_segments (L := Sample.street_lib) _ _ _ _ _
           (fun p Hp => proj1 (street_search_sound p Hp)) HA).
Defined.

Lemma consecutive_segments_witness :
  exists g' rt s1 s2,
    Guide.get_directions (L := Sample.street_lib)
      (reversed (Sample.at_metres 95)) (reversed (Sample.at_metres 400))
      Sample.street = (g', Ok rt) /\
    rt !! 0%nat = Some s1 /\ rt !! 1%nat = Some s2 /\
    s_src s2 = s_mid s1 /\ s_dst s1 = Some (s_mid s2).
Proof.
  eexists. eexists. eexists. eexists.
  match goal with
  | |- ?A /\ ?B /\ ?C /\ _ =>
      assert (HA : A) by (vm_compute; reflexivity);
      assert (HB : B) by (vm_compute; reflexivity);
      assert (HC : C) by (vm_compute; reflexivity)
  end.
  repeat (split; [assumption |]).
  exact (consecutive_segments_are_joined (L := Sample.street_lib)
           _ _ _ _ _ _ _ _ HA HB HC).
Defined.

Lemma first_segment_witness :
  exists g' rt,
    Guide.get_directions (L := Sample.street_lib)
      (reversed (Sample.at_metres 95)) (reversed (Sample.at_metres 400))
      Sample.street = (g', Ok rt) /\
    exists first,
      rt !! 0%nat = Some first /\
      s_src first = reversed (reversed (Sample.at_metres 95)) /\
      s_length first = None /\
      s_current_name first = None /\
      s_angle first = None.
Proof.
  eexists. eexists.
  match goal with
  | |- ?A /\ _ => assert (HA : A) by (vm_compute; reflexivity)
  end.
  split; [exact HA |].
  exact (first_segment_starts_at_the_source (L := Sample.street_lib)
           _ _ _ _ _ street_anchors_fresh street_edges_closed
           street_search_sound HA).
Defined.

Lemma last_segment_witness :
  exists g' rt,
    Guide.get_directions (L := Sample.street_lib)
      (reversed (Sample.at_metres 95)) (reversed (Sample.at_metres 400))
      Sample.street = (g', Ok rt) /\
    exists final,
      last rt = Some final /\
      s_mid final = reversed (reversed (Sample.at_metres 400)) /\
      s_dst final = None /\
      s_next_name final = None /\
      s_angle final = None /\
      s_length final = None /\
      s_current_name final = None.
Proof.
  eexists. eexists.
  match goal with
  | |- ?A /\ _ => assert (HA : A) by (vm_compute; reflexivity)
  end.
  split; [exact HA |].
  exact (last_segment_ends_at_the_destination (L := Sample.street_lib)
           _ _ _ _ _ street_anchors_fresh street_edges_closed
           street_search_sound HA).
Defined.

Lemma get_directions_failures_witness :
  exists g' e,
    Guide.get_directions (L := Sample.street_lib)
      (reversed (Sample.at_metres 3000)) (reversed (Sample.at_metres 400))
      Sample.street = (g', Raise e) /\
    (e = AssertionError "source is out of bounds" \/
     e = AssertionError "destination is out of bounds" \/
     lookup_failure e).
Proof.
  eexists. eexists.
  match goal with
  | |- ?A /\ _ => assert (HA : A) by (vm_compute; reflexivity)
  end.
  split; [exact HA |].
  exact (get_directions_failures (L := Sample.street_lib) _ _ _ _ _ HA).
Defined.

Lemma compute_route_always_answers_witness :
  Bot.inline_tapped (Bot.user (Walks.asking 395 "Kiosk"))
    = Some (repeat false 7) /\
  (5 <= length (repeat false 7))%nat /\
  exists w' ev l,
    Bot._compute_route (L := Walks.walk_lib) (Walks.asking 395 "Kiosk")
      = (w', Ok tt) /\
    Bot.sent w' = Bot.sent (Walks.asking 395 "Kiosk") ++ ev :: l.
Proof.
  assert (H1 : Bot.inline_tapped (Bot.user (Walks.asking 395 "Kiosk"))
               = Some (repeat false 7)) by (vm_compute; reflexivity).
  assert (H2 : (5 <= length (repeat false 7))%nat) by (cbn; lia).
  split; [exact H1 |]. split; [exact H2 |].
  exact (compute_route_always_answers (L := Walks.walk_lib) _ _ H1 H2).
Defined.

Lemma out_of_bounds_is_reported_witness :
  (inject_Z Guide.FARTHEST_NODE
     <= snd (Sample.nearest_node Sample.street
               (reversed (Sample.at_metres 3000))))%Q /\
  Bot._compute_route (L := Walks.walk_lib) (Walks.asking 3000 "Tibidabo")
    = (Bot.record_sent Bot.SourceOutside
         (Bot.record_sent (Bot.Computing "Tibidabo")
            (Walks.asking 3000 "Tibidabo")), Ok tt) /\
  (snd (Sample.nearest_node Sample.street (reversed (Sample.at_metres 95)))
     < inject_Z Guide.FARTHEST_NODE)%Q /\
  (inject_Z Guide.FARTHEST_NODE
     <= snd (Sample.nearest_node Sample.street
               (reversed (Sample.at_metres 5000))))%Q /\
  Bot._compute_route (L := Walks.walk_lib) (Walks.asking 95 "Montserrat")
    = (Bot.record_sent Bot.DestinationOutside
         (Bot.record_sent (Bot.Computing "Montserrat")
            (Walks.asking 95 "Montserrat")), Ok tt).
Proof.
  assert (Hfar : (inject_Z Guide.FARTHEST_NODE
                  <= snd (Sample.nearest_node Sample.street
                            (reversed (Sample.at_metres 3000))))%Q)
    by (vm_compute; discriminate).
  assert (Hnear : (snd (Sample.nearest_node Sample.street
                          (reversed (Sample.at_metres 95)))
                   < inject_Z Guide.FARTHEST_NODE)%Q)
    by (vm_compute; reflexivity).
  assert (Hfar2 : (inject_Z Guide.FARTHEST_NODE
                   <= snd (Sample.nearest_node Sample.street
                             (reversed (Sample.at_metres 5000))))%Q)
    by (vm_compute; discriminate).
  split; [exact Hfar |].
  split.
  { refine (proj1 (out_of_bounds_is_reported (L := Walks.walk_lib)
                     (Walks.asking 3000 "Tibidabo") Sample.street
                     (Sample.at_metres 3000) "Tibidabo"
                     (reversed (Sample.at_metres 400)) _ _ _ _ _) Hfar);
      first [reflexivity | discriminate]. }
  split; [exact Hnear |]. split; [exact Hfar2 |].
  refine (proj2 (out_of_bounds_is_reported (L := Walks.walk_lib)
                   (Walks.asking 95 "Montserrat") Sample.street
                   (Sample.at_metres 95) "Montserrat"
                   (reversed (Sample.at_metres 5000)) _ _ _ _ _) Hnear Hfar2);
    first [reflexivity | discriminate].
Defined.

Lemma no_path_is_an_internal_error_witness :
  Sample.path_north Sample.street
    (fst (Sample.nearest_node Sample.street
            (reversed (Sample.at_metres 395))))
    (fst (Sample.nearest_node Sample.street
            (reversed (Sample.at_metres 215)))) = None /\
  Bot._compute_route (L := Walks.walk_lib) (Walks.asking 395 "Kiosk")
    = (Bot.record_sent Bot.InternalError
         (Bot.record_sent (Bot.Computing "Kiosk")
            (Walks.asking 395 "Kiosk")), Ok tt).
Proof.
  assert (Hnone : Sample.path_north Sample.street
            (fst (Sample.nearest_node Sample.street
                    (reversed (Sample.at_metres 395))))
            (fst (Sample.nearest_node Sample.street
                    (reversed (Sample.at_metres 215)))) = None)
    by (vm_compute; reflexivity).
  split; [exact Hnone |].
  refine (no_path_is_an_internal_error (L := Walks.walk_lib)
            (Walks.asking 395 "Kiosk") Sample.street
            (Sample.at_metres 395) "Kiosk"
            (reversed (Sample.at_metres 215)) _ _ _ _ _ _ _ Hnone);
    first [reflexivity | discriminate].
Defined.

Lemma unnamed_first_street_witness :
  exists g' rt first w',
    Guide.get_directions (L := Walks.walk_lib)
      (reversed (Sample.at_metres 95)) (reversed (Sample.at_metres 400))
      Walks.lane = (g', Ok rt) /\
    length rt <> 2%nat /\
    py_index rt 0 = Some first /\ s_next_name first = None /\
    Bot._compute_route (L := Walks.walk_lib)
      (Bot.set_bot_map (Some Walks.lane) (Walks.asking 95 "Tibidabo"))
      = (w', Ok tt) /\
    Bot.sent w' =
      Bot.sent (Bot.set_bot_map (Some Walks.lane) (Walks.asking 95 "Tibidabo"))
      ++ [Bot.Computing "Tibidabo";
          Bot.RoutePhoto rt (reversed (Sample.at_metres 95))
            (reversed (Sample.at_metres 400));
          Bot.InternalError] /\
    Bot.user w' =
      Bot.set_curr_chkpt (Some 0)
        (Bot.set_checkpts (Some (Z.of_nat (length rt)))
           (Bot.set_route (Some rt)
              (Bot.user (Bot.set_bot_map (Some Walks.lane)
                           (Walks.asking 95 "Tibidabo"))))) /\
    Bot.jobs w' =
      Bot.jobs (Bot.set_bot_map (Some Walks.lane) (Walks.asking 95 "Tibidabo")).
Proof.
  eexists. eexists. eexists.
  match goal with
  | |- exists w', ?A /\ ?B /\ ?C /\ ?D /\ _ =>
      assert (HA : A) by (vm_compute; reflexivity);
      assert (HB : B) by (vm_compute; discriminate);
      assert (HC : C) by (vm_compute; reflexivity);
      assert (HD : D) by (vm_compute; reflexivity)
  end.
  destruct (unnamed_first_street_is_an_internal_error (L := Walks.walk_lib)
              (Bot.set_bot_map (Some Walks.lane) (Walks.asking 95 "Tibidabo"))
              Walks.lane _ (Sample.at_metres 95) "Tibidabo"
              (reversed (Sample.at_metres 400)) _ _
              eq_refl eq_refl eq_refl ltac:(discriminate) eq_refl
              HA HB HC HD) as (w' & H1 & H2 & H3 & H4).
  exists w'. repeat (split; [assumption |]). assumption.
Defined.

Lemma go_remembers_the_target_witness :
  exists w' r,
    "Tibidabo" <> "" /\
    Bot.go (L := Sample.street_lib) "Tibidabo" Sample.located = (w', r) /\
    r = Ok tt /\ Bot.target (Bot.user w') = Some "Tibidabo" /\
    Bot.loc (Bot.user w') = Bot.loc (Bot.user Sample.located).
Proof.
  eexists. eexists.
  assert (Hne : "Tibidabo" <> "") by discriminate.
  split; [exact Hne |].
  match goal with
  | |- ?A /\ _ => assert (HA : A) by (vm_compute; reflexivity)
  end.
  split; [exact HA |].
  exact (proj2 (go_remembers_the_target (L := Sample.street_lib)
                  Sample.located) _ _ _ Hne HA).
Defined.

Lemma go_before_start_witness :
  "Tibidabo" <> "" /\
  Bot.loc (Bot.user Walks.restarted) = None /\
  Bot.inline_tapped (Bot.user Walks.restarted) = None /\
  Bot.go (L := Sample.street_lib) "Tibidabo" Walks.restarted
    = (Bot.record_sent Bot.InternalError
         (Bot.set_user (Bot.set_target (Some "Tibidabo")) Walks.restarted),
       Ok tt).
Proof.
  assert (Hne : "Tibidabo" <> "") by discriminate.
  split; [exact Hne |]. split; [reflexivity |]. split; [reflexivity |].
  exact (go_before_start_is_an_internal_error (L := Sample.street_lib)
           Walks.restarted "Tibidabo" Hne eq_refl eq_refl).
Defined.

Lemma location_update_is_always_recorded_witness :
  exists w' res,
    Bot._update_and_check (L := Sample.street_lib) (Sample.at_metres 195) 1010
      Sample.navigating = (w', res) /\
    Bot.loc (Bot.user w') = Some (Sample.at_metres 195) /\
    Bot.last_time (Bot.user w') = Some (pyint 1010) /\
    Bot.waiting (Bot.user w') = Some false /\
    Bot.target (Bot.user w') = Bot.target (Bot.user Sample.navigating) /\
    Bot.bot_map w' = Bot.bot_map Sample.navigating /\
    Bot.jobs w' = Bot.jobs Sample.navigating.
Proof.
  eexists. eexists.
  match goal with
  | |- ?A /\ _ => assert (HA : A) by (vm_compute; reflexivity)
  end.
  split; [exact HA |].
  exact (location_update_is_always_recorded (L := Sample.street_lib)
           _ _ _ _ _ HA).
Defined.

Lemma position_never_moves_back_witness :
  exists w' res,
    Bot.curr_chkpt (Bot.user Sample.navigating) = Some 0 /\
    Bot._update_and_check (L := Sample.street_lib) (Sample.at_metres 195) 1010
      Sample.navigating = (w', res) /\
    (Bot.curr_chkpt (Bot.user w') = None \/
     exists c', Bot.curr_chkpt (Bot.user w') = Some c' /\
                0 <= c' <= 0 + Bot.N).
Proof.
  eexists. eexists.
  match goal with
  | |- ?A /\ ?B /\ _ =>
      assert (HA : A) by (vm_compute; reflexivity);
      assert (HB : B) by (vm_compute; reflexivity)
  end.
  split; [exact HA |]. split; [exact HB |].
  exact (position_never_moves_back (L := Sample.street_lib)
           _ _ _ _ _ _ HA HB).
Defined.

Lemma skipped_checkpoint_witness :
  exists r here ahead after len street w',
    Bot.route (Bot.user Walks.long_walk) = Some r /\
    Bot.checkpts (Bot.user Walks.long_walk) = Some 4 /\
    Bot.curr_chkpt (Bot.user Walks.long_walk) = Some 0 /\
    py_index r 0 = Some here /\ py_index r (0 + 1) = Some ahead /\
    py_index r (0 + 2) = Some after /\
    Bot.is_reached
      (Some (pyround (Sample.meridian_distance
                        (reversed (Sample.at_metres 295))
                        (reversed (s_mid here))))) = false /\
    1 <= pyround (Sample.meridian_distance
                    (reversed (Sample.at_metres 295))
                    (reversed (s_mid ahead))) <= 19 /\
    Bot.is_reached
      (Some (pyround (Sample.meridian_distance
                        (reversed (Sample.at_metres 295))
                        (reversed (s_mid after))))) = false /\
    s_length after = Some len /\ s_current_name after = Some street /\
    Bot._update_and_check (L := Walks.walk_lib) (Sample.at_metres 295) 1010
      Walks.long_walk = (w', Ok tt) /\
    Bot.curr_chkpt (Bot.user w') = Some (0 + 2) /\
    Bot.route (Bot.user w') = Some r /\
    Bot.sent w' = Bot.sent Walks.long_walk ++
      [Bot.Guidance
         (Bot.CheckpointMessage (0 + 2) (4 - 1) (Sample.at_metres 295) street
            (Bot.classify_turn (s_angle ahead)) (pyround len))].
Proof.
  do 6 eexists.
  match goal with
  | |- exists w', ?A /\ ?B /\ ?C /\ ?D /\ ?E /\ ?F /\ ?G /\ ?H /\ ?I /\ ?J
                  /\ ?K /\ _ =>
      assert (HA : A) by (vm_compute; reflexivity);
      assert (HB : B) by (vm_compute; reflexivity);
      assert (HC : C) by (vm_compute; reflexivity);
      assert (HD : D) by (vm_compute; reflexivity);
      assert (HE : E) by (vm_compute; reflexivity);
      assert (HF : F) by (vm_compute; reflexivity);
      assert (HG : G) by (vm_compute; reflexivity);
      assert (HH : H) by (vm_compute; split; discriminate);
      assert (HI : I) by (vm_compute; reflexivity);
      assert (HJ : J) by (vm_compute; reflexivity);
      assert (HK : K) by (vm_compute; reflexivity)
  end.
  destruct (skipped_checkpoint_is_caught_up (L := Walks.walk_lib)
              Walks.long_walk (Sample.at_metres 295) 1010 _ 0 4 _ _ _ _ _
              HA HB HC ltac:(lia) ltac:(lia) HD HE HF HG HH HI HJ HK)
    as (w' & H1 & H2 & H3 & H4).
  exists w'. repeat (split; [assumption |]). assumption.
Defined.

Lemma no_warning_before_the_first_checkpoint_witness :
  exists g' rt,
    Guide.get_directions (L := Sample.street_lib)
      (reversed (Sample.at_metres 95)) (reversed (Sample.at_metres 400))
      Sample.street = (g', Ok rt) /\
    Bot.route (Bot.user Sample.navigating) = Some rt /\
    Bot.checkpts (Bot.user Sample.navigating) = Some (Z.of_nat (length rt)) /\
    Bot.curr_chkpt (Bot.user Sample.navigating) = Some 0 /\
    Bot._update_and_check (L := Sample.street_lib) (Sample.at_metres 1500) 1010
      Sample.navigating
      = (Bot.store_location (Sample.at_metres 1500) 1010 Sample.navigating,
         Ok tt).
Proof.
  eexists. eexists.
  match goal with
  | |- ?A /\ ?B /\ ?C /\ ?D /\ _ =>
      assert (HA : A) by (vm_compute; reflexivity);
      assert (HB : B) by (vm_compute; reflexivity);
      assert (HC : C) by (vm_compute; reflexivity);
      assert (HD : D) by (vm_compute; reflexivity)
  end.
  repeat (split; [assumption |]).
  apply (no_warning_before_the_first_checkpoint (L := Sample.street_lib)
           Sample.navigating Sample.street _
           (reversed (Sample.at_metres 95)) (reversed (Sample.at_metres 400))
           (Sample.at_metres 1500) 1010 _
           street_anchors_fresh street_edges_closed street_search_sound
           HA HB HC HD).
  intros i next Hi Hnext. unfold Bot.N in Hi.
  assert (Hcase : i = 0 \/ i = 1 \/ i = 2) by lia.
  destruct Hcase as [-> | [-> | ->]]; vm_compute in Hnext;
    injection Hnext as <-; vm_compute; reflexivity.
Defined.

